(** * Warehouse API: stock adjustment, movement ledger and reorder evaluation

    A shallow embedding of [app/models.py], [app/schemas.py], [app/crud.py]
    and the FastAPI endpoints of [app/api/v1/endpoints], followed by the
    properties of the stock ledger proved on it.

    Conventions of the embedding.
    - Python [int] is [Z]; the [Decimal] price with two decimal places is the
      number of hundredths, a [Z]; [Optional[T]] is [option T]; timestamps
      ([DateTime], filled by [func.now()]) are [Z].  The range of the
      [Integer] columns is not modelled.
    - A table is the list of its rows in insertion order.
    - The SQLAlchemy [Session] is a state: the stored (committed) database,
      the session's own view with its uncommitted changes, and the list of
      the states it has committed.  A crud function is a computation in the
      state-and-error monad [M] over it; [db.commit()] is an action of the
      monad, so the transactions of a function are those of the source.
    - The database enforces the constraints that [models.py] declares
      (primary keys, [unique], foreign keys, [nullable=False]) when a
      transaction commits, and the session applies the cascades that the
      relationships declare.
    - The clock of the database is an argument: [func.now()] is read from it
      once per transaction. *)

From Stdlib Require Import ZArith List String Bool Lia Arith DecimalString.
From Stdlib Require Import Sorted Permutation.
Import ListNotations.
Open Scope string_scope.
Open Scope list_scope.
Open Scope Z_scope.

(** ** Python helpers *)

(** [str(n)] of an [int]. *)
Definition str (n : Z) : string := NilZero.string_of_int (Z.to_int n).

(** [len(s)] of a [str]. *)
Definition len (s : string) : Z := Z.of_nat (String.length s).

(** Truth value of an [Optional[int]]: [None] and [0] are false. *)
Definition truthy_int (v : option Z) : bool :=
  match v with
  | None => false
  | Some n => negb (n =? 0)
  end.

(** Truth value of an [Optional[str]]: [None] and the empty string are false. *)
Definition truthy_str (v : option string) : bool :=
  match v with
  | None => false
  | Some s => negb (s =? "")%string
  end.

Definition is_some {A} (v : option A) : bool :=
  match v with Some _ => true | None => false end.

Definition option_eqb {A} (eqb : A -> A -> bool) (a b : option A) : bool :=
  match a, b with
  | None, None => true
  | Some x, Some y => eqb x y
  | _, _ => false
  end.

(** ** app/models.py *)

Module models.

  Module Category.
Record t := mk {
      id : Z;
      name : string;
      description : option string;
      created_at : Z;
      updated_at : option Z
    }.

Definition eqb (a b : t) : bool :=
      (id a =? id b) && (name a =? name b)%string
      && option_eqb String.eqb (description a) (description b)
      && (created_at a =? created_at b)
      && option_eqb Z.eqb (updated_at a) (updated_at b).

Definition set_updated_at (self : t) (ts : option Z) : t :=
      mk (id self) (name self) (description self) (created_at self) ts.
  End Category.

  Module Supplier.
Record t := mk {
      id : Z;
      name : string;
      contact_name : option string;
      email : option string;
      phone : option string;
      address : option string;
      created_at : Z;
      updated_at : option Z
    }.

Definition eqb (a b : t) : bool :=
      (id a =? id b) && (name a =? name b)%string
      && option_eqb String.eqb (contact_name a) (contact_name b)
      && option_eqb String.eqb (email a) (email b)
      && option_eqb String.eqb (phone a) (phone b)
      && option_eqb String.eqb (address a) (address b)
      && (created_at a =? created_at b)
      && option_eqb Z.eqb (updated_at a) (updated_at b).

Definition set_updated_at (self : t) (ts : option Z) : t :=
      mk (id self) (name self) (contact_name self) (email self) (phone self)
         (address self) (created_at self) ts.
  End Supplier.

  Module Product.
Record t := mk {
      id : Z;
      name : string;
      description : option string;
      sku : string;
      price : Z;
      stock_quantity : Z;
      reorder_level : Z;
      category_id : option Z;
      supplier_id : option Z;
      created_at : Z;
      updated_at : option Z
    }.

Definition eqb (a b : t) : bool :=
      (id a =? id b) && (name a =? name b)%string
      && option_eqb String.eqb (description a) (description b)
      && (sku a =? sku b)%string
      && (price a =? price b)
      && (stock_quantity a =? stock_quantity b)
      && (reorder_level a =? reorder_level b)
      && option_eqb Z.eqb (category_id a) (category_id b)
      && option_eqb Z.eqb (supplier_id a) (supplier_id b)
      && (created_at a =? created_at b)
      && option_eqb Z.eqb (updated_at a) (updated_at b).

    (** The [needs_reorder] property. *)
Definition needs_reorder (self : t) : bool :=
      stock_quantity self <=? reorder_level self.

    (** [self.stock_quantity = q] *)
Definition set_stock_quantity (self : t) (q : Z) : t :=
      mk (id self) (name self) (description self) (sku self) (price self)
         q (reorder_level self) (category_id self) (supplier_id self)
         (created_at self) (updated_at self).

Definition set_updated_at (self : t) (ts : option Z) : t :=
      mk (id self) (name self) (description self) (sku self) (price self)
         (stock_quantity self) (reorder_level self) (category_id self)
         (supplier_id self) (created_at self) ts.
  End Product.

  Module StockMovement.
Record t := mk {
      id : Z;
      product_id : Z;
      quantity : Z;
      movement_type : string;
      notes : option string;
      created_at : Z
    }.
  End StockMovement.

End models.
Import models.

(** ** app/schemas.py *)

Module schemas.

  (** A field of an update schema: left out of the request body, or given
      (possibly as [null]).  [model_dump(exclude_unset=True)] keeps exactly the
      given ones. *)
Inductive field (A : Type) : Type :=
  | unset
  | given (v : option A).
  Arguments unset {A}.
  Arguments given {A} v.

  (** Reading the attribute: [None] when the field was left out. *)
Definition value {A} (f : field A) : option A :=
    match f with
    | unset => None
    | given v => v
    end.

  (** A constraint of a [Field(None, ...)]: checked on a given non-null value. *)
Definition field_ok {A} (ok : A -> bool) (f : field A) : bool :=
    match f with
    | given (Some v) => ok v
    | _ => true
    end.

Definition opt_ok {A} (ok : A -> bool) (v : option A) : bool :=
    match v with
    | Some x => ok x
    | None => true
    end.

Definition length_between (lo hi : Z) (s : string) : bool :=
    (lo <=? len s) && (len s <=? hi).

  Module CategoryCreate.
Record t := mk { name : string; description : option string }.
Definition valid (c : t) : bool := length_between 1 100 (name c).
  End CategoryCreate.

  Module CategoryUpdate.
Record t := mk { name : field string; description : field string }.
Definition valid (c : t) : bool := field_ok (length_between 1 100) (name c).
  End CategoryUpdate.

  Module SupplierCreate.
Record t := mk {
      name : string;
      contact_name : option string;
      email : option string;
      phone : option string;
      address : option string
    }.
Definition valid (s : t) : bool :=
      length_between 1 200 (name s)
      && opt_ok (fun x => len x <=? 200) (contact_name s)
      && opt_ok (fun x => len x <=? 200) (email s)
      && opt_ok (fun x => len x <=? 50) (phone s).
  End SupplierCreate.

  Module SupplierUpdate.
Record t := mk {
      name : field string;
      contact_name : field string;
      email : field string;
      phone : field string;
      address : field string
    }.
Definition valid (s : t) : bool := field_ok (length_between 1 200) (name s).
  End SupplierUpdate.

  Module ProductCreate.
Record t := mk {
      name : string;
      description : option string;
      sku : string;
      price : Z;
      stock_quantity : Z;
      reorder_level : Z;
      category_id : option Z;
      supplier_id : option Z
    }.
    (** [ProductBase]: the [Field] constraints. *)
Definition valid (p : t) : bool :=
      length_between 1 200 (name p)
      && length_between 1 100 (sku p)
      && (0 <? price p)
      && (0 <=? stock_quantity p)
      && (0 <=? reorder_level p).
  End ProductCreate.

  Module ProductUpdate.
Record t := mk {
      name : field string;
      description : field string;
      sku : field string;
      price : field Z;
      stock_quantity : field Z;
      reorder_level : field Z;
      category_id : field Z;
      supplier_id : field Z
    }.
Definition valid (p : t) : bool :=
      field_ok (length_between 1 200) (name p)
      && field_ok (length_between 1 100) (sku p)
      && field_ok (fun x => 0 <? x) (price p)
      && field_ok (fun x => 0 <=? x) (stock_quantity p)
      && field_ok (fun x => 0 <=? x) (reorder_level p).
  End ProductUpdate.

  Module StockAdjustment.
Record t := mk { quantity : Z; notes : option string }.
  End StockAdjustment.

End schemas.
Import schemas.

(** ** The database *)

(** The four tables of [models.py]. *)
Record Db := mkDb {
  categories : list Category.t;
  suppliers : list Supplier.t;
  products : list Product.t;
  stock_movements : list StockMovement.t
}.

Definition empty_db : Db := mkDb [] [] [] [].

(** An [Integer] primary key is assigned by the database on insert: one more
    than the largest key of the table (keys start at 1). *)
Definition next_id (ids : list Z) : Z := 1 + fold_right Z.max 0 ids.

Fixpoint distinct {A} (eqb : A -> A -> bool) (l : list A) : bool :=
  match l with
  | [] => true
  | x :: l' => negb (existsb (eqb x) l') && distinct eqb l'
  end.

Definition mem (i : Z) (ids : list Z) : bool := existsb (Z.eqb i) ids.

(** A nullable foreign key refers to a row of the parent table or is NULL. *)
Definition fk_ok (ids : list Z) (ref : option Z) : bool :=
  match ref with
  | None => true
  | Some i => mem i ids
  end.

(** The constraints [models.py] declares on the tables: primary keys,
    [unique=True] on the names and on the SKU, and the three foreign keys.
    ([nullable=False] is carried by the types of the rows.) *)
Definition integrity_ok (db : Db) : bool :=
  distinct Z.eqb (map Category.id (categories db))
  && distinct String.eqb (map Category.name (categories db))
  && distinct Z.eqb (map Supplier.id (suppliers db))
  && distinct String.eqb (map Supplier.name (suppliers db))
  && distinct Z.eqb (map Product.id (products db))
  && distinct String.eqb (map Product.sku (products db))
  && forallb (fun p => fk_ok (map Category.id (categories db)) (Product.category_id p)
                       && fk_ok (map Supplier.id (suppliers db)) (Product.supplier_id p))
             (products db)
  && distinct Z.eqb (map StockMovement.id (stock_movements db))
  && forallb (fun m => mem (StockMovement.product_id m) (map Product.id (products db)))
             (stock_movements db).

(** ** The session *)

Inductive Error :=
| HTTPException (status_code : Z) (detail : string)
| RequestValidationError   (* FastAPI answers 422 *)
| IntegrityError.          (* raised by a commit; unhandled, the answer is 500 *)

(** [stored] is the committed database; [view] is what the session sees:
    [stored] with the session's pending changes.  [clock n] is what
    [func.now()] gives in the [n]-th transaction of the session, [txn] counts
    the transactions ended so far, and [commits] lists the states committed,
    oldest first. *)
Record Session := mkSession {
  stored : Db;
  view : Db;
  clock : nat -> Z;
  txn : nat;
  commits : list Db
}.

Definition M (A : Type) : Type := Session -> (Error + A) * Session.

Definition ret {A} (a : A) : M A := fun s => (inr a, s).

Definition bind {A B} (m : M A) (k : A -> M B) : M B :=
  fun s =>
    match m s with
    | (inl e, s') => (inl e, s')
    | (inr a, s') => k a s'
    end.

Definition raise {A} (e : Error) : M A := fun s => (inl e, s).

Declare Scope session_scope.
Delimit Scope session_scope with session.
Notation "x <- m ;; k" := (bind m (fun x => k))
  (at level 61, m at next level, right associativity) : session_scope.
Notation "m ;; k" := (bind m (fun _ => k))
  (at level 61, right associativity) : session_scope.
Open Scope session_scope.

(** [func.now()] in the current transaction. *)
Definition now : M Z := fun s => (inr (clock s (txn s)), s).

(** [db.query(...)]: a read of the session's view. *)
Definition query {A} (q : Db -> A) : M A := fun s => (inr (q (view s)), s).

(** A pending change ([db.add], [db.delete], an attribute assignment on a
    loaded row): visible in the session, not yet stored. *)
Definition change (f : Db -> Db) : M unit :=
  fun s => (inr tt, mkSession (stored s) (f (view s)) (clock s) (txn s) (commits s)).

(** The transaction is undone: the pending changes are dropped. *)
Definition rollback : M unit :=
  fun s => (inr tt, mkSession (stored s) (stored s) (clock s) (S (txn s)) (commits s)).

(** [db.commit()]: the pending changes are flushed and stored when they meet
    the constraints of the tables; otherwise the transaction is undone and
    [IntegrityError] is raised. *)
Definition commit : M unit :=
  fun s =>
    if integrity_ok (view s)
    then (inr tt, mkSession (view s) (view s) (clock s) (S (txn s)) (commits s ++ [view s]))
    else (inl IntegrityError, mkSession (stored s) (stored s) (clock s) (S (txn s)) (commits s)).

(** Modelled from the spec: [app/database.py] ([get_db], the session factory)
    is not among the sources; the spec speaks of an ambient transaction scope
    around each operation.  A request runs in a session of its own, opened on
    the stored database; what it has not committed when it ends is lost.  The
    result is the stored database after the request, the answer, and the
    states committed. *)
Definition run {A} (op : M A) (clk : nat -> Z) (db : Db) : Db * (Error + A) * list Db :=
  let '(r, s) := op (mkSession db db clk 0%nat []) in
  (stored s, r, commits s).

Definition db_after {A} (x : Db * (Error + A) * list Db) : Db := fst (fst x).
Definition answer {A} (x : Db * (Error + A) * list Db) : Error + A := snd (fst x).
Definition committed {A} (x : Db * (Error + A) * list Db) : list Db := snd x.

(** *** Rows added, changed and deleted through the session *)

Definition with_categories (db : Db) (l : list Category.t) : Db :=
  mkDb l (suppliers db) (products db) (stock_movements db).
Definition with_suppliers (db : Db) (l : list Supplier.t) : Db :=
  mkDb (categories db) l (products db) (stock_movements db).
Definition with_products (db : Db) (l : list Product.t) : Db :=
  mkDb (categories db) (suppliers db) l (stock_movements db).
Definition with_stock_movements (db : Db) (l : list StockMovement.t) : Db :=
  mkDb (categories db) (suppliers db) (products db) l.

(** [db.add(models.Category(...))]: the row gets its key and
    [created_at = func.now()] ([server_default]). *)
Definition add_category (c : CategoryCreate.t) : M Category.t :=
  ts <- now;;
  i <- query (fun db => next_id (map Category.id (categories db)));;
  let row := Category.mk i (CategoryCreate.name c) (CategoryCreate.description c) ts None in
  change (fun db => with_categories db (categories db ++ [row]));;
  ret row.

Definition add_supplier (c : SupplierCreate.t) : M Supplier.t :=
  ts <- now;;
  i <- query (fun db => next_id (map Supplier.id (suppliers db)));;
  let row := Supplier.mk i (SupplierCreate.name c) (SupplierCreate.contact_name c)
               (SupplierCreate.email c) (SupplierCreate.phone c)
               (SupplierCreate.address c) ts None in
  change (fun db => with_suppliers db (suppliers db ++ [row]));;
  ret row.

(** [db.add(db_product)], the row built from [product.model_dump()]. *)
Definition add_product (c : ProductCreate.t) : M Product.t :=
  ts <- now;;
  i <- query (fun db => next_id (map Product.id (products db)));;
  let row := Product.mk i (ProductCreate.name c) (ProductCreate.description c)
               (ProductCreate.sku c) (ProductCreate.price c)
               (ProductCreate.stock_quantity c) (ProductCreate.reorder_level c)
               (ProductCreate.category_id c) (ProductCreate.supplier_id c) ts None in
  change (fun db => with_products db (products db ++ [row]));;
  ret row.

(** [db.add(models.StockMovement(product_id=..., quantity=...,
    movement_type=..., notes=...))] *)
Definition add_stock_movement (product_id quantity : Z) (movement_type : string)
    (notes : option string) : M StockMovement.t :=
  ts <- now;;
  i <- query (fun db => next_id (map StockMovement.id (stock_movements db)));;
  let row := StockMovement.mk i product_id quantity movement_type notes ts in
  change (fun db => with_stock_movements db (stock_movements db ++ [row]));;
  ret row.

(** A loaded row whose attributes were assigned is written back by the flush
    of the next commit.  The UPDATE is emitted only when a column has a new
    value, and it then sets [updated_at = func.now()] ([onupdate]).  The
    embedding writes a text of any length: the width of a [String(n)] column,
    which the database enforces by refusing a longer value with nothing
    stored, is not part of it.  The schemas keep the texts of a request
    within the widths, but for the contact fields of [SupplierUpdate], which
    have no [max_length]: what is stated of a request to update a supplier
    being carried out is stated for fields that fit their columns
    ([supplier_columns_ok]). *)
Definition flush_category (ts : Z) (row : Category.t) (db : Db) : Db :=
  with_categories db
    (map (fun r => if Category.id r =? Category.id row
                   then (if Category.eqb r row then r
                         else Category.set_updated_at row (Some ts))
                   else r)
         (categories db)).

Definition flush_supplier (ts : Z) (row : Supplier.t) (db : Db) : Db :=
  with_suppliers db
    (map (fun r => if Supplier.id r =? Supplier.id row
                   then (if Supplier.eqb r row then r
                         else Supplier.set_updated_at row (Some ts))
                   else r)
         (suppliers db)).

Definition flush_product (ts : Z) (row : Product.t) (db : Db) : Db :=
  with_products db
    (map (fun r => if Product.id r =? Product.id row
                   then (if Product.eqb r row then r
                         else Product.set_updated_at row (Some ts))
                   else r)
         (products db)).

Definition save_category (row : Category.t) : M unit :=
  ts <- now;; change (flush_category ts row).
Definition save_supplier (row : Supplier.t) : M unit :=
  ts <- now;; change (flush_supplier ts row).
Definition save_product (row : Product.t) : M unit :=
  ts <- now;; change (flush_product ts row).

(** [db.refresh(row)]: the row is read again by its key. *)
Definition refresh_category (row : Category.t) : M Category.t :=
  query (fun db =>
    match find (fun r => Category.id r =? Category.id row) (categories db) with
    | Some r => r
    | None => row
    end).

Definition refresh_supplier (row : Supplier.t) : M Supplier.t :=
  query (fun db =>
    match find (fun r => Supplier.id r =? Supplier.id row) (suppliers db) with
    | Some r => r
    | None => row
    end).

Definition refresh_product (row : Product.t) : M Product.t :=
  query (fun db =>
    match find (fun r => Product.id r =? Product.id row) (products db) with
    | Some r => r
    | None => row
    end).

(** Deleting products through the session.  [Product.stock_movements] is a
    relationship with [cascade="all, delete-orphan"]: the session deletes the
    stock movements of every product it deletes. *)
Definition delete_products (doomed : Product.t -> bool) (db : Db) : Db :=
  let gone := map Product.id (filter doomed (products db)) in
  mkDb (categories db) (suppliers db)
       (filter (fun p => negb (doomed p)) (products db))
       (filter (fun m => negb (mem (StockMovement.product_id m) gone)) (stock_movements db)).

(** [db.delete(db_product)] *)
Definition delete_product_row (row : Product.t) : M unit :=
  change (delete_products (fun p => Product.id p =? Product.id row)).

(** [db.delete(db_category)].  [Category.products] is declared with
    [cascade="all, delete-orphan"] ([models.py], line 22): the session loads
    the products of the category and deletes them, each with its stock
    movements, before it deletes the category.  No product is left for the
    foreign key's [ondelete="SET NULL"] to act on. *)
Definition delete_category_row (row : Category.t) : M unit :=
  change (fun db =>
    let db' := delete_products
                 (fun p => option_eqb Z.eqb (Product.category_id p) (Some (Category.id row))) db in
    with_categories db'
      (filter (fun c => negb (Category.id c =? Category.id row)) (categories db'))).

(** [db.delete(db_supplier)]: [Supplier.products] has the same cascade
    ([models.py], line 44). *)
Definition delete_supplier_row (row : Supplier.t) : M unit :=
  change (fun db =>
    let db' := delete_products
                 (fun p => option_eqb Z.eqb (Product.supplier_id p) (Some (Supplier.id row))) db in
    with_suppliers db'
      (filter (fun c => negb (Supplier.id c =? Supplier.id row)) (suppliers db'))).

(** The loop [for field, value in update_data.items(): setattr(row, field,
    value)] over [model_dump(exclude_unset=True)].  A column declared
    [nullable=False] that is assigned [None] makes the flush fail: the result
    is then [None]. *)
Definition assign_required {A} (f : field A) (old : A) : option A :=
  match f with
  | unset => Some old
  | given (Some v) => Some v
  | given None => None
  end.

Definition assign {A} (f : field A) (old : option A) : option A :=
  match f with
  | unset => old
  | given v => v
  end.

Definition setattrs_category (row : Category.t) (u : CategoryUpdate.t) : option Category.t :=
  match assign_required (CategoryUpdate.name u) (Category.name row) with
  | Some n =>
      Some (Category.mk (Category.id row) n
              (assign (CategoryUpdate.description u) (Category.description row))
              (Category.created_at row) (Category.updated_at row))
  | None => None
  end.

Definition setattrs_supplier (row : Supplier.t) (u : SupplierUpdate.t) : option Supplier.t :=
  match assign_required (SupplierUpdate.name u) (Supplier.name row) with
  | Some n =>
      Some (Supplier.mk (Supplier.id row) n
              (assign (SupplierUpdate.contact_name u) (Supplier.contact_name row))
              (assign (SupplierUpdate.email u) (Supplier.email row))
              (assign (SupplierUpdate.phone u) (Supplier.phone row))
              (assign (SupplierUpdate.address u) (Supplier.address row))
              (Supplier.created_at row) (Supplier.updated_at row))
  | None => None
  end.

Definition setattrs_product (row : Product.t) (u : ProductUpdate.t) : option Product.t :=
  match assign_required (ProductUpdate.name u) (Product.name row),
        assign_required (ProductUpdate.sku u) (Product.sku row),
        assign_required (ProductUpdate.price u) (Product.price row),
        assign_required (ProductUpdate.stock_quantity u) (Product.stock_quantity row),
        assign_required (ProductUpdate.reorder_level u) (Product.reorder_level row) with
  | Some n, Some s, Some pr, Some q, Some r =>
      Some (Product.mk (Product.id row) n
              (assign (ProductUpdate.description u) (Product.description row))
              s pr q r
              (assign (ProductUpdate.category_id u) (Product.category_id row))
              (assign (ProductUpdate.supplier_id u) (Product.supplier_id row))
              (Product.created_at row) (Product.updated_at row))
  | _, _, _, _, _ => None
  end.

(** ** app/crud.py *)

Module crud.

Definition HTTP_400_BAD_REQUEST : Z := 400.
Definition HTTP_404_NOT_FOUND : Z := 404.

  (** *** Category *)

Definition get_category (category_id : Z) : M (option Category.t) :=
    query (fun db => find (fun c => Category.id c =? category_id) (categories db)).

Definition get_category_by_name (name : string) : M (option Category.t) :=
    query (fun db => find (fun c => (Category.name c =? name)%string) (categories db)).

Definition create_category (category : CategoryCreate.t) : M Category.t :=
    existing <- get_category_by_name (CategoryCreate.name category);;
    if is_some existing
    then raise (HTTPException HTTP_400_BAD_REQUEST
                  ("Category with name '" ++ CategoryCreate.name category ++ "' already exists"))
    else
      db_category <- add_category category;;
      commit;;
      refresh_category db_category.

Definition update_category (category_id : Z) (category : CategoryUpdate.t) : M Category.t :=
    db_category <- get_category category_id;;
    match db_category with
    | None =>
        raise (HTTPException HTTP_404_NOT_FOUND
                 ("Category with id " ++ str category_id ++ " not found"))
    | Some db_category =>
        conflict <-
          (if truthy_str (value (CategoryUpdate.name category))
           then
             existing <- get_category_by_name
                           (match value (CategoryUpdate.name category) with
                            | Some n => n | None => "" end);;
             ret (match existing with
                  | Some e => negb (Category.id e =? category_id)
                  | None => false
                  end)
           else ret false);;
        if (conflict : bool)
        then raise (HTTPException HTTP_400_BAD_REQUEST
                      ("Category with name '"
                       ++ match value (CategoryUpdate.name category) with
                          | Some n => n | None => "" end
                       ++ "' already exists"))
        else
          match setattrs_category db_category category with
          | Some row =>
              save_category row;;
              commit;;
              refresh_category row
          | None => rollback;; raise IntegrityError
          end
    end.

Definition delete_category (category_id : Z) : M unit :=
    db_category <- get_category category_id;;
    match db_category with
    | None =>
        raise (HTTPException HTTP_404_NOT_FOUND
                 ("Category with id " ++ str category_id ++ " not found"))
    | Some db_category =>
        delete_category_row db_category;;
        commit
    end.

  (** *** Supplier *)

Definition get_supplier (supplier_id : Z) : M (option Supplier.t) :=
    query (fun db => find (fun c => Supplier.id c =? supplier_id) (suppliers db)).

Definition get_supplier_by_name (name : string) : M (option Supplier.t) :=
    query (fun db => find (fun c => (Supplier.name c =? name)%string) (suppliers db)).

Definition create_supplier (supplier : SupplierCreate.t) : M Supplier.t :=
    existing <- get_supplier_by_name (SupplierCreate.name supplier);;
    if is_some existing
    then raise (HTTPException HTTP_400_BAD_REQUEST
                  ("Supplier with name '" ++ SupplierCreate.name supplier ++ "' already exists"))
    else
      db_supplier <- add_supplier supplier;;
      commit;;
      refresh_supplier db_supplier.

Definition update_supplier (supplier_id : Z) (supplier : SupplierUpdate.t) : M Supplier.t :=
    db_supplier <- get_supplier supplier_id;;
    match db_supplier with
    | None =>
        raise (HTTPException HTTP_404_NOT_FOUND
                 ("Supplier with id " ++ str supplier_id ++ " not found"))
    | Some db_supplier =>
        conflict <-
          (if truthy_str (value (SupplierUpdate.name supplier))
           then
             existing <- get_supplier_by_name
                           (match value (SupplierUpdate.name supplier) with
                            | Some n => n | None => "" end);;
             ret (match existing with
                  | Some e => negb (Supplier.id e =? supplier_id)
                  | None => false
                  end)
           else ret false);;
        if (conflict : bool)
        then raise (HTTPException HTTP_400_BAD_REQUEST
                      ("Supplier with name '"
                       ++ match value (SupplierUpdate.name supplier) with
                          | Some n => n | None => "" end
                       ++ "' already exists"))
        else
          match setattrs_supplier db_supplier supplier with
          | Some row =>
              save_supplier row;;
              commit;;
              refresh_supplier row
          | None => rollback;; raise IntegrityError
          end
    end.

Definition delete_supplier (supplier_id : Z) : M unit :=
    db_supplier <- get_supplier supplier_id;;
    match db_supplier with
    | None =>
        raise (HTTPException HTTP_404_NOT_FOUND
                 ("Supplier with id " ++ str supplier_id ++ " not found"))
    | Some db_supplier =>
        delete_supplier_row db_supplier;;
        commit
    end.

  (** *** Product *)

Definition get_product (product_id : Z) : M (option Product.t) :=
    query (fun db => find (fun p => Product.id p =? product_id) (products db)).

Definition get_product_by_sku (sku : string) : M (option Product.t) :=
    query (fun db => find (fun p => (Product.sku p =? sku)%string) (products db)).

  (** The filter compares the two columns in SQL; it does not call
      [Product.needs_reorder]. *)
Definition get_low_stock_products : M (list Product.t) :=
    query (fun db =>
      filter (fun p => Product.stock_quantity p <=? Product.reorder_level p) (products db)).

  (** "Verify foreign keys exist": [if ref: if not get(ref): raise 404]. *)
Definition verify_category (ref : option Z) : M unit :=
    if truthy_int ref
    then
      let category_id := match ref with Some i => i | None => 0 end in
      category <- get_category category_id;;
      if is_some category then ret tt
      else raise (HTTPException HTTP_404_NOT_FOUND
                    ("Category with id " ++ str category_id ++ " not found"))
    else ret tt.

Definition verify_supplier (ref : option Z) : M unit :=
    if truthy_int ref
    then
      let supplier_id := match ref with Some i => i | None => 0 end in
      supplier <- get_supplier supplier_id;;
      if is_some supplier then ret tt
      else raise (HTTPException HTTP_404_NOT_FOUND
                    ("Supplier with id " ++ str supplier_id ++ " not found"))
    else ret tt.

Definition create_product (product : ProductCreate.t) : M Product.t :=
    existing <- get_product_by_sku (ProductCreate.sku product);;
    if is_some existing
    then raise (HTTPException HTTP_400_BAD_REQUEST
                  ("Product with SKU '" ++ ProductCreate.sku product ++ "' already exists"))
    else
      verify_category (ProductCreate.category_id product);;
      verify_supplier (ProductCreate.supplier_id product);;
      db_product <- add_product product;;
      commit;;
      db_product <- refresh_product db_product;;
      (if ProductCreate.stock_quantity product >? 0
       then
         add_stock_movement (Product.id db_product) (ProductCreate.stock_quantity product)
           "initial_stock" (Some "Initial stock entry");;
         commit
       else ret tt);;
      ret db_product.

Definition update_product (product_id : Z) (product : ProductUpdate.t) : M Product.t :=
    db_product <- get_product product_id;;
    match db_product with
    | None =>
        raise (HTTPException HTTP_404_NOT_FOUND
                 ("Product with id " ++ str product_id ++ " not found"))
    | Some db_product =>
        conflict <-
          (if truthy_str (value (ProductUpdate.sku product))
           then
             existing <- get_product_by_sku
                           (match value (ProductUpdate.sku product) with
                            | Some n => n | None => "" end);;
             ret (match existing with
                  | Some e => negb (Product.id e =? product_id)
                  | None => false
                  end)
           else ret false);;
        if (conflict : bool)
        then raise (HTTPException HTTP_400_BAD_REQUEST
                      ("Product with SKU '"
                       ++ match value (ProductUpdate.sku product) with
                          | Some n => n | None => "" end
                       ++ "' already exists"))
        else
          verify_category (value (ProductUpdate.category_id product));;
          verify_supplier (value (ProductUpdate.supplier_id product));;
          match setattrs_product db_product product with
          | Some row =>
              save_product row;;
              commit;;
              refresh_product row
          | None => rollback;; raise IntegrityError
          end
    end.

Definition delete_product (product_id : Z) : M unit :=
    db_product <- get_product product_id;;
    match db_product with
    | None =>
        raise (HTTPException HTTP_404_NOT_FOUND
                 ("Product with id " ++ str product_id ++ " not found"))
    | Some db_product =>
        delete_product_row db_product;;
        commit
    end.

Definition adjust_product_stock (product_id : Z) (adjustment : StockAdjustment.t)
      : M Product.t :=
    db_product <- get_product product_id;;
    match db_product with
    | None =>
        raise (HTTPException HTTP_404_NOT_FOUND
                 ("Product with id " ++ str product_id ++ " not found"))
    | Some db_product =>
        let new_quantity :=
          Product.stock_quantity db_product + StockAdjustment.quantity adjustment in
        if new_quantity <? 0
        then raise (HTTPException HTTP_400_BAD_REQUEST
                      ("Insufficient stock. Current: "
                       ++ str (Product.stock_quantity db_product)
                       ++ ", Requested: "
                       ++ str (Z.abs (StockAdjustment.quantity adjustment))))
        else
          let db_product := Product.set_stock_quantity db_product new_quantity in
          save_product db_product;;
          let movement_type :=
            if StockAdjustment.quantity adjustment >? 0 then "stock_in" else "stock_out" in
          add_stock_movement product_id (StockAdjustment.quantity adjustment)
            movement_type (StockAdjustment.notes adjustment);;
          commit;;
          refresh_product db_product
    end.

  (** [ORDER BY created_at DESC]: rows are put in descending order of
      [created_at]; rows with the same [created_at] keep the order of the
      table.  The query has no second sort key and the database promises no
      order among rows of the same [created_at]: that order is a choice of
      this embedding.  The statements about the order of a history hold for
      every descending order of [created_at] ([is_history_of]), or assume
      that the rows have distinct [created_at]. *)
Fixpoint insert_desc (m : StockMovement.t) (l : list StockMovement.t)
      : list StockMovement.t :=
    match l with
    | [] => [m]
    | x :: l' =>
        if StockMovement.created_at x <=? StockMovement.created_at m
        then m :: x :: l'
        else x :: insert_desc m l'
    end.

Definition order_by_created_at_desc (l : list StockMovement.t) : list StockMovement.t :=
    fold_right insert_desc [] l.

  (** The endpoint passes [skip >= 0] and [limit >= 1] only. *)
Definition get_product_stock_history (product_id skip limit : Z)
      : M (list StockMovement.t) :=
    query (fun db =>
      firstn (Z.to_nat limit)
        (skipn (Z.to_nat skip)
           (order_by_created_at_desc
              (filter (fun m => StockMovement.product_id m =? product_id)
                 (stock_movements db))))).

End crud.

(** ** app/api/v1/endpoints *)

Module endpoints.

  (** A request body is validated against its schema before the endpoint
      runs; FastAPI answers 422 when it does not meet the [Field]
      constraints. *)
Definition validated {A} (valid : bool) (op : M A) : M A :=
    if valid then op else raise RequestValidationError.

  Module categories.
Definition create_category (category : CategoryCreate.t) : M Category.t :=
      validated (CategoryCreate.valid category) (crud.create_category category).

Definition update_category (category_id : Z) (category : CategoryUpdate.t)
        : M Category.t :=
      validated (CategoryUpdate.valid category) (crud.update_category category_id category).

Definition delete_category (category_id : Z) : M unit :=
      crud.delete_category category_id.
  End categories.

  Module suppliers.
Definition create_supplier (supplier : SupplierCreate.t) : M Supplier.t :=
      validated (SupplierCreate.valid supplier) (crud.create_supplier supplier).

Definition update_supplier (supplier_id : Z) (supplier : SupplierUpdate.t)
        : M Supplier.t :=
      validated (SupplierUpdate.valid supplier) (crud.update_supplier supplier_id supplier).

Definition delete_supplier (supplier_id : Z) : M unit :=
      crud.delete_supplier supplier_id.
  End suppliers.

  Module products.
Definition create_product (product : ProductCreate.t) : M Product.t :=
      validated (ProductCreate.valid product) (crud.create_product product).

Definition get_low_stock_products : M (list Product.t) :=
      crud.get_low_stock_products.

Definition get_product (product_id : Z) : M Product.t :=
      product <- crud.get_product product_id;;
      match product with
      | None =>
          raise (HTTPException crud.HTTP_404_NOT_FOUND
                   ("Product with id " ++ str product_id ++ " not found"))
      | Some product => ret product
      end.

Definition update_product (product_id : Z) (product : ProductUpdate.t) : M Product.t :=
      validated (ProductUpdate.valid product) (crud.update_product product_id product).

Definition delete_product (product_id : Z) : M unit :=
      crud.delete_product product_id.

Definition adjust_stock (product_id : Z) (adjustment : StockAdjustment.t) : M Product.t :=
      crud.adjust_product_stock product_id adjustment.

    (** [skip: int = Query(0, ge=0)], [limit: int = Query(100, ge=1, le=1000)] *)
Definition get_stock_history (product_id skip limit : Z) : M (list StockMovement.t) :=
      validated ((0 <=? skip) && (1 <=? limit) && (limit <=? 1000))
        (crud.get_product_stock_history product_id skip limit).
  End products.

End endpoints.

(** ** The service: requests that write, served one after the other *)

Inductive Request :=
| POST_category (category : CategoryCreate.t)
| PUT_category (category_id : Z) (category : CategoryUpdate.t)
| DELETE_category (category_id : Z)
| POST_supplier (supplier : SupplierCreate.t)
| PUT_supplier (supplier_id : Z) (supplier : SupplierUpdate.t)
| DELETE_supplier (supplier_id : Z)
| POST_product (product : ProductCreate.t)
| PUT_product (product_id : Z) (product : ProductUpdate.t)
| DELETE_product (product_id : Z)
| POST_adjust_stock (product_id : Z) (adjustment : StockAdjustment.t).

(** The stored database after a request served with the clock [clk]. *)
Definition serve (db : Db) (rq : Request * (nat -> Z)) : Db :=
  let '(r, clk) := rq in
  match r with
  | POST_category c => db_after (run (endpoints.categories.create_category c) clk db)
  | PUT_category i c => db_after (run (endpoints.categories.update_category i c) clk db)
  | DELETE_category i => db_after (run (endpoints.categories.delete_category i) clk db)
  | POST_supplier c => db_after (run (endpoints.suppliers.create_supplier c) clk db)
  | PUT_supplier i c => db_after (run (endpoints.suppliers.update_supplier i c) clk db)
  | DELETE_supplier i => db_after (run (endpoints.suppliers.delete_supplier i) clk db)
  | POST_product p => db_after (run (endpoints.products.create_product p) clk db)
  | PUT_product i p => db_after (run (endpoints.products.update_product i p) clk db)
  | DELETE_product i => db_after (run (endpoints.products.delete_product i) clk db)
  | POST_adjust_stock i a => db_after (run (endpoints.products.adjust_stock i a) clk db)
  end.

Definition serve_all (db : Db) (rqs : list (Request * (nat -> Z))) : Db :=
  fold_left serve rqs db.

(** ** The listing queries of app/crud.py and their endpoints *)

(** [query.offset(skip).limit(limit).all()] on rows in table order.  The
    endpoints pass [skip >= 0] and [limit >= 1] only.  The listing queries
    have no [ORDER BY], and the database promises no order for their rows:
    the order of the table is a choice of this embedding, and the statements
    about the listings speak of which rows a page holds and of how many, not
    of their order. *)
Definition paginate {A} (skip limit : Z) (rows : list A) : list A :=
  firstn (Z.to_nat limit) (skipn (Z.to_nat skip) rows).

Module listing.

Definition get_categories (skip limit : Z) : M (list Category.t) :=
  query (fun db => paginate skip limit (categories db)).

Definition get_suppliers (skip limit : Z) : M (list Supplier.t) :=
  query (fun db => paginate skip limit (suppliers db)).

Section Search.

(** [column.ilike(pattern)] is evaluated by the database; it is a parameter
    of the embedding.  On a NULL column the comparison is NULL, which an OR
    keeps only when another operand is true: it counts as false. *)
Variable ilike : string -> string -> bool.

Definition search_filter (search : string) (p : Product.t) : bool :=
  let pattern := ("%" ++ search ++ "%")%string in
  ilike (Product.name p) pattern
  || match Product.description p with
     | Some d => ilike d pattern
     | None => false
     end
  || ilike (Product.sku p) pattern.

(** [get_products]: each filter is applied when its argument is truthy. *)
Definition get_products (skip limit : Z) (category_id supplier_id : option Z)
    (search : option string) : M (list Product.t) :=
  query (fun db =>
    let q := products db in
    let q := if truthy_int category_id
             then filter (fun p => option_eqb Z.eqb (Product.category_id p) category_id) q
             else q in
    let q := if truthy_int supplier_id
             then filter (fun p => option_eqb Z.eqb (Product.supplier_id p) supplier_id) q
             else q in
    let q := if truthy_str search
             then filter (search_filter (match search with Some x => x | None => "" end)) q
             else q in
    paginate skip limit q).

(** [skip: int = Query(0, ge=0)], [limit: int = Query(100, ge=1, le=1000)] *)
Definition pagination_ok (skip limit : Z) : bool :=
  (0 <=? skip) && (1 <=? limit) && (limit <=? 1000).

Definition list_products (skip limit : Z) (category_id supplier_id : option Z)
    (search : option string) : M (list Product.t) :=
  endpoints.validated (pagination_ok skip limit)
    (get_products skip limit category_id supplier_id search).

Definition get_category_products (category_id skip limit : Z) : M (list Product.t) :=
  endpoints.validated (pagination_ok skip limit)
    (category <- crud.get_category category_id;;
     if is_some category
     then get_products skip limit (Some category_id) None None
     else raise (HTTPException crud.HTTP_404_NOT_FOUND
                   ("Category with id " ++ str category_id ++ " not found"))).

Definition get_supplier_products (supplier_id skip limit : Z) : M (list Product.t) :=
  endpoints.validated (pagination_ok skip limit)
    (supplier <- crud.get_supplier supplier_id;;
     if is_some supplier
     then get_products skip limit None (Some supplier_id) None
     else raise (HTTPException crud.HTTP_404_NOT_FOUND
                   ("Supplier with id " ++ str supplier_id ++ " not found"))).

End Search.

Definition list_categories (skip limit : Z) : M (list Category.t) :=
  endpoints.validated (pagination_ok skip limit) (get_categories skip limit).

Definition list_suppliers (skip limit : Z) : M (list Supplier.t) :=
  endpoints.validated (pagination_ok skip limit) (get_suppliers skip limit).

Definition get_category (category_id : Z) : M Category.t :=
  category <- crud.get_category category_id;;
  match category with
  | None =>
      raise (HTTPException crud.HTTP_404_NOT_FOUND
               ("Category with id " ++ str category_id ++ " not found"))
  | Some category => ret category
  end.

Definition get_supplier (supplier_id : Z) : M Supplier.t :=
  supplier <- crud.get_supplier supplier_id;;
  match supplier with
  | None =>
      raise (HTTPException crud.HTTP_404_NOT_FOUND
               ("Supplier with id " ++ str supplier_id ++ " not found"))
  | Some supplier => ret supplier
  end.

End listing.

(** * Notions used in the statements *)

(** ** The constraints and the invariant *)

(** The constraints of the tables, as propositions. *)
Record Integrity (db : Db) : Prop := mkIntegrity {
  category_keys : NoDup (map Category.id (categories db));
  category_names : NoDup (map Category.name (categories db));
  supplier_keys : NoDup (map Supplier.id (suppliers db));
  supplier_names : NoDup (map Supplier.name (suppliers db));
  product_keys : NoDup (map Product.id (products db));
  product_skus : NoDup (map Product.sku (products db));
  product_refs :
    forall p, In p (products db) ->
      fk_ok (map Category.id (categories db)) (Product.category_id p) = true
      /\ fk_ok (map Supplier.id (suppliers db)) (Product.supplier_id p) = true;
  movement_keys : NoDup (map StockMovement.id (stock_movements db));
  movement_refs :
    forall m, In m (stock_movements db) ->
      In (StockMovement.product_id m) (map Product.id (products db))
}.

(** No product has a negative stock quantity. *)
Definition nonneg_stock (db : Db) : Prop :=
  forall p, In p (products db) -> 0 <= Product.stock_quantity p.

(** The values a [Column(Integer)] holds on the PostgreSQL database of
    [config.py]: 32-bit signed integers.  The integers of the embedding are
    those of Python, unbounded; the database refuses a value out of this range
    when the row is written, and nothing is stored. *)
Definition Integer_ok (v : Z) : bool := (-2147483648 <=? v) && (v <=? 2147483647).

(** The invariant of the stored database: the constraints of the tables hold
    and no stock quantity is negative. *)
Definition sound (db : Db) : Prop := integrity_ok db = true /\ nonneg_stock db.

(** ** The states the operations commit *)

(** The database an adjustment commits: the product row written back and one
    stock movement appended. *)
Definition adjusted (db : Db) (ts : Z) (product_id : Z) (p : Product.t)
    (adjustment : StockAdjustment.t) : Db :=
  let q := StockAdjustment.quantity adjustment in
  let db1 := flush_product ts (Product.set_stock_quantity p (Product.stock_quantity p + q)) db in
  with_stock_movements db1
    (stock_movements db1
     ++ [StockMovement.mk (next_id (map StockMovement.id (stock_movements db1)))
           product_id q (if q >? 0 then "stock_in" else "stock_out")
           (StockAdjustment.notes adjustment) ts]).

(** The row [create_product] adds for a request, and the two states it
    commits: the product alone, then the product with its initial movement. *)
Definition created_row (db : Db) (ts : Z) (product : ProductCreate.t) : Product.t :=
  Product.mk (next_id (map Product.id (products db)))
    (ProductCreate.name product) (ProductCreate.description product)
    (ProductCreate.sku product) (ProductCreate.price product)
    (ProductCreate.stock_quantity product) (ProductCreate.reorder_level product)
    (ProductCreate.category_id product) (ProductCreate.supplier_id product) ts None.

Definition created (db : Db) (ts : Z) (product : ProductCreate.t) : Db :=
  with_products db (products db ++ [created_row db ts product]).

Definition initial_movement (db1 : Db) (ts : Z) (product_id quantity : Z) : StockMovement.t :=
  StockMovement.mk (next_id (map StockMovement.id (stock_movements db1)))
    product_id quantity "initial_stock" (Some "Initial stock entry") ts.

Definition created_with_stock (db1 : Db) (ts : Z) (product_id quantity : Z) : Db :=
  with_stock_movements db1
    (stock_movements db1 ++ [initial_movement db1 ts product_id quantity]).

(** The database after the session has deleted a category, or a supplier,
    with the cascade of its relationship. *)
Definition category_deleted (db : Db) (category_id : Z) : Db :=
  let db' := delete_products
               (fun p => option_eqb Z.eqb (Product.category_id p) (Some category_id)) db in
  with_categories db' (filter (fun c => negb (Category.id c =? category_id)) (categories db')).

Definition supplier_deleted (db : Db) (supplier_id : Z) : Db :=
  let db' := delete_products
               (fun p => option_eqb Z.eqb (Product.supplier_id p) (Some supplier_id)) db in
  with_suppliers db' (filter (fun c => negb (Supplier.id c =? supplier_id)) (suppliers db')).

(** ** The history of a product *)

(** The stock movements of a product. *)
Definition movements_of (db : Db) (product_id : Z) : list StockMovement.t :=
  filter (fun m => StockMovement.product_id m =? product_id) (stock_movements db).

(** A product and its movements are committed together in a list of states
    when no state of the list holds the product without a movement for it. *)
Definition committed_together (states : list Db) (product_id : Z) : Prop :=
  forall s, In s states ->
    In product_id (map Product.id (products s)) -> movements_of s product_id <> [].

(** The whole history of a product, newest first. *)
Definition history_of (db : Db) (product_id : Z) : list StockMovement.t :=
  crud.order_by_created_at_desc
    (filter (fun m => StockMovement.product_id m =? product_id) (stock_movements db)).

(** [a] is at least as recent as [b]: the order of [ORDER BY created_at DESC]. *)
Definition not_older (a b : StockMovement.t) : Prop :=
  StockMovement.created_at b <= StockMovement.created_at a.

(** What the database promises of the result of the history query, whatever
    it does with rows of the same [created_at]: the rows of the product, in
    descending order of [created_at]. *)
Definition is_history_of (db : Db) (product_id : Z) (h : list StockMovement.t) : Prop :=
  Permutation h (movements_of db product_id) /\ StronglySorted not_older h.

(** The clamping of the pagination values that the spec describes (limit into
    [1, 1000], offset to at least 0).  The code has no counterpart; these are
    used to state the spec's sentence. *)
Definition spec_clamp_limit (limit : Z) : Z := Z.max 1 (Z.min 1000 limit).

Definition spec_clamp_offset (skip : Z) : Z := Z.max 0 skip.

(** ** The update requests that are carried out *)

(** [update_product]'s check of the SKU: the SKU given is that of another
    product. *)
Definition sku_conflict (db : Db) (product_id : Z) (u : ProductUpdate.t) : bool :=
  if truthy_str (value (ProductUpdate.sku u))
  then
    match find (fun p => (Product.sku p
                          =? match value (ProductUpdate.sku u) with
                             | Some n => n | None => "" end)%string)
            (products db) with
    | Some e => negb (Product.id e =? product_id)
    | None => false
    end
  else false.

Definition not_null {A} (f : field A) : bool :=
  match f with
  | given None => false
  | _ => true
  end.

(** The update requests that [update_product] carries out on the product
    [product_id]: no column declared [nullable=False] is given as null, the
    SKU given is that of no other product, and the category and the supplier
    given exist. *)
Definition update_passes (db : Db) (product_id : Z) (u : ProductUpdate.t) : bool :=
  not_null (ProductUpdate.name u) && not_null (ProductUpdate.sku u)
  && not_null (ProductUpdate.price u) && not_null (ProductUpdate.stock_quantity u)
  && not_null (ProductUpdate.reorder_level u)
  && match value (ProductUpdate.sku u) with
     | Some s => forallb (fun p => negb (Product.sku p =? s)%string
                                   || (Product.id p =? product_id))
                   (products db)
     | None => true
     end
  && fk_ok (map Category.id (categories db)) (value (ProductUpdate.category_id u))
  && fk_ok (map Supplier.id (suppliers db)) (value (ProductUpdate.supplier_id u)).

(** The row the assignments of an update give when no required column is
    given as null. *)
Definition assigned {A} (f : field A) (old : A) : A :=
  match f with
  | given (Some v) => v
  | _ => old
  end.

Definition updated_row (row : Product.t) (u : ProductUpdate.t) : Product.t :=
  Product.mk (Product.id row)
    (assigned (ProductUpdate.name u) (Product.name row))
    (assign (ProductUpdate.description u) (Product.description row))
    (assigned (ProductUpdate.sku u) (Product.sku row))
    (assigned (ProductUpdate.price u) (Product.price row))
    (assigned (ProductUpdate.stock_quantity u) (Product.stock_quantity row))
    (assigned (ProductUpdate.reorder_level u) (Product.reorder_level row))
    (assign (ProductUpdate.category_id u) (Product.category_id row))
    (assign (ProductUpdate.supplier_id u) (Product.supplier_id row))
    (Product.created_at row) (Product.updated_at row).

(** ** Sample data

    The scenario of the spec: a product created with [stock_quantity = 10] and
    [reorder_level = 5], with its [initial_stock] movement. *)

Definition sample_product : Product.t :=
  Product.mk 1 "Wireless Mouse" (Some "Ergonomic wireless mouse") "MOU-001" 2999
    10 5 None None 100 None.

Definition sample_movement : StockMovement.t :=
  StockMovement.mk 1 1 10 "initial_stock" (Some "Initial stock entry") 101.

Definition sample_db : Db := mkDb [] [] [sample_product] [sample_movement].

(** A clock that starts at 200 and advances by one at each transaction. *)
Definition sample_clock (n : nat) : Z := 200 + Z.of_nat n.

(** A request to create a product, with a stock of 10. *)
Definition sample_create : ProductCreate.t :=
  ProductCreate.mk "Wireless Mouse" (Some "Ergonomic wireless mouse") "MOU-001" 2999
    10 5 None None.

(** A request that sets the stock quantity to 500 and nothing else. *)
Definition sample_update : ProductUpdate.t :=
  ProductUpdate.mk unset unset unset unset (given (Some 500)) unset unset unset.

(** The requests of the spec's scenario: create a product with a stock of 10,
    add 20, remove 5, then try to remove 30. *)
Definition sample_requests : list (Request * (nat -> Z)) :=
  [(POST_product sample_create, sample_clock);
   (POST_adjust_stock 1 (StockAdjustment.mk 20 None), fun _ => 300);
   (POST_adjust_stock 1 (StockAdjustment.mk (-5) None), fun _ => 400);
   (POST_adjust_stock 1 (StockAdjustment.mk (-30) None), fun _ => 500)].

(** A catalog with a category, a supplier and a product that refers to both. *)
Definition sample_category : Category.t :=
  Category.mk 1 "Electronics" (Some "Electronic products") 50 None.

Definition sample_supplier : Supplier.t :=
  Supplier.mk 1 "Tech Supplies Inc" (Some "John Doe") (Some "john@techsupplies.example")
    None None 60 None.

Definition catalog_product : Product.t :=
  Product.mk 1 "Laptop" None "LAP-001" 99999 10 5 (Some 1) (Some 1) 100 None.

Definition catalog_db : Db :=
  mkDb [sample_category] [sample_supplier] [catalog_product] [sample_movement].

(** ** Tactics *)

Ltac run_unfold :=
  unfold run, endpoints.validated, bind, ret, raise, now, query, change, rollback, commit;
  cbn [stored view clock txn commits fst snd].

(** Case analysis on the tests a computation makes, outermost first. *)
Ltac break_run :=
  repeat (cbn [stored view clock txn commits fst snd];
          match goal with
          | |- context [match ?c with _ => _ end] =>
              lazymatch type of c with
              | prod _ _ => fail
              | _ => destruct c eqn:?
              end
          end).

(** * Notions used in the further properties *)

(** The row [create_category] adds, and the state it commits. *)
Definition category_row (db : Db) (ts : Z) (c : CategoryCreate.t) : Category.t :=
  Category.mk (next_id (map Category.id (categories db)))
    (CategoryCreate.name c) (CategoryCreate.description c) ts None.

Definition category_created (db : Db) (ts : Z) (c : CategoryCreate.t) : Db :=
  with_categories db (categories db ++ [category_row db ts c]).

Definition supplier_row (db : Db) (ts : Z) (c : SupplierCreate.t) : Supplier.t :=
  Supplier.mk (next_id (map Supplier.id (suppliers db)))
    (SupplierCreate.name c) (SupplierCreate.contact_name c) (SupplierCreate.email c)
    (SupplierCreate.phone c) (SupplierCreate.address c) ts None.

Definition supplier_created (db : Db) (ts : Z) (c : SupplierCreate.t) : Db :=
  with_suppliers db (suppliers db ++ [supplier_row db ts c]).

(** The check of the name in [update_category] and [update_supplier]: the
    name given is that of another row. *)
Definition category_name_conflict (db : Db) (category_id : Z) (u : CategoryUpdate.t) : bool :=
  if truthy_str (value (CategoryUpdate.name u))
  then
    match find (fun c => (Category.name c
                          =? match value (CategoryUpdate.name u) with
                             | Some n => n | None => "" end)%string)
            (categories db) with
    | Some e => negb (Category.id e =? category_id)
    | None => false
    end
  else false.

Definition supplier_name_conflict (db : Db) (supplier_id : Z) (u : SupplierUpdate.t) : bool :=
  if truthy_str (value (SupplierUpdate.name u))
  then
    match find (fun c => (Supplier.name c
                          =? match value (SupplierUpdate.name u) with
                             | Some n => n | None => "" end)%string)
            (suppliers db) with
    | Some e => negb (Supplier.id e =? supplier_id)
    | None => false
    end
  else false.

(** The answer 404 of an operation on a row that is not there. *)
Definition not_found {A} (kind : string) (i : Z) : Error + A :=
  inl (HTTPException 404 (kind ++ " with id " ++ str i ++ " not found")).

(** The row the assignments of [update_category] give when the name is not
    given as null. *)
Definition updated_category (row : Category.t) (u : CategoryUpdate.t) : Category.t :=
  Category.mk (Category.id row)
    (assigned (CategoryUpdate.name u) (Category.name row))
    (assign (CategoryUpdate.description u) (Category.description row))
    (Category.created_at row) (Category.updated_at row).

(** The requests that [update_category] carries out on the category
    [category_id]: the name is not given as null, and the name given is that
    of no other category. *)
Definition category_update_passes (db : Db) (category_id : Z) (u : CategoryUpdate.t) : bool :=
  not_null (CategoryUpdate.name u)
  && match value (CategoryUpdate.name u) with
     | Some n => forallb (fun c => negb (Category.name c =? n)%string
                                   || (Category.id c =? category_id))
                   (categories db)
     | None => true
     end.

(** The catalog with a second category. *)
Definition furniture : Category.t := Category.mk 2 "Furniture" None 70 None.

Definition two_category_db : Db :=
  mkDb [sample_category; furniture] [sample_supplier] [catalog_product] [sample_movement].

(** The catalog with a second product, which has no movement. *)
Definition second_product : Product.t :=
  Product.mk 2 "Monitor" None "MON-001" 19999 0 2 (Some 1) None 110 None.

Definition two_product_db : Db :=
  mkDb [sample_category] [sample_supplier] [catalog_product; second_product]
    [sample_movement].

(** The update request that gives no field. *)
Definition empty_update : ProductUpdate.t :=
  ProductUpdate.mk unset unset unset unset unset unset unset unset.

(** The sum of the quantities of the stock movements of a product. *)
Definition ledger_total (db : Db) (product_id : Z) : Z :=
  fold_right Z.add 0 (map StockMovement.quantity (movements_of db product_id)).

(** The stock quantity of every product is the sum of its ledger. *)
Definition ledger_consistent (db : Db) : Prop :=
  forall p, In p (products db) -> Product.stock_quantity p = ledger_total db (Product.id p).

(** The requests that give a [stock_quantity] to [update_product]. *)
Definition sets_stock (r : Request) : bool :=
  match r with
  | PUT_product _ u =>
      match ProductUpdate.stock_quantity u with
      | unset => false
      | given _ => true
      end
  | _ => false
  end.

(** The requests that delete a row. *)
Definition deletes (r : Request) : bool :=
  match r with
  | DELETE_category _ | DELETE_supplier _ | DELETE_product _ => true
  | _ => false
  end.

(** The constraints hold and the ledger matches the stock quantities. *)
Definition balanced (db : Db) : Prop := integrity_ok db = true /\ ledger_consistent db.

(** The row [update_supplier] stores for a request that passes, before the
    database sets [updated_at]. *)
Definition updated_supplier (row : Supplier.t) (u : SupplierUpdate.t) : Supplier.t :=
  Supplier.mk (Supplier.id row)
    (assigned (SupplierUpdate.name u) (Supplier.name row))
    (assign (SupplierUpdate.contact_name u) (Supplier.contact_name row))
    (assign (SupplierUpdate.email u) (Supplier.email row))
    (assign (SupplierUpdate.phone u) (Supplier.phone row))
    (assign (SupplierUpdate.address u) (Supplier.address row))
    (Supplier.created_at row) (Supplier.updated_at row).

(** The requests that [update_supplier] carries out on the supplier
    [supplier_id]: the name is not given as null, and the name given is that
    of no other supplier. *)
Definition supplier_update_passes (db : Db) (supplier_id : Z) (u : SupplierUpdate.t) : bool :=
  not_null (SupplierUpdate.name u)
  && match value (SupplierUpdate.name u) with
     | Some n => forallb (fun c => negb (Supplier.name c =? n)%string
                                   || (Supplier.id c =? supplier_id))
                   (suppliers db)
     | None => true
     end.

(** The fields given by a request to update a supplier fit the columns they
    are written to ([models.py]): [String(200)] for the name, the contact
    name and the email, [String(50)] for the phone; the address is a [Text].
    [SupplierUpdate] bounds the name only. *)
Definition supplier_columns_ok (u : SupplierUpdate.t) : bool :=
  field_ok (fun x => len x <=? 200) (SupplierUpdate.name u)
  && field_ok (fun x => len x <=? 200) (SupplierUpdate.contact_name u)
  && field_ok (fun x => len x <=? 200) (SupplierUpdate.email u)
  && field_ok (fun x => len x <=? 50) (SupplierUpdate.phone u).

(** The catalog with a second supplier. *)
Definition office_depot : Supplier.t :=
  Supplier.mk 2 "Office Depot" None None None None 80 None.

Definition two_supplier_db : Db :=
  mkDb [sample_category] [sample_supplier; office_depot] [catalog_product] [sample_movement].

(** ** What a request leaves behind *)

(** What a run leaves: the stored database, the error if it answered with
    one, and the states it committed. *)
Definition outcome {A} (x : Db * (Error + A) * list Db) : Db * option Error * list Db :=
  (db_after x,
   match answer x with inl e => Some e | inr _ => None end,
   committed x).

(** The outcome of a request served with the clock [clk]. *)
Definition respond (db : Db) (rq : Request * (nat -> Z)) : Db * option Error * list Db :=
  let '(r, clk) := rq in
  match r with
  | POST_category c => outcome (run (endpoints.categories.create_category c) clk db)
  | PUT_category i c => outcome (run (endpoints.categories.update_category i c) clk db)
  | DELETE_category i => outcome (run (endpoints.categories.delete_category i) clk db)
  | POST_supplier c => outcome (run (endpoints.suppliers.create_supplier c) clk db)
  | PUT_supplier i c => outcome (run (endpoints.suppliers.update_supplier i c) clk db)
  | DELETE_supplier i => outcome (run (endpoints.suppliers.delete_supplier i) clk db)
  | POST_product p => outcome (run (endpoints.products.create_product p) clk db)
  | PUT_product i p => outcome (run (endpoints.products.update_product i p) clk db)
  | DELETE_product i => outcome (run (endpoints.products.delete_product i) clk db)
  | POST_adjust_stock i a => outcome (run (endpoints.products.adjust_stock i a) clk db)
  end.

(** The commits of a request that is carried out: [create_product] commits
    the product and then, when the stock given is above zero, its initial
    movement; every other operation commits once. *)
Definition commits_of (r : Request) : nat :=
  match r with
  | POST_product c => if ProductCreate.stock_quantity c >? 0 then 2 else 1
  | _ => 1
  end.

(** The texts of a request fit the columns they are written to.  The schemas
    see to it but for the contact fields of a request to update a supplier. *)
Definition fits_columns (r : Request) : bool :=
  match r with
  | PUT_supplier _ u => supplier_columns_ok u
  | _ => true
  end.

(** All or nothing: with an error, the database is as it was and nothing was
    committed; without, there are exactly [n] commits, the last of which is
    the database left.  Every state committed meets the constraints. *)
Definition all_or_nothing (db : Db) (n : nat) (x : Db * option Error * list Db) : Prop :=
  (snd (fst x) <> None -> fst (fst x) = db /\ snd x = [])
  /\ (snd (fst x) = None ->
      List.length (snd x) = n /\ last (snd x) db = fst (fst x))
  /\ Forall (fun s => integrity_ok s = true) (snd x).

(** The two ways a run ends: with an error and nothing done, or with its
    commits. *)
Ltac settle :=
  unfold all_or_nothing, outcome, db_after, answer, committed;
  cbn [fst snd stored view clock txn commits];
  first
    [ split;
      [ intros _; split; reflexivity
      | split; [ intros H; discriminate H | constructor ] ]
    | split;
      [ intros H; exfalso; apply H; reflexivity
      | split;
        [ intros _; split; reflexivity
        | repeat (constructor; try assumption) ] ] ].

(** ** Rows and the constraints of their schemas *)

(** The [Field] constraints of [ProductBase], on the columns of a row. *)
Definition row_ok (p : Product.t) : bool :=
  length_between 1 200 (Product.name p)
  && length_between 1 100 (Product.sku p)
  && (0 <? Product.price p)
  && (0 <=? Product.stock_quantity p)
  && (0 <=? Product.reorder_level p).

(** Every product meets the constraints of [ProductBase], and every category
    and supplier has a name of the length [CategoryBase] and [SupplierBase]
    ask for. *)
Definition conforming (db : Db) : Prop :=
  (forall c, In c (categories db) -> length_between 1 100 (Category.name c) = true)
  /\ (forall s, In s (suppliers db) -> length_between 1 200 (Supplier.name s) = true)
  /\ (forall p, In p (products db) -> row_ok p = true).

(** ** Listings *)

(** A listing reads only, and answers with the page asked for. *)
Definition lists {A} (op : M (list A)) (clk : nat -> Z) (db : Db) (page : list A) : Prop :=
  run op clk db = (db, inr page, []).

(** What the database promises of a page of a query without [ORDER BY]:
    rows of the table, each taken at most as often as the table has it, and
    as many as [limit] asks for or as are left after [skip]; in no promised
    order. *)
Definition page_of {A} (table : list A) (skip limit : Z) (page : list A) : Prop :=
  (exists rest, Permutation (page ++ rest) table)
  /\ Z.of_nat (List.length page)
     = Z.min limit (Z.max 0 (Z.of_nat (List.length table) - skip)).

(** What the filters of [get_products] ask of a product: the category and the
    supplier given, unless zero, and a match of the search text, unless empty,
    in the name, the description or the SKU. *)
Definition wanted (ilike : string -> string -> bool) (category_id supplier_id : option Z)
    (search : option string) (p : Product.t) : Prop :=
  (forall i, category_id = Some i -> i <> 0 -> Product.category_id p = Some i)
  /\ (forall i, supplier_id = Some i -> i <> 0 -> Product.supplier_id p = Some i)
  /\ (forall x, search = Some x -> x <> "" ->
        ilike (Product.name p) ("%" ++ x ++ "%")%string = true
        \/ (exists d, Product.description p = Some d
                      /\ ilike d ("%" ++ x ++ "%")%string = true)
        \/ ilike (Product.sku p) ("%" ++ x ++ "%")%string = true).

(** A matching for the samples: the pattern [%mon%] matches the name and the
    SKU of the second product, and no other pattern matches. *)
Definition sample_ilike (text pattern : string) : bool :=
  match pattern with
  | "%mon%" => (text =? "Monitor")%string || (text =? "MON-001")%string
  | _ => false
  end.

(** * Properties *)

(** ** Lists and keys *)

Section ListFacts.

Lemma mem_In (i : Z) (ids : list Z) : mem i ids = true <-> In i ids.
Proof.
  unfold mem. rewrite existsb_exists. split.
  - intros [x [Hx He]]. apply Z.eqb_eq in He. now subst.
  - intros H. exists i. split; [assumption | apply Z.eqb_refl].
Qed.

Lemma mem_false (i : Z) (ids : list Z) : mem i ids = false <-> ~ In i ids.
Proof.
  rewrite <- mem_In. destruct (mem i ids); split; intros; congruence.
Qed.

Lemma distinct_Z (l : list Z) : distinct Z.eqb l = true <-> NoDup l.
Proof.
  induction l as [|x l IH]; simpl.
  - split; [constructor | reflexivity].
  - rewrite andb_true_iff, negb_true_iff, IH. fold (mem x l).
    rewrite mem_false. split.
    + intros [H1 H2]. now constructor.
    + intros H. inversion H; subst. now split.
Qed.

Lemma distinct_string (l : list string) : distinct String.eqb l = true <-> NoDup l.
Proof.
  induction l as [|x l IH]; simpl.
  - split; [constructor | reflexivity].
  - rewrite andb_true_iff, negb_true_iff, IH.
    assert (Hex : existsb (String.eqb x) l = false <-> ~ In x l).
    { split.
      - intros Hf Hin. assert (existsb (String.eqb x) l = true); [|congruence].
        apply existsb_exists. exists x. split; [assumption | apply String.eqb_refl].
      - intros Hn. destruct (existsb (String.eqb x) l) eqn:E; [|reflexivity].
        apply existsb_exists in E. destruct E as [y [Hy He]].
        apply String.eqb_eq in He. subst. contradiction. }
    rewrite Hex. split.
    + intros [H1 H2]. now constructor.
    + intros H. inversion H; subst. now split.
Qed.

Lemma next_id_above (ids : list Z) (i : Z) : In i ids -> i < next_id ids.
Proof.
  unfold next_id. induction ids as [|x l IH]; cbn [fold_right In]; [contradiction|].
  intros [->|H]; [lia|]. specialize (IH H). lia.
Qed.

Lemma next_id_fresh (ids : list Z) : ~ In (next_id ids) ids.
Proof. intros H. apply next_id_above in H. lia. Qed.

Lemma NoDup_snoc {A} (l : list A) (x : A) : NoDup l -> ~ In x l -> NoDup (l ++ [x]).
Proof.
  intros Hl Hx. apply NoDup_app; [assumption | repeat constructor; intros [] |].
  intros a Ha [<-|[]]. contradiction.
Qed.

Lemma NoDup_insert {A} (l1 l2 : list A) (b : A) :
  NoDup (l1 ++ l2) -> ~ In b (l1 ++ l2) -> NoDup (l1 ++ b :: l2).
Proof.
  induction l1 as [|a l1 IH]; simpl; intros Hnd Hb.
  - now constructor.
  - inversion Hnd as [|? ? Ha Hl]; subst. constructor.
    + intros Hin. apply in_app_iff in Hin. destruct Hin as [Hin | [-> | Hin]].
      * apply Ha, in_or_app. now left.
      * apply Hb. now left.
      * apply Ha, in_or_app. now right.
    + apply IH; [assumption|]. intros Hin. apply Hb. now right.
Qed.

Lemma NoDup_map_filter {A B} (f : A -> B) (g : A -> bool) (l : list A) :
  NoDup (map f l) -> NoDup (map f (filter g l)).
Proof.
  induction l as [|x l IH]; simpl; intros H; [constructor|].
  inversion H as [|? ? Hx Hl]; subst. destruct (g x); simpl; auto.
  constructor; auto. intros Hin. apply Hx.
  apply in_map_iff in Hin. destruct Hin as [y [Hy Hin]].
  apply filter_In in Hin. apply in_map_iff. exists y. tauto.
Qed.

Lemma NoDup_map_eq {A B} (f : A -> B) (l : list A) (x y : A) :
  NoDup (map f l) -> In x l -> In y l -> f x = f y -> x = y.
Proof.
  induction l as [|a l IH]; simpl; [contradiction|].
  intros Hnd Hx Hy Hf. inversion Hnd as [|? ? Ha Hl]; subst.
  destruct Hx as [->|Hx], Hy as [->|Hy]; auto.
  - exfalso. apply Ha. rewrite Hf. now apply in_map.
  - exfalso. apply Ha. rewrite <- Hf. now apply in_map.
Qed.

(** Replacing rows without touching [f] keeps the column [f]. *)
Lemma map_map_same {A B} (f : A -> B) (h : A -> A) (l : list A) :
  (forall x, In x l -> f (h x) = f x) -> map f (map h l) = map f l.
Proof.
  intros H. rewrite map_map. apply map_ext_in. assumption.
Qed.

Lemma find_key {A} (key : A -> Z) (l : list A) (x : A) :
  NoDup (map key l) -> In x l -> find (fun r => key r =? key x) l = Some x.
Proof.
  intros Hnd Hin.
  destruct (find _ l) as [r|] eqn:E.
  - apply find_some in E. destruct E as [Hr He]. apply Z.eqb_eq in He.
    f_equal. eapply NoDup_map_eq; eauto.
  - eapply find_none in E; [|exact Hin]. rewrite Z.eqb_refl in E. discriminate.
Qed.

Lemma find_snoc_fresh {A} (f : A -> bool) (l : list A) (x : A) :
  (forall y, In y l -> f y = false) -> f x = true -> find f (l ++ [x]) = Some x.
Proof.
  intros Hl Hx. induction l as [|a l IH]; simpl.
  - now rewrite Hx.
  - rewrite (Hl a) by now left. apply IH. intros y Hy. apply Hl. now right.
Qed.

Lemma fk_ok_In (ids : list Z) (ref : option Z) :
  fk_ok ids ref = true <-> (forall i, ref = Some i -> In i ids).
Proof.
  destruct ref as [i|]; cbn [fk_ok].
  - rewrite mem_In. split; [intros H j [= <-]; assumption | auto].
  - split; [discriminate | reflexivity].
Qed.

Lemma option_eqb_Some (a : option Z) (i : Z) :
  option_eqb Z.eqb a (Some i) = true <-> a = Some i.
Proof.
  destruct a as [x|]; cbn [option_eqb]; [rewrite Z.eqb_eq|]; split; congruence.
Qed.

Lemma option_eqb_string_eq (x y : option string) :
  option_eqb String.eqb x y = true -> x = y.
Proof.
  destruct x, y; simpl; try discriminate; auto.
  intros H. apply String.eqb_eq in H. now subst.
Qed.

Lemma option_eqb_Z_eq (x y : option Z) : option_eqb Z.eqb x y = true -> x = y.
Proof.
  destruct x, y; simpl; try discriminate; auto.
  intros H. apply Z.eqb_eq in H. now subst.
Qed.

End ListFacts.

(** ** The constraints of the tables *)

Lemma integrity_ok_iff (db : Db) : integrity_ok db = true <-> Integrity db.
Proof.
  unfold integrity_ok. rewrite !andb_true_iff, !distinct_Z, !distinct_string, !forallb_forall.
  split.
  - intros [[[[[[[[H1 H2] H3] H4] H5] H6] H7] H8] H9]. constructor; auto.
    + intros p Hp. apply andb_true_iff. auto.
    + intros m Hm. apply mem_In. auto.
  - intros [H1 H2 H3 H4 H5 H6 H7 H8 H9]. repeat split; auto.
    + intros p Hp. apply andb_true_iff. auto.
    + intros m Hm. apply mem_In. auto.
Qed.

Lemma find_product (db : Db) (p : Product.t) :
  NoDup (map Product.id (products db)) -> In p (products db) ->
  find (fun r => Product.id r =? Product.id p) (products db) = Some p.
Proof.
  intros Hnd Hin.
  destruct (find _ (products db)) as [r|] eqn:E.
  - apply find_some in E. destruct E as [Hr He]. apply Z.eqb_eq in He.
    f_equal. eapply NoDup_map_eq; eauto.
  - eapply find_none in E; [|exact Hin]. rewrite Z.eqb_refl in E. discriminate.
Qed.

Lemma sku_unused (db : Db) (sku : string) :
  ~ In sku (map Product.sku (products db)) ->
  find (fun p => (Product.sku p =? sku)%string) (products db) = None.
Proof.
  intros H. destruct (find _ (products db)) as [p|] eqn:E; [|reflexivity].
  apply find_some in E. destruct E as [Hin He]. apply String.eqb_eq in He.
  exfalso. apply H. rewrite <- He. now apply in_map.
Qed.

(** No movement refers to a product that is not in the table. *)
Lemma movements_of_missing (db : Db) (product_id : Z) :
  Integrity db -> ~ In product_id (map Product.id (products db)) ->
  movements_of db product_id = [].
Proof.
  intros Hok Hp. unfold movements_of.
  pose proof (movement_refs db Hok) as Hrefs.
  induction (stock_movements db) as [|a l IH]; [reflexivity|].
  cbn [filter].
  destruct (StockMovement.product_id a =? product_id) eqn:E.
  - apply Z.eqb_eq in E. exfalso. apply Hp. rewrite <- E. apply Hrefs. now left.
  - apply IH. intros x Hx. apply Hrefs. now right.
Qed.

(** ** Writing a product row back *)

Lemma Product_eqb_eq (a b : Product.t) : Product.eqb a b = true -> a = b.
Proof.
  unfold Product.eqb. rewrite !andb_true_iff.
  intros [[[[[[[[[[E1 E2] E3] E4] E5] E6] E7] E8] E9] E10] E11].
  apply Z.eqb_eq in E1, E5, E6, E7, E10. apply String.eqb_eq in E2, E4.
  apply option_eqb_string_eq in E3. apply option_eqb_Z_eq in E8, E9, E11.
  destruct a, b; simpl in *; congruence.
Qed.

Section FlushProduct.
Variables (ts : Z) (row : Product.t) (db : Db).

Lemma flush_product_ids :
    map Product.id (products (flush_product ts row db)) = map Product.id (products db).
  Proof.
    unfold flush_product. cbn [products with_products].
    apply map_map_same. intros r _.
    destruct (Product.id r =? Product.id row) eqn:E; [|reflexivity].
    apply Z.eqb_eq in E. destruct (Product.eqb r row); auto.
  Qed.

Lemma flush_product_In (x : Product.t) :
    In x (products (flush_product ts row db)) ->
    In x (products db)
    \/ (exists r, In r (products db) /\ Product.id r = Product.id row
                  /\ x = Product.set_updated_at row (Some ts)).
  Proof.
    unfold flush_product. cbn [products with_products].
    intros H. apply in_map_iff in H. destruct H as [r [Hx Hr]].
    destruct (Product.id r =? Product.id row) eqn:E; [|subst; auto].
    apply Z.eqb_eq in E. destruct (Product.eqb r row); [subst; auto|].
    right. exists r. auto.
  Qed.

(** A column the written row shares with the stored row of its key is
      unchanged in the table. *)
Lemma flush_product_column {B} (f : Product.t -> B) :
    (forall r, In r (products db) -> Product.id r = Product.id row -> f r = f row) ->
    (forall t, f (Product.set_updated_at row t) = f row) ->
    map f (products (flush_product ts row db)) = map f (products db).
  Proof.
    intros Hsame Hts. unfold flush_product. cbn [products with_products].
    apply map_map_same. intros r Hr.
    destruct (Product.id r =? Product.id row) eqn:E; [|reflexivity].
    apply Z.eqb_eq in E. destruct (Product.eqb r row); [reflexivity|].
    rewrite Hts. symmetry. auto.
  Qed.

Lemma flush_product_others :
    categories (flush_product ts row db) = categories db
    /\ suppliers (flush_product ts row db) = suppliers db
    /\ stock_movements (flush_product ts row db) = stock_movements db.
  Proof. repeat split. Qed.

(** The row of the written key, read back. *)
Lemma flush_product_find :
    NoDup (map Product.id (products db)) ->
    (exists r, In r (products db) /\ Product.id r = Product.id row) ->
    exists r', find (fun r => Product.id r =? Product.id row)
                 (products (flush_product ts row db)) = Some r'
               /\ (r' = row \/ r' = Product.set_updated_at row (Some ts)).
  Proof.
    intros Hnd [r0 [Hr0 Hid]].
    unfold flush_product. cbn [products with_products].
    induction (products db) as [|a l IH]; simpl in *; [contradiction|].
    inversion Hnd as [|? ? Ha Hl]; subst.
    destruct (Product.id a =? Product.id row) eqn:E.
    - destruct (Product.eqb a row) eqn:Eq.
      + rewrite E. exists a. split; [reflexivity|]. left.
        now apply Product_eqb_eq.
      + cbn [Product.set_updated_at Product.id]. rewrite Z.eqb_refl.
        eexists. split; [reflexivity|]. now right.
    - rewrite E. destruct Hr0 as [->|Hr0].
      + rewrite Hid, Z.eqb_refl in E. discriminate.
      + apply IH; assumption.
  Qed.

End FlushProduct.

(** The table after the row of the key of [P] has been written back: [P]
    has been replaced where it stood. *)
Lemma flush_product_split (ts : Z) (row P : Product.t) (db : Db) :
  NoDup (map Product.id (products db)) -> In P (products db) ->
  Product.id row = Product.id P ->
  exists l1 l2,
    products db = l1 ++ P :: l2
    /\ products (flush_product ts row db)
       = l1 ++ (if Product.eqb P row then P else Product.set_updated_at row (Some ts)) :: l2.
Proof.
  intros Hnd HP Hid. apply in_split in HP. destruct HP as [l1 [l2 Hl]].
  exists l1, l2. split; [assumption|].
  unfold flush_product. cbn [products with_products]. rewrite Hl in Hnd |- *.
  rewrite map_app in Hnd. cbn [map] in Hnd. apply NoDup_remove_2 in Hnd.
  rewrite map_app. cbn [map]. rewrite Hid, Z.eqb_refl.
  assert (Hkeep : forall l, (forall x, In x l -> Product.id x <> Product.id P) ->
            map (fun r => if Product.id r =? Product.id P
                          then (if Product.eqb r row then r
                                else Product.set_updated_at row (Some ts))
                          else r) l = l).
  { intros l Hne. rewrite <- (map_id l) at 2. apply map_ext_in. intros x Hx.
    destruct (Product.id x =? Product.id P) eqn:E; [|reflexivity].
    apply Z.eqb_eq in E. now apply Hne in Hx. }
  rewrite !Hkeep; [reflexivity | |].
  - intros x Hx E. apply Hnd, in_or_app. right. rewrite <- E. now apply in_map.
  - intros x Hx E. apply Hnd, in_or_app. left. rewrite <- E. now apply in_map.
Qed.

(** Writing back a row keeps the constraints when its SKU is that of no
    other product and the rows it refers to exist. *)
Lemma flush_product_integrity (ts : Z) (row P : Product.t) (db : Db) :
  Integrity db -> In P (products db) ->
  Product.id row = Product.id P ->
  (forall p, In p (products db) -> Product.sku p = Product.sku row ->
             Product.id p = Product.id P) ->
  fk_ok (map Category.id (categories db)) (Product.category_id row) = true ->
  fk_ok (map Supplier.id (suppliers db)) (Product.supplier_id row) = true ->
  Integrity (flush_product ts row db).
Proof.
  intros Hok HP Hid Hsku Hcat Hsup.
  destruct (flush_product_split ts row P db (product_keys db Hok) HP Hid)
    as [l1 [l2 [Hl Hl']]].
  destruct Hok as [H1 H2 H3 H4 H5 H6 H7 H8 H9].
  constructor; try assumption.
  - rewrite flush_product_ids. assumption.
  - rewrite Hl'. rewrite Hl in H5, H6, Hsku.
    rewrite map_app in H5, H6 |- *. cbn [map] in H5, H6 |- *.
    assert (Hs : Product.sku (if Product.eqb P row then P
                              else Product.set_updated_at row (Some ts))
                 = Product.sku row).
    { destruct (Product.eqb P row) eqn:E; [|reflexivity].
      apply Product_eqb_eq in E. now subst. }
    rewrite Hs. apply NoDup_insert; [now apply NoDup_remove_1 in H6|].
    intros Hin. apply NoDup_remove_2 in H5. apply H5.
    rewrite <- map_app in Hin |- *. apply in_map_iff in Hin.
    destruct Hin as [p [Hp Hin]]. apply in_map_iff. exists p. split; [|assumption].
    apply Hsku; [|assumption]. apply in_app_iff in Hin. apply in_or_app.
    destruct Hin; [now left | right; now right].
  - intros x Hx. apply flush_product_In in Hx.
    destruct Hx as [Hx | [r [Hr [Hrid ->]]]]; [now apply H7|].
    split; assumption.
  - intros m Hm. rewrite flush_product_ids. now apply H9.
Qed.

Lemma nonneg_stock_flush (ts : Z) (row : Product.t) (db : Db) :
  nonneg_stock db -> 0 <= Product.stock_quantity row ->
  nonneg_stock (flush_product ts row db).
Proof.
  intros H Hrow p Hp. apply flush_product_In in Hp.
  destruct Hp as [Hp | [r [_ [_ ->]]]]; [now apply H | exact Hrow].
Qed.

(** ** The assignments of an update *)

Lemma assign_required_not_null {A} (f : field A) (old : A) :
  not_null f = true -> assign_required f old = Some (assigned f old).
Proof. destruct f as [|[v|]]; simpl; congruence. Qed.

Lemma assign_required_Some {A} (f : field A) (old v : A) :
  assign_required f old = Some v -> v = assigned f old.
Proof. destruct f as [|[x|]]; simpl; congruence. Qed.

Lemma setattrs_product_Some (row r : Product.t) (u : ProductUpdate.t) :
  setattrs_product row u = Some r -> r = updated_row row u.
Proof.
  unfold setattrs_product, updated_row.
  destruct (assign_required (ProductUpdate.name u) _) as [n|] eqn:E1; [|discriminate].
  destruct (assign_required (ProductUpdate.sku u) _) as [s|] eqn:E2; [|discriminate].
  destruct (assign_required (ProductUpdate.price u) _) as [pr|] eqn:E3; [|discriminate].
  destruct (assign_required (ProductUpdate.stock_quantity u) _) as [q|] eqn:E4; [|discriminate].
  destruct (assign_required (ProductUpdate.reorder_level u) _) as [rl|] eqn:E5; [|discriminate].
  apply assign_required_Some in E1, E2, E3, E4, E5. intros [= <-]. congruence.
Qed.

Lemma setattrs_product_passes (db : Db) (row : Product.t) (u : ProductUpdate.t) :
  update_passes db (Product.id row) u = true ->
  setattrs_product row u = Some (updated_row row u).
Proof.
  unfold update_passes. rewrite !andb_true_iff.
  intros [[[[[[[N1 N2] N3] N4] N5] _] _] _].
  unfold setattrs_product.
  rewrite !assign_required_not_null by assumption. reflexivity.
Qed.

Lemma sku_conflict_passes (db : Db) (product_id : Z) (u : ProductUpdate.t) :
  update_passes db product_id u = true -> sku_conflict db product_id u = false.
Proof.
  unfold update_passes, sku_conflict. rewrite !andb_true_iff.
  intros [[[_ Hsku] _] _].
  destruct (value (ProductUpdate.sku u)) as [s|]; [|reflexivity].
  destruct (truthy_str (Some s)); [|reflexivity].
  destruct (find _ (products db)) as [e|] eqn:E; [|reflexivity].
  apply find_some in E. destruct E as [He Hs].
  rewrite forallb_forall in Hsku. specialize (Hsku e He).
  rewrite Hs in Hsku. cbn [negb orb] in Hsku. now rewrite Hsku.
Qed.

(** ** The order of the history *)

Section OrderBy.

Lemma insert_desc_perm (m : StockMovement.t) (l : list StockMovement.t) :
  Permutation (crud.insert_desc m l) (m :: l).
Proof.
  induction l as [|x l IH]; cbn [crud.insert_desc]; [reflexivity|].
  destruct (StockMovement.created_at x <=? StockMovement.created_at m); [reflexivity|].
  rewrite IH. apply perm_swap.
Qed.

Lemma order_by_perm (l : list StockMovement.t) :
  Permutation (crud.order_by_created_at_desc l) l.
Proof.
  unfold crud.order_by_created_at_desc.
  induction l as [|x l IH]; cbn [fold_right]; [reflexivity|].
  rewrite insert_desc_perm. now constructor.
Qed.

Lemma insert_desc_sorted (m : StockMovement.t) (l : list StockMovement.t) :
  StronglySorted not_older l -> StronglySorted not_older (crud.insert_desc m l).
Proof.
  induction l as [|x l IH]; cbn [crud.insert_desc]; intros Hs.
  - repeat constructor.
  - inversion Hs as [|? ? Hl Hx]; subst.
    destruct (StockMovement.created_at x <=? StockMovement.created_at m) eqn:E.
    + apply Z.leb_le in E. constructor; [assumption|].
      constructor; [exact E|].
      eapply Forall_impl; [|exact Hx]. unfold not_older. intros y Hy. lia.
    + apply Z.leb_gt in E. constructor; [now apply IH|].
      apply Forall_forall. intros y Hy.
      apply (Permutation_in _ (insert_desc_perm m l)) in Hy.
      destruct Hy as [<- | Hy]; [unfold not_older; lia|].
      rewrite Forall_forall in Hx. now apply Hx.
Qed.

Lemma order_by_sorted (l : list StockMovement.t) :
  StronglySorted not_older (crud.order_by_created_at_desc l).
Proof.
  unfold crud.order_by_created_at_desc.
  induction l as [|x l IH]; cbn [fold_right]; [constructor|].
  now apply insert_desc_sorted.
Qed.

(** The query of the code gives a history in the sense of [is_history_of]. *)
Lemma history_of_is_history (db : Db) (product_id : Z) :
  is_history_of db product_id (history_of db product_id).
Proof. split; [apply order_by_perm | apply order_by_sorted]. Qed.

(** In any descending order, a row later than all the others is the first. *)
Lemma latest_is_first (l h : list StockMovement.t) (e : StockMovement.t) :
  (forall m, In m l -> StockMovement.created_at m < StockMovement.created_at e) ->
  Permutation h (l ++ [e]) -> StronglySorted not_older h ->
  exists t, h = e :: t.
Proof.
  intros Hlate Hperm Hsorted.
  destruct h as [|x t].
  - apply Permutation_nil in Hperm. destruct l; discriminate.
  - assert (Hx : In x (l ++ [e])) by (apply (Permutation_in _ Hperm); now left).
    assert (He : In e (x :: t)).
    { apply (Permutation_in _ (Permutation_sym Hperm)), in_or_app. right. now left. }
    apply in_app_iff in Hx. destruct Hx as [Hx | [<- | []]]; [|now exists t].
    destruct He as [-> | He]; [now exists t|].
    exfalso. inversion Hsorted as [|? ? _ Hall]; subst.
    rewrite Forall_forall in Hall. specialize (Hall e He). unfold not_older in Hall.
    specialize (Hlate x Hx). lia.
Qed.

(** A row later than all the others comes first. *)
Lemma order_by_latest (l : list StockMovement.t) (e : StockMovement.t) :
  (forall m, In m l -> StockMovement.created_at m < StockMovement.created_at e) ->
  crud.order_by_created_at_desc (l ++ [e]) = e :: crud.order_by_created_at_desc l.
Proof.
  unfold crud.order_by_created_at_desc.
  induction l as [|x l IH]; intros H; [reflexivity|].
  cbn [app fold_right]. rewrite IH by (intros m Hm; apply H; now right).
  cbn [crud.insert_desc].
  assert (Hx : StockMovement.created_at x < StockMovement.created_at e) by (apply H; now left).
  destruct (StockMovement.created_at e <=? StockMovement.created_at x) eqn:E;
    [apply Z.leb_le in E; lia | reflexivity].
Qed.

Lemma history_of_latest (db : Db) (l : list StockMovement.t) (e : StockMovement.t) :
  (forall m, In m l -> StockMovement.product_id m = StockMovement.product_id e ->
             StockMovement.created_at m < StockMovement.created_at e) ->
  history_of (with_stock_movements db (l ++ [e])) (StockMovement.product_id e)
  = e :: history_of (with_stock_movements db l) (StockMovement.product_id e).
Proof.
  intros H. unfold history_of. cbn [stock_movements with_stock_movements].
  rewrite filter_app. cbn [filter]. rewrite Z.eqb_refl.
  apply order_by_latest. intros m Hm. apply filter_In in Hm.
  destruct Hm as [Hm He]. apply Z.eqb_eq in He. auto.
Qed.

End OrderBy.

(** ** Running the operations *)

Lemma adjust_product_stock_run (product_id : Z) (adjustment : StockAdjustment.t)
    (clk : nat -> Z) (db : Db) :
  run (crud.adjust_product_stock product_id adjustment) clk db =
  match find (fun p => Product.id p =? product_id) (products db) with
  | None =>
      (db, inl (HTTPException 404 ("Product with id " ++ str product_id ++ " not found")), [])
  | Some p =>
      if Product.stock_quantity p + StockAdjustment.quantity adjustment <? 0
      then (db,
            inl (HTTPException 400
                   ("Insufficient stock. Current: " ++ str (Product.stock_quantity p)
                    ++ ", Requested: " ++ str (Z.abs (StockAdjustment.quantity adjustment)))),
            [])
      else
        let db' := adjusted db (clk 0%nat) product_id p adjustment in
        if integrity_ok db'
        then (db',
              inr (match find (fun r => Product.id r =? Product.id p) (products db') with
                   | Some r => r
                   | None => Product.set_stock_quantity p
                               (Product.stock_quantity p + StockAdjustment.quantity adjustment)
                   end),
              [db'])
        else (db, inl IntegrityError, [])
  end.
Proof.
  unfold crud.adjust_product_stock, crud.get_product, save_product, add_stock_movement,
    refresh_product, adjusted.
  run_unfold.
  destruct (find _ (products db)) as [p|]; [|reflexivity].
  destruct (_ <? 0); [reflexivity|].
  cbn [stored view clock txn commits fst snd].
  destruct (integrity_ok _); reflexivity.
Qed.

Lemma get_product_stock_history_run (product_id skip limit : Z) (clk : nat -> Z) (db : Db) :
  run (crud.get_product_stock_history product_id skip limit) clk db =
  (db, inr (firstn (Z.to_nat limit) (skipn (Z.to_nat skip) (history_of db product_id))), []).
Proof. reflexivity. Qed.

Lemma get_stock_history_run (product_id skip limit : Z) (clk : nat -> Z) (db : Db) :
  run (endpoints.products.get_stock_history product_id skip limit) clk db =
  if (0 <=? skip) && (1 <=? limit) && (limit <=? 1000)
  then (db, inr (firstn (Z.to_nat limit) (skipn (Z.to_nat skip) (history_of db product_id))), [])
  else (db, inl RequestValidationError, []).
Proof.
  unfold endpoints.products.get_stock_history, endpoints.validated.
  destruct (_ && _); reflexivity.
Qed.

(** The checks of the foreign keys pass on a reference that is null or refers
    to a row. *)
Lemma verify_category_passes (ref : option Z) (clk : nat -> Z) (db : Db) :
  fk_ok (map Category.id (categories db)) ref = true ->
  answer (run (crud.verify_category ref) clk db) = inr tt.
Proof.
  intros H. unfold crud.verify_category, crud.get_category. run_unfold. unfold answer.
  destruct (truthy_int ref) eqn:T; [|reflexivity].
  destruct ref as [c|]; [|discriminate]. cbn [fk_ok] in H. apply mem_In in H.
  apply in_map_iff in H. destruct H as [x [Hx Hin]].
  cbn [stored view clock txn commits fst snd].
  destruct (find (fun c0 => Category.id c0 =? c) (categories db)) eqn:E; [reflexivity|].
  eapply find_none in E; [|exact Hin]. rewrite Hx, Z.eqb_refl in E. discriminate.
Qed.

Lemma verify_supplier_passes (ref : option Z) (clk : nat -> Z) (db : Db) :
  fk_ok (map Supplier.id (suppliers db)) ref = true ->
  answer (run (crud.verify_supplier ref) clk db) = inr tt.
Proof.
  intros H. unfold crud.verify_supplier, crud.get_supplier. run_unfold. unfold answer.
  destruct (truthy_int ref) eqn:T; [|reflexivity].
  destruct ref as [c|]; [|discriminate]. cbn [fk_ok] in H. apply mem_In in H.
  apply in_map_iff in H. destruct H as [x [Hx Hin]].
  cbn [stored view clock txn commits fst snd].
  destruct (find (fun c0 => Supplier.id c0 =? c) (suppliers db)) eqn:E; [reflexivity|].
  eapply find_none in E; [|exact Hin]. rewrite Hx, Z.eqb_refl in E. discriminate.
Qed.

Lemma create_product_run (product : ProductCreate.t) (clk : nat -> Z) (db : Db) :
  run (crud.create_product product) clk db =
  if is_some (find (fun p => (Product.sku p =? ProductCreate.sku product)%string) (products db))
  then (db,
        inl (HTTPException 400
               ("Product with SKU '" ++ ProductCreate.sku product ++ "' already exists")),
        [])
  else
    match answer (run (crud.verify_category (ProductCreate.category_id product)) clk db),
          answer (run (crud.verify_supplier (ProductCreate.supplier_id product)) clk db) with
    | inl e, _ => (db, inl e, [])
    | inr _, inl e => (db, inl e, [])
    | inr _, inr _ =>
        let db1 := created db (clk 0%nat) product in
        if integrity_ok db1
        then
          let row := match find (fun r => Product.id r
                                          =? Product.id (created_row db (clk 0%nat) product))
                             (products db1) with
                     | Some r => r
                     | None => created_row db (clk 0%nat) product
                     end in
          if ProductCreate.stock_quantity product >? 0
          then
            let db2 := created_with_stock db1 (clk 1%nat) (Product.id row)
                         (ProductCreate.stock_quantity product) in
            if integrity_ok db2
            then (db2, inr row, [db1; db2])
            else (db1, inl IntegrityError, [db1])
          else (db1, inr row, [db1])
        else (db, inl IntegrityError, [])
    end.
Proof.
  unfold crud.create_product, crud.get_product_by_sku, crud.verify_category,
    crud.verify_supplier, crud.get_category, crud.get_supplier, add_product,
    add_stock_movement, refresh_product, created, created_with_stock, initial_movement,
    created_row.
  run_unfold. unfold answer. break_run; reflexivity.
Qed.

Lemma update_product_run (product_id : Z) (u : ProductUpdate.t) (clk : nat -> Z) (db : Db) :
  run (crud.update_product product_id u) clk db =
  match find (fun p => Product.id p =? product_id) (products db) with
  | None =>
      (db, inl (HTTPException 404 ("Product with id " ++ str product_id ++ " not found")), [])
  | Some p =>
      if sku_conflict db product_id u
      then (db,
            inl (HTTPException 400
                   ("Product with SKU '"
                    ++ match value (ProductUpdate.sku u) with Some n => n | None => "" end
                    ++ "' already exists")),
            [])
      else
        match answer (run (crud.verify_category (value (ProductUpdate.category_id u))) clk db),
              answer (run (crud.verify_supplier (value (ProductUpdate.supplier_id u))) clk db)
        with
        | inl e, _ => (db, inl e, [])
        | inr _, inl e => (db, inl e, [])
        | inr _, inr _ =>
            match setattrs_product p u with
            | None => (db, inl IntegrityError, [])
            | Some row =>
                let db' := flush_product (clk 0%nat) row db in
                if integrity_ok db'
                then (db',
                      inr (match find (fun r => Product.id r =? Product.id row)
                                   (products db') with
                           | Some r => r
                           | None => row
                           end),
                      [db'])
                else (db, inl IntegrityError, [])
            end
        end
  end.
Proof.
  unfold crud.update_product, crud.get_product, crud.get_product_by_sku, sku_conflict,
    crud.verify_category, crud.verify_supplier, crud.get_category, crud.get_supplier,
    save_product, refresh_product.
  run_unfold. unfold answer. break_run; reflexivity.
Qed.

Lemma delete_category_run (category_id : Z) (clk : nat -> Z) (db : Db) :
  run (crud.delete_category category_id) clk db =
  match find (fun c => Category.id c =? category_id) (categories db) with
  | None =>
      (db, inl (HTTPException 404 ("Category with id " ++ str category_id ++ " not found")), [])
  | Some c =>
      let db' := category_deleted db (Category.id c) in
      if integrity_ok db' then (db', inr tt, [db']) else (db, inl IntegrityError, [])
  end.
Proof.
  unfold crud.delete_category, crud.get_category, delete_category_row, category_deleted.
  run_unfold.
  destruct (find _ (categories db)) as [c|]; [|reflexivity].
  cbn [stored view clock txn commits fst snd].
  destruct (integrity_ok _); reflexivity.
Qed.

Lemma delete_supplier_run (supplier_id : Z) (clk : nat -> Z) (db : Db) :
  run (crud.delete_supplier supplier_id) clk db =
  match find (fun c => Supplier.id c =? supplier_id) (suppliers db) with
  | None =>
      (db, inl (HTTPException 404 ("Supplier with id " ++ str supplier_id ++ " not found")), [])
  | Some c =>
      let db' := supplier_deleted db (Supplier.id c) in
      if integrity_ok db' then (db', inr tt, [db']) else (db, inl IntegrityError, [])
  end.
Proof.
  unfold crud.delete_supplier, crud.get_supplier, delete_supplier_row, supplier_deleted.
  run_unfold.
  destruct (find _ (suppliers db)) as [c|]; [|reflexivity].
  cbn [stored view clock txn commits fst snd].
  destruct (integrity_ok _); reflexivity.
Qed.

Lemma delete_product_run (product_id : Z) (clk : nat -> Z) (db : Db) :
  run (crud.delete_product product_id) clk db =
  match find (fun p => Product.id p =? product_id) (products db) with
  | None =>
      (db, inl (HTTPException 404 ("Product with id " ++ str product_id ++ " not found")), [])
  | Some p =>
      let db' := delete_products (fun r => Product.id r =? Product.id p) db in
      if integrity_ok db' then (db', inr tt, [db']) else (db, inl IntegrityError, [])
  end.
Proof.
  unfold crud.delete_product, crud.get_product, delete_product_row.
  run_unfold.
  destruct (find _ (products db)) as [c|]; [|reflexivity].
  cbn [stored view clock txn commits fst snd].
  destruct (integrity_ok _); reflexivity.
Qed.

(** ** The states committed keep the constraints *)

Lemma adjusted_integrity (db : Db) (ts : Z) (p : Product.t) (adjustment : StockAdjustment.t) :
  Integrity db -> In p (products db) ->
  Integrity (adjusted db ts (Product.id p) p adjustment).
Proof.
  intros [H1 H2 H3 H4 H5 H6 H7 H8 H9] Hp.
  set (row := Product.set_stock_quantity p
                (Product.stock_quantity p + StockAdjustment.quantity adjustment)).
  assert (Hsame : forall r, In r (products db) -> Product.id r = Product.id row -> r = p).
  { intros r Hr Hid. apply (NoDup_map_eq Product.id (products db)); auto. }
  unfold adjusted. fold row.
  constructor; cbn [categories suppliers products stock_movements with_stock_movements];
    try assumption.
  - rewrite flush_product_ids. assumption.
  - rewrite flush_product_column; [assumption | | reflexivity].
    intros r Hr Hid. rewrite (Hsame r Hr Hid). reflexivity.
  - intros x Hx. apply flush_product_In in Hx.
    destruct Hx as [Hx | [r [Hr [Hid ->]]]]; [now apply H7|].
    apply (H7 p Hp).
  - destruct (flush_product_others ts row db) as [_ [_ ->]].
    rewrite map_app. apply NoDup_snoc; [assumption | apply next_id_fresh].
  - destruct (flush_product_others ts row db) as [_ [_ ->]].
    rewrite flush_product_ids. intros m Hm. apply in_app_iff in Hm.
    destruct Hm as [Hm | [<- | []]]; [now apply H9|].
    cbn [StockMovement.product_id]. now apply in_map.
Qed.

Lemma created_row_fresh (db : Db) (ts : Z) (product : ProductCreate.t) :
  ~ In (Product.id (created_row db ts product)) (map Product.id (products db)).
Proof. apply next_id_fresh. Qed.

Lemma created_find (db : Db) (ts : Z) (product : ProductCreate.t) :
  find (fun r => Product.id r =? Product.id (created_row db ts product))
    (products (created db ts product))
  = Some (created_row db ts product).
Proof.
  unfold created. cbn [products with_products].
  apply find_snoc_fresh; [|apply Z.eqb_refl].
  intros y Hy. apply Z.eqb_neq. intros E.
  apply (created_row_fresh db ts product). rewrite <- E. now apply in_map.
Qed.

Lemma created_integrity (db : Db) (ts : Z) (product : ProductCreate.t) :
  Integrity db ->
  ~ In (ProductCreate.sku product) (map Product.sku (products db)) ->
  fk_ok (map Category.id (categories db)) (ProductCreate.category_id product) = true ->
  fk_ok (map Supplier.id (suppliers db)) (ProductCreate.supplier_id product) = true ->
  Integrity (created db ts product).
Proof.
  intros [H1 H2 H3 H4 H5 H6 H7 H8 H9] Hsku Hcat Hsup.
  unfold created.
  constructor; cbn [categories suppliers products stock_movements with_products];
    try assumption.
  - rewrite map_app. apply NoDup_snoc; [assumption | apply next_id_fresh].
  - rewrite map_app. apply NoDup_snoc; assumption.
  - intros p Hp. apply in_app_iff in Hp. destruct Hp as [Hp | [<- | []]]; [now apply H7|].
    split; assumption.
  - intros m Hm. rewrite map_app. apply in_or_app. left. now apply H9.
Qed.

Lemma created_with_stock_integrity (db1 : Db) (ts product_id quantity : Z) :
  Integrity db1 ->
  In product_id (map Product.id (products db1)) ->
  Integrity (created_with_stock db1 ts product_id quantity).
Proof.
  intros [H1 H2 H3 H4 H5 H6 H7 H8 H9] Hp.
  unfold created_with_stock.
  constructor; cbn [categories suppliers products stock_movements with_stock_movements];
    try assumption.
  - rewrite map_app. apply NoDup_snoc; [assumption | apply next_id_fresh].
  - intros m Hm. apply in_app_iff in Hm. destruct Hm as [Hm | [<- | []]]; [now apply H9|].
    exact Hp.
Qed.

(** Deleting products with their movements keeps the constraints. *)
Lemma delete_products_integrity (doomed : Product.t -> bool) (db : Db) :
  Integrity db -> Integrity (delete_products doomed db).
Proof.
  intros [H1 H2 H3 H4 H5 H6 H7 H8 H9]. unfold delete_products.
  constructor; cbn [categories suppliers products stock_movements]; try assumption.
  - now apply NoDup_map_filter.
  - now apply NoDup_map_filter.
  - intros p Hp. apply filter_In in Hp. now apply H7.
  - now apply NoDup_map_filter.
  - intros m Hm. apply filter_In in Hm. destruct Hm as [Hm Hkeep].
    apply negb_true_iff, mem_false in Hkeep.
    specialize (H9 m Hm). apply in_map_iff in H9. destruct H9 as [p [Hid Hp]].
    apply in_map_iff. exists p. split; [assumption|].
    apply filter_In. split; [assumption|].
    destruct (doomed p) eqn:D; [|reflexivity].
    exfalso. apply Hkeep. rewrite <- Hid. apply in_map. apply filter_In. now split.
Qed.

Lemma category_deleted_integrity (db : Db) (category_id : Z) :
  Integrity db -> Integrity (category_deleted db category_id).
Proof.
  intros Hok. unfold category_deleted.
  pose proof (delete_products_integrity
                (fun p => option_eqb Z.eqb (Product.category_id p) (Some category_id)) db Hok)
    as Hok'.
  destruct Hok' as [H1 H2 H3 H4 H5 H6 H7 H8 H9]. cbv zeta.
  constructor; cbn [categories suppliers products stock_movements with_categories];
    try assumption.
  - now apply NoDup_map_filter.
  - now apply NoDup_map_filter.
  - intros p Hp. destruct (H7 p Hp) as [Hc Hs]. split; [|assumption].
    apply fk_ok_In. intros i Hi.
    cbn [delete_products categories products] in Hc, Hp |- *.
    apply filter_In in Hp. destruct Hp as [_ Hp]. apply negb_true_iff in Hp.
    rewrite fk_ok_In in Hc. specialize (Hc i Hi).
    apply in_map_iff in Hc. destruct Hc as [c [Hid Hc]].
    apply in_map_iff. exists c. split; [assumption|].
    apply filter_In. split; [assumption|].
    apply negb_true_iff, Z.eqb_neq. intros E.
    assert (option_eqb Z.eqb (Product.category_id p) (Some category_id) = true); [|congruence].
    apply option_eqb_Some. congruence.
Qed.

Lemma supplier_deleted_integrity (db : Db) (supplier_id : Z) :
  Integrity db -> Integrity (supplier_deleted db supplier_id).
Proof.
  intros Hok. unfold supplier_deleted.
  pose proof (delete_products_integrity
                (fun p => option_eqb Z.eqb (Product.supplier_id p) (Some supplier_id)) db Hok)
    as Hok'.
  destruct Hok' as [H1 H2 H3 H4 H5 H6 H7 H8 H9]. cbv zeta.
  constructor; cbn [categories suppliers products stock_movements with_suppliers];
    try assumption.
  - now apply NoDup_map_filter.
  - now apply NoDup_map_filter.
  - intros p Hp. destruct (H7 p Hp) as [Hc Hs]. split; [assumption|].
    apply fk_ok_In. intros i Hi.
    cbn [delete_products suppliers products] in Hs, Hp |- *.
    apply filter_In in Hp. destruct Hp as [_ Hp]. apply negb_true_iff in Hp.
    rewrite fk_ok_In in Hs. specialize (Hs i Hi).
    apply in_map_iff in Hs. destruct Hs as [c [Hid Hc']].
    apply in_map_iff. exists c. split; [assumption|].
    apply filter_In. split; [assumption|].
    apply negb_true_iff, Z.eqb_neq. intros E.
    assert (option_eqb Z.eqb (Product.supplier_id p) (Some supplier_id) = true); [|congruence].
    apply option_eqb_Some. congruence.
Qed.

(** A deleted product leaves no row and no movement behind. *)
Lemma delete_products_gone (doomed : Product.t -> bool) (db : Db) (P : Product.t) :
  Integrity db -> In P (products db) -> doomed P = true ->
  ~ In (Product.id P) (map Product.id (filter (fun p => negb (doomed p)) (products db))).
Proof.
  intros Hok HP Hd Hin. apply in_map_iff in Hin. destruct Hin as [p [Hid Hp]].
  apply filter_In in Hp. destruct Hp as [Hp Hkeep].
  assert (p = P) by (eapply NoDup_map_eq; eauto using product_keys).
  subst p. rewrite Hd in Hkeep. discriminate.
Qed.

(** ** The stock adjustment engine *)

(** What a successful adjustment of the product [P] by [d] gives: the answer,
    the stored database and the single state committed. *)
Lemma adjust_product_stock_commits (db : Db) (clk : nat -> Z) (P : Product.t) (d : Z)
    (note : option string) :
  integrity_ok db = true ->
  In P (products db) ->
  0 <= Product.stock_quantity P + d ->
  let db' := adjusted db (clk 0%nat) (Product.id P) P (StockAdjustment.mk d note) in
  exists P',
    run (crud.adjust_product_stock (Product.id P) (StockAdjustment.mk d note)) clk db
    = (db', inr P', [db'])
    /\ find (fun r => Product.id r =? Product.id P) (products db') = Some P'
    /\ (P' = Product.set_stock_quantity P (Product.stock_quantity P + d)
        \/ P' = Product.set_updated_at
                  (Product.set_stock_quantity P (Product.stock_quantity P + d))
                  (Some (clk 0%nat))).
Proof.
  intros Hok HP Hd db'.
  apply integrity_ok_iff in Hok.
  pose proof (adjusted_integrity db (clk 0%nat) P (StockAdjustment.mk d note) Hok HP) as Hok'.
  apply integrity_ok_iff in Hok'. fold db' in Hok'.
  rewrite adjust_product_stock_run.
  rewrite (find_product db P (product_keys db Hok) HP).
  cbn [StockAdjustment.quantity].
  destruct (Product.stock_quantity P + d <? 0) eqn:E; [apply Z.ltb_lt in E; lia|].
  cbv zeta. fold db'. rewrite Hok'.
  destruct (flush_product_find (clk 0%nat)
              (Product.set_stock_quantity P (Product.stock_quantity P + d)) db
              (product_keys db Hok)) as [r' [Hfind Hr']].
  { exists P. split; [assumption | reflexivity]. }
  cbn [Product.set_stock_quantity Product.id] in Hfind.
  assert (Hfind' : find (fun r => Product.id r =? Product.id P) (products db') = Some r')
    by exact Hfind.
  exists r'. rewrite Hfind'. repeat split; assumption.
Qed.

(** C1 (amended). For an existing product [P] and a delta [d] with
    [P.stock_quantity + d >= 0], both within the range of an [Integer]
    column, [adjust_product_stock] succeeds; the product it returns, which is
    the stored one, has the old quantity plus [d] (and is [P] in every other
    column but [updated_at]); exactly one stock movement is appended, for [P]
    and with quantity [d], and the values written fit their columns.  When
    the clock of the adjustment is later than the [created_at] of the
    movements [P] already has, this movement is the first of the history
    retrieved afterwards: by the endpoint, whose page is the new movement
    followed by a page of a history of [P] before the call, and in any
    descending order of [created_at]. *)
Theorem adjust_product_stock_applies_delta (db : Db) (clk : nat -> Z) (P : Product.t)
    (d : Z) (note : option string) :
  integrity_ok db = true ->
  In P (products db) ->
  0 <= Product.stock_quantity P + d ->
  Integer_ok d = true ->
  Integer_ok (Product.stock_quantity P + d) = true ->
  let r := run (crud.adjust_product_stock (Product.id P) (StockAdjustment.mk d note)) clk db in
  exists P' e,
    answer r = inr P'
    /\ find (fun x => Product.id x =? Product.id P) (products (db_after r)) = Some P'
    /\ Product.stock_quantity P' = Product.stock_quantity P + d
    /\ Product.set_updated_at P' None
       = Product.set_updated_at
           (Product.set_stock_quantity P (Product.stock_quantity P + d)) None
    /\ stock_movements (db_after r) = stock_movements db ++ [e]
    /\ StockMovement.product_id e = Product.id P
    /\ StockMovement.quantity e = d
    /\ StockMovement.created_at e = clk 0%nat
    /\ committed r = [db_after r]
    /\ Integer_ok (Product.stock_quantity P') = true
    /\ Integer_ok (StockMovement.quantity e) = true
    /\ ((forall m, In m (stock_movements db) ->
                   StockMovement.product_id m = Product.id P ->
                   StockMovement.created_at m < clk 0%nat) ->
        (forall limit clk', 1 <= limit <= 1000 ->
           exists h0,
             is_history_of db (Product.id P) h0
             /\ answer (run (endpoints.products.get_stock_history (Product.id P) 0 limit) clk'
                          (db_after r))
                = inr (e :: firstn (Z.to_nat limit - 1) h0))
        /\ (forall h, is_history_of (db_after r) (Product.id P) h -> exists t, h = e :: t)).
Proof.
  intros Hok HP Hd Hrd Hrq r.
  destruct (adjust_product_stock_commits db clk P d note Hok HP Hd) as [P' [Hrun [Hfind HP']]].
  subst r. rewrite Hrun. cbn [answer db_after committed fst snd].
  set (e := StockMovement.mk (next_id (map StockMovement.id (stock_movements db)))
              (Product.id P) d (if d >? 0 then "stock_in" else "stock_out") note (clk 0%nat)).
  assert (Hq : Product.stock_quantity P' = Product.stock_quantity P + d)
    by (destruct HP' as [-> | ->]; reflexivity).
  exists P', e. split; [reflexivity|]. split; [exact Hfind|].
  split; [exact Hq|].
  split; [destruct HP' as [-> | ->]; reflexivity|].
  split; [reflexivity|]. split; [reflexivity|]. split; [reflexivity|]. split; [reflexivity|].
  split; [reflexivity|].
  split; [rewrite Hq; exact Hrq|]. split; [exact Hrd|].
  intros Hclk. split.
  - intros limit clk' Hl. exists (history_of db (Product.id P)).
    split; [apply history_of_is_history|].
    rewrite get_stock_history_run.
    replace ((0 <=? 0) && (1 <=? limit) && (limit <=? 1000)) with true
      by (symmetry; rewrite !andb_true_iff; repeat split; apply Z.leb_le; lia).
    cbn [answer fst snd skipn Z.to_nat]. f_equal.
    unfold adjusted. cbn [StockAdjustment.quantity StockAdjustment.notes].
    change (Product.id P) with (StockMovement.product_id e) at 1.
    cbv zeta.
    change (stock_movements (flush_product (clk 0%nat)
              (Product.set_stock_quantity P (Product.stock_quantity P + d)) db))
      with (stock_movements db).
    fold e.
    rewrite history_of_latest.
    + destruct (Z.to_nat limit) as [|n] eqn:En; [lia|].
      cbn [firstn]. f_equal. rewrite Nat.sub_1_r. cbn [Nat.pred StockMovement.product_id e].
      reflexivity.
    + intros m Hm Hid. apply Hclk; assumption.
  - intros h [Hperm Hsorted].
    apply (latest_is_first (movements_of db (Product.id P)) h e); [| |assumption].
    + intros m Hm. unfold movements_of in Hm. apply filter_In in Hm.
      destruct Hm as [Hm Hid]. apply Z.eqb_eq in Hid. now apply Hclk.
    + assert (Hmov : movements_of
                       (adjusted db (clk 0%nat) (Product.id P) P (StockAdjustment.mk d note))
                       (Product.id P)
                     = movements_of db (Product.id P) ++ [e]).
      { unfold movements_of, adjusted. cbv zeta.
        cbn [stock_movements with_stock_movements StockAdjustment.quantity
             StockAdjustment.notes].
        change (stock_movements (flush_product (clk 0%nat)
                  (Product.set_stock_quantity P (Product.stock_quantity P + d)) db))
          with (stock_movements db).
        rewrite filter_app. cbn [filter StockMovement.product_id].
        rewrite Z.eqb_refl. reflexivity. }
      rewrite <- Hmov. exact Hperm.
Qed.

Lemma adjust_product_stock_applies_delta_witness :
  exists P' e,
    answer (run (crud.adjust_product_stock 1 (StockAdjustment.mk 20 (Some "Received new shipment")))
              sample_clock sample_db) = inr P'
    /\ Product.stock_quantity P' = 30
    /\ answer (run (endpoints.products.get_stock_history 1 0 100) sample_clock
                 (db_after (run (crud.adjust_product_stock 1
                                   (StockAdjustment.mk 20 (Some "Received new shipment")))
                              sample_clock sample_db)))
       = inr [e; sample_movement]
    /\ StockMovement.quantity e = 20.
Proof.
  destruct (adjust_product_stock_applies_delta sample_db sample_clock sample_product 20
              (Some "Received new shipment"))
    as [P' [e [H1 [_ [H2 [_ [Hm [_ [Hq _]]]]]]]]].
  - reflexivity.
  - left. reflexivity.
  - vm_compute. discriminate.
  - reflexivity.
  - reflexivity.
  - exists P', e. split; [exact H1|]. split; [exact H2|]. split; [|exact Hq].
    apply (f_equal (fun l => last l sample_movement)) in Hm.
    cbn [sample_db stock_movements app last] in Hm. rewrite <- Hm. reflexivity.
Defined.

(** C1 (the claim as stated, at an input).  The history is ordered by
    [created_at] alone, which the database sets from its clock.  On the
    sample database, whose product has the stock 10 and one movement of
    [created_at] 101, the adjustment by 20 succeeds and appends one movement:
    with a clock that has stepped back to 50, every descending order of
    [created_at] puts the old movement first, and so does the endpoint; with
    a clock that shows 101 again, the order by [created_at] admits the old
    movement first, and the endpoint answers so.  In both the new movement is
    not the first of the history retrieved. *)
Lemma adjust_product_stock_not_first :
  integrity_ok sample_db = true
  /\ In sample_product (products sample_db)
  /\ 0 <= Product.stock_quantity sample_product + 20
  /\ (forall ts, ts = 50 \/ ts = 101 ->
      let r := run (crud.adjust_product_stock 1 (StockAdjustment.mk 20 None))
                 (fun _ => ts) sample_db in
      let e := StockMovement.mk 2 1 20 "stock_in" None ts in
      (exists P', answer r = inr P' /\ Product.stock_quantity P' = 30)
      /\ stock_movements (db_after r) = [sample_movement; e]
      /\ ~ (exists t, [sample_movement; e] = e :: t)
      /\ is_history_of (db_after r) 1 [sample_movement; e]
      /\ answer (run (endpoints.products.get_stock_history 1 0 100) sample_clock (db_after r))
         = inr [sample_movement; e]
      /\ (ts = 50 -> forall h, is_history_of (db_after r) 1 h -> h = [sample_movement; e])).
Proof.
  split; [reflexivity|]. split; [now left|]. split; [vm_compute; discriminate|].
  intros ts Hts.
  assert (Hrun : run (crud.adjust_product_stock 1 (StockAdjustment.mk 20 None))
                   (fun _ => ts) sample_db
                 = (mkDb [] []
                      [Product.mk 1 "Wireless Mouse" (Some "Ergonomic wireless mouse")
                         "MOU-001" 2999 30 5 None None 100 (Some ts)]
                      [sample_movement; StockMovement.mk 2 1 20 "stock_in" None ts],
                    inr (Product.mk 1 "Wireless Mouse" (Some "Ergonomic wireless mouse")
                           "MOU-001" 2999 30 5 None None 100 (Some ts)),
                    [mkDb [] []
                       [Product.mk 1 "Wireless Mouse" (Some "Ergonomic wireless mouse")
                          "MOU-001" 2999 30 5 None None 100 (Some ts)]
                       [sample_movement; StockMovement.mk 2 1 20 "stock_in" None ts]]))
    by (destruct Hts as [-> | ->]; reflexivity).
  cbv zeta. rewrite Hrun. cbn [answer db_after fst snd].
  set (e := StockMovement.mk 2 1 20 "stock_in" None ts).
  assert (Hsorted : StronglySorted not_older [sample_movement; e]).
  { repeat constructor. unfold not_older, e. cbn. destruct Hts as [-> | ->]; lia. }
  split; [eexists; split; reflexivity|]. split; [reflexivity|].
  split; [intros [t Ht]; discriminate Ht|].
  split; [split; [apply Permutation_refl | exact Hsorted]|].
  split; [destruct Hts as [-> | ->]; reflexivity|].
  intros -> h [Hperm Hs].
  change (movements_of _ 1) with [sample_movement; e] in Hperm.
  apply Permutation_sym, Permutation_length_2_inv in Hperm.
  destruct Hperm as [-> | ->]; [reflexivity|].
  exfalso. inversion Hs as [|? ? _ Hall]; subst.
  inversion Hall as [|? ? Hle _]; subst.
  unfold not_older, e in Hle. cbn in Hle. lia.
Qed.

(** C2. For an existing product [P] and a delta [d] with
    [P.stock_quantity + d < 0], [adjust_product_stock] fails with the 400
    error whose detail carries the current quantity of [P] and the absolute
    value of [d]; nothing is committed and the stored database is the one
    before the call, so the product read again and its history are as they
    were. *)
Theorem adjust_product_stock_insufficient (db : Db) (clk : nat -> Z) (P : Product.t)
    (d : Z) (note : option string) :
  integrity_ok db = true ->
  In P (products db) ->
  Product.stock_quantity P + d < 0 ->
  let r := run (crud.adjust_product_stock (Product.id P) (StockAdjustment.mk d note)) clk db in
  answer r = inl (HTTPException 400
                    ("Insufficient stock. Current: " ++ str (Product.stock_quantity P)
                     ++ ", Requested: " ++ str (Z.abs d)))
  /\ db_after r = db
  /\ committed r = []
  /\ find (fun x => Product.id x =? Product.id P) (products (db_after r)) = Some P
  /\ stock_movements (db_after r) = stock_movements db
  /\ forall skip limit clk',
       run (crud.get_product_stock_history (Product.id P) skip limit) clk' (db_after r)
       = run (crud.get_product_stock_history (Product.id P) skip limit) clk' db.
Proof.
  intros Hok HP Hd r. apply integrity_ok_iff in Hok.
  pose proof (find_product db P (product_keys db Hok) HP) as Hfind.
  subst r. rewrite adjust_product_stock_run, Hfind.
  cbn [StockAdjustment.quantity].
  destruct (Product.stock_quantity P + d <? 0) eqn:E; [|apply Z.ltb_ge in E; lia].
  cbn [answer db_after committed fst snd]. repeat split. exact Hfind.
Qed.

Lemma adjust_product_stock_insufficient_witness :
  answer (run (crud.adjust_product_stock 1 (StockAdjustment.mk (-30) None))
            sample_clock sample_db)
  = inl (HTTPException 400 "Insufficient stock. Current: 10, Requested: 30")
  /\ db_after (run (crud.adjust_product_stock 1 (StockAdjustment.mk (-30) None))
                 sample_clock sample_db) = sample_db.
Proof.
  destruct (adjust_product_stock_insufficient sample_db sample_clock sample_product (-30) None)
    as [H1 [H2 _]].
  - reflexivity.
  - left. reflexivity.
  - vm_compute. reflexivity.
  - split; [exact H1 | exact H2].
Defined.

(** C3. The movement appended by a successful adjustment by [d] has type
    ["stock_in"] when [d > 0] and ["stock_out"] otherwise; an adjustment by
    [0] of a product whose quantity is not negative succeeds, leaves the
    quantity as it is and appends a ["stock_out"] movement of quantity 0. *)
Theorem adjust_product_stock_movement_type (db : Db) (clk : nat -> Z) (P : Product.t)
    (note : option string) :
  integrity_ok db = true ->
  In P (products db) ->
  (forall d, 0 <= Product.stock_quantity P + d ->
     let r := run (crud.adjust_product_stock (Product.id P) (StockAdjustment.mk d note))
                clk db in
     exists P' e,
       answer r = inr P'
       /\ stock_movements (db_after r) = stock_movements db ++ [e]
       /\ StockMovement.quantity e = d
       /\ (0 < d -> StockMovement.movement_type e = "stock_in")
       /\ (d <= 0 -> StockMovement.movement_type e = "stock_out"))
  /\ (0 <= Product.stock_quantity P ->
      let r := run (crud.adjust_product_stock (Product.id P) (StockAdjustment.mk 0 note))
                 clk db in
      exists P' e,
        answer r = inr P'
        /\ Product.stock_quantity P' = Product.stock_quantity P
        /\ stock_movements (db_after r) = stock_movements db ++ [e]
        /\ StockMovement.quantity e = 0
        /\ StockMovement.movement_type e = "stock_out").
Proof.
  intros Hok HP.
  assert (Hgen : forall d, 0 <= Product.stock_quantity P + d ->
     let r := run (crud.adjust_product_stock (Product.id P) (StockAdjustment.mk d note))
                clk db in
     exists P' e,
       answer r = inr P'
       /\ Product.stock_quantity P' = Product.stock_quantity P + d
       /\ stock_movements (db_after r) = stock_movements db ++ [e]
       /\ StockMovement.quantity e = d
       /\ StockMovement.movement_type e = (if d >? 0 then "stock_in" else "stock_out")).
  { intros d Hd r.
    destruct (adjust_product_stock_commits db clk P d note Hok HP Hd) as [P' [Hrun [_ HP']]].
    subst r. rewrite Hrun. cbn [answer db_after fst snd].
    exists P'. eexists. split; [reflexivity|].
    split; [destruct HP' as [-> | ->]; reflexivity|].
    split; [reflexivity|]. split; reflexivity. }
  split.
  - intros d Hd r. destruct (Hgen d Hd) as [P' [e [H1 [_ [H3 [H4 H5]]]]]].
    exists P', e. repeat split; try assumption.
    + intros Hpos. rewrite H5. destruct (d >? 0) eqn:E; [reflexivity|].
      rewrite Z.gtb_ltb in E. apply Z.ltb_ge in E. lia.
    + intros Hneg. rewrite H5. destruct (d >? 0) eqn:E; [|reflexivity].
      rewrite Z.gtb_ltb in E. apply Z.ltb_lt in E. lia.
  - intros Hq r.
    destruct (Hgen 0) as [P' [e [H1 [H2 [H3 [H4 H5]]]]]]; [lia|].
    exists P', e. repeat split; try assumption. lia.
Qed.

Lemma adjust_product_stock_movement_type_witness :
  exists P' e,
    answer (run (crud.adjust_product_stock 1 (StockAdjustment.mk 0 None))
              sample_clock sample_db) = inr P'
    /\ Product.stock_quantity P' = 10
    /\ StockMovement.movement_type e = "stock_out".
Proof.
  destruct (adjust_product_stock_movement_type sample_db sample_clock sample_product None)
    as [_ H].
  - reflexivity.
  - left. reflexivity.
  - destruct H as [P' [e [H1 [H2 [_ [_ H5]]]]]].
    + vm_compute. discriminate.
    + exists P', e. repeat split; assumption.
Defined.

(** ** The reorder evaluator *)

(** C4. [needs_reorder] holds exactly when
    [stock_quantity <= reorder_level]; the low-stock list is the list of the
    products that satisfy it: a product at its reorder level is listed, a
    product one unit above is not. *)
Theorem needs_reorder_low_stock (db : Db) (clk : nat -> Z) (p : Product.t) :
  (Product.needs_reorder p = true <-> Product.stock_quantity p <= Product.reorder_level p)
  /\ exists low,
       run endpoints.products.get_low_stock_products clk db = (db, inr low, [])
       /\ low = filter Product.needs_reorder (products db)
       /\ (In p low <-> In p (products db) /\ Product.needs_reorder p = true)
       /\ (In p (products db) ->
           Product.stock_quantity p = Product.reorder_level p -> In p low)
       /\ (Product.stock_quantity p = Product.reorder_level p + 1 -> ~ In p low).
Proof.
  split; [unfold Product.needs_reorder; apply Z.leb_le|].
  eexists. split; [reflexivity|]. split; [reflexivity|].
  split; [apply filter_In|]. split.
  - intros Hin Heq. apply filter_In. split; [assumption|]. apply Z.leb_le. lia.
  - intros Heq Hin. apply filter_In in Hin. destruct Hin as [_ H].
    apply Z.leb_le in H. lia.
Qed.

Lemma needs_reorder_low_stock_witness :
  exists low,
    run endpoints.products.get_low_stock_products sample_clock
      (mkDb [] [] [Product.set_stock_quantity sample_product 5;
                   Product.set_stock_quantity sample_product 6] [])
    = (mkDb [] [] [Product.set_stock_quantity sample_product 5;
                   Product.set_stock_quantity sample_product 6] [],
       inr low, [])
    /\ low = [Product.set_stock_quantity sample_product 5].
Proof.
  destruct (needs_reorder_low_stock
              (mkDb [] [] [Product.set_stock_quantity sample_product 5;
                           Product.set_stock_quantity sample_product 6] [])
              sample_clock sample_product)
    as [_ [low [H1 [H2 _]]]].
  exists low. split; [exact H1 | exact H2].
Defined.

(** ** Creating a product *)

(** C5 (amended). For a valid request to create a product (the schema's
    constraints hold, the SKU is not in use, the category and the supplier
    referred to exist), [create_product] succeeds and stores the new product.
    When the initial quantity is not zero it creates exactly one stock
    movement for the new product, of that quantity and of type
    ["initial_stock"], in a second commit: the first commit stores the product
    with no movement.  When the initial quantity is zero it creates no
    movement and commits once. *)
Theorem create_product_initial_stock (db : Db) (clk : nat -> Z) (product : ProductCreate.t) :
  integrity_ok db = true ->
  ProductCreate.valid product = true ->
  ~ In (ProductCreate.sku product) (map Product.sku (products db)) ->
  fk_ok (map Category.id (categories db)) (ProductCreate.category_id product) = true ->
  fk_ok (map Supplier.id (suppliers db)) (ProductCreate.supplier_id product) = true ->
  let r := run (crud.create_product product) clk db in
  let P := created_row db (clk 0%nat) product in
  let db1 := created db (clk 0%nat) product in
  answer r = inr P
  /\ ~ In (Product.id P) (map Product.id (products db))
  /\ products (db_after r) = products db ++ [P]
  /\ Product.stock_quantity P = ProductCreate.stock_quantity product
  /\ (ProductCreate.stock_quantity product <> 0 ->
      exists e,
        stock_movements (db_after r) = stock_movements db ++ [e]
        /\ movements_of (db_after r) (Product.id P) = [e]
        /\ StockMovement.quantity e = ProductCreate.stock_quantity product
        /\ StockMovement.movement_type e = "initial_stock"
        /\ committed r = [db1; db_after r]
        /\ In P (products db1)
        /\ movements_of db1 (Product.id P) = [])
  /\ (ProductCreate.stock_quantity product = 0 ->
      stock_movements (db_after r) = stock_movements db
      /\ movements_of (db_after r) (Product.id P) = []
      /\ committed r = [db_after r]).
Proof.
  intros Hok Hvalid Hsku Hcat Hsup. cbv zeta.
  set (P := created_row db (clk 0%nat) product).
  set (db1 := created db (clk 0%nat) product).
  apply integrity_ok_iff in Hok.
  pose proof (created_integrity db (clk 0%nat) product Hok Hsku Hcat Hsup) as Hok1.
  fold db1 in Hok1.
  assert (HP1 : In P (products db1)).
  { unfold db1, created. cbn [products with_products]. apply in_or_app. right. now left. }
  pose proof (created_with_stock_integrity db1 (clk 1%nat) (Product.id P)
                (ProductCreate.stock_quantity product) Hok1
                (in_map Product.id _ _ HP1)) as Hok2.
  pose proof (created_row_fresh db (clk 0%nat) product) as Hfresh. fold P in Hfresh.
  pose proof (movements_of_missing db (Product.id P) Hok Hfresh) as Hnone.
  assert (Hq : 0 <= ProductCreate.stock_quantity product).
  { unfold ProductCreate.valid in Hvalid. rewrite !andb_true_iff in Hvalid.
    destruct Hvalid as [[_ Hq] _]. now apply Z.leb_le in Hq. }
  apply integrity_ok_iff in Hok1, Hok2.
  rewrite create_product_run, (sku_unused db _ Hsku).
  cbn [is_some]. rewrite (verify_category_passes _ clk db Hcat),
    (verify_supplier_passes _ clk db Hsup).
  cbv zeta. rewrite created_find. fold P db1. rewrite Hok1.
  destruct (ProductCreate.stock_quantity product >? 0) eqn:E.
  - rewrite Hok2. cbn [answer db_after committed fst snd].
    split; [reflexivity|]. split; [assumption|]. split; [reflexivity|].
    split; [reflexivity|]. split.
    + intros _. eexists. split; [reflexivity|].
      split; [|split; [reflexivity|split; [reflexivity|split; [reflexivity|split]]]].
      * unfold movements_of, created_with_stock.
        cbn [stock_movements with_stock_movements].
        rewrite filter_app. fold (movements_of db1 (Product.id P)).
        change (movements_of db1 (Product.id P)) with (movements_of db (Product.id P)).
        rewrite Hnone. cbn [filter app initial_movement StockMovement.product_id].
        rewrite Z.eqb_refl. reflexivity.
      * exact HP1.
      * exact Hnone.
    + intros H0. rewrite Z.gtb_ltb in E. apply Z.ltb_lt in E. lia.
  - cbn [answer db_after committed fst snd].
    split; [reflexivity|]. split; [assumption|]. split; [reflexivity|].
    split; [reflexivity|]. split.
    + intros Hne. rewrite Z.gtb_ltb in E. apply Z.ltb_ge in E. lia.
    + intros _. split; [reflexivity|]. split; [exact Hnone | reflexivity].
Qed.

Lemma create_product_initial_stock_witness :
  exists e,
    movements_of (db_after (run (crud.create_product sample_create) sample_clock empty_db)) 1
    = [e]
    /\ StockMovement.quantity e = 10
    /\ StockMovement.movement_type e = "initial_stock".
Proof.
  destruct (create_product_initial_stock empty_db sample_clock sample_create)
    as [_ [_ [_ [_ [H _]]]]].
  - reflexivity.
  - reflexivity.
  - intros [].
  - reflexivity.
  - reflexivity.
  - destruct H as [e [_ [H2 [H3 [H4 _]]]]].
    + vm_compute. discriminate.
    + exists e. repeat split; assumption.
Defined.

(** C5, as stated, fails: the product and its initial movement are not
    committed together.  The request [sample_create] on the empty database
    commits twice, and the first state committed holds the new product, with
    its stock of 10, and no stock movement for it. *)
Lemma create_product_not_atomic :
  ~ committed_together
      (committed (run (crud.create_product sample_create) sample_clock empty_db)) 1
  /\ exists db1 db2 P,
       committed (run (crud.create_product sample_create) sample_clock empty_db) = [db1; db2]
       /\ products db1 = [P]
       /\ Product.id P = 1
       /\ Product.stock_quantity P = 10
       /\ stock_movements db1 = [].
Proof.
  split.
  - intros H.
    apply (H (created empty_db (sample_clock 0%nat) sample_create)).
    + left. reflexivity.
    + left. reflexivity.
    + reflexivity.
  - do 3 eexists. split; [vm_compute; reflexivity|].
    split; [reflexivity|]. split; [reflexivity|]. split; reflexivity.
Qed.

(** ** Deleting a category or a supplier *)

(** C6 (the code at the failing input). Deleting a category, or a supplier,
    deletes the products that refer to it: after [delete_category] (or
    [delete_supplier]) has succeeded, a product [P] that referred to the
    deleted row is in the table no more, under no key, and its stock
    movements are deleted with it. *)
Theorem delete_category_deletes_products (db : Db) (clk : nat -> Z) (P : Product.t) :
  integrity_ok db = true ->
  In P (products db) ->
  (forall c, In c (categories db) -> Product.category_id P = Some (Category.id c) ->
     let r := run (crud.delete_category (Category.id c)) clk db in
     answer r = inr tt
     /\ products (db_after r)
        = filter (fun p => negb (option_eqb Z.eqb (Product.category_id p)
                                   (Some (Category.id c))))
            (products db)
     /\ ~ In (Product.id P) (map Product.id (products (db_after r)))
     /\ movements_of (db_after r) (Product.id P) = [])
  /\ (forall s, In s (suppliers db) -> Product.supplier_id P = Some (Supplier.id s) ->
        let r := run (crud.delete_supplier (Supplier.id s)) clk db in
        answer r = inr tt
        /\ products (db_after r)
           = filter (fun p => negb (option_eqb Z.eqb (Product.supplier_id p)
                                      (Some (Supplier.id s))))
               (products db)
        /\ ~ In (Product.id P) (map Product.id (products (db_after r)))
        /\ movements_of (db_after r) (Product.id P) = []).
Proof.
  intros Hok HP. apply integrity_ok_iff in Hok. split.
  - intros c Hc Href. cbv zeta.
    pose proof (category_deleted_integrity db (Category.id c) Hok) as Hok'.
    rewrite delete_category_run, (find_key Category.id _ c (category_keys db Hok) Hc).
    cbv zeta. rewrite (proj2 (integrity_ok_iff _) Hok').
    cbn [answer db_after fst snd].
    assert (Hgone : ~ In (Product.id P)
                      (map Product.id (products (category_deleted db (Category.id c))))).
    { apply (delete_products_gone _ db P Hok HP). now apply option_eqb_Some. }
    split; [reflexivity|]. split; [reflexivity|]. split; [exact Hgone|].
    now apply movements_of_missing.
  - intros s Hs Href. cbv zeta.
    pose proof (supplier_deleted_integrity db (Supplier.id s) Hok) as Hok'.
    rewrite delete_supplier_run, (find_key Supplier.id _ s (supplier_keys db Hok) Hs).
    cbv zeta. rewrite (proj2 (integrity_ok_iff _) Hok').
    cbn [answer db_after fst snd].
    assert (Hgone : ~ In (Product.id P)
                      (map Product.id (products (supplier_deleted db (Supplier.id s))))).
    { apply (delete_products_gone _ db P Hok HP). now apply option_eqb_Some. }
    split; [reflexivity|]. split; [reflexivity|]. split; [exact Hgone|].
    now apply movements_of_missing.
Qed.

Lemma delete_category_deletes_products_witness :
  run (crud.delete_category 1) sample_clock catalog_db
  = (mkDb [] [sample_supplier] [] [], inr tt, [mkDb [] [sample_supplier] [] []])
  /\ products (db_after (run (crud.delete_category 1) sample_clock catalog_db)) = []
  /\ products (db_after (run (crud.delete_supplier 1) sample_clock catalog_db)) = [].
Proof.
  destruct (delete_category_deletes_products catalog_db sample_clock catalog_product)
    as [Hc Hs].
  - reflexivity.
  - left. reflexivity.
  - destruct (Hc sample_category) as [_ [H2 _]]; [left; reflexivity | reflexivity |].
    destruct (Hs sample_supplier) as [_ [H3 _]]; [left; reflexivity | reflexivity |].
    split; [reflexivity|]. split; [exact H2 | exact H3].
Defined.

(** ** The history endpoint *)

(** C7 (amended). A stock-history request whose pagination values are out of
    range (negative [skip], [limit] below 1 or above 1000) is answered with a
    validation error, and the query does not run; values in range are used as
    they are. *)
Theorem get_stock_history_out_of_range (product_id skip limit : Z) (clk : nat -> Z) (db : Db) :
  (skip < 0 \/ limit < 1 \/ 1000 < limit ->
   run (endpoints.products.get_stock_history product_id skip limit) clk db
   = (db, inl RequestValidationError, []))
  /\ (0 <= skip /\ 1 <= limit <= 1000 ->
      run (endpoints.products.get_stock_history product_id skip limit) clk db
      = run (crud.get_product_stock_history product_id skip limit) clk db).
Proof.
  rewrite get_stock_history_run, get_product_stock_history_run. split; intros H.
  - destruct ((0 <=? skip) && (1 <=? limit) && (limit <=? 1000)) eqn:E; [|reflexivity].
    rewrite !andb_true_iff, !Z.leb_le in E. lia.
  - destruct ((0 <=? skip) && (1 <=? limit) && (limit <=? 1000)) eqn:E; [reflexivity|].
    rewrite !andb_false_iff, !Z.leb_gt in E. lia.
Qed.

Lemma get_stock_history_out_of_range_witness :
  run (endpoints.products.get_stock_history 1 0 5000) sample_clock sample_db
  = (sample_db, inl RequestValidationError, [])
  /\ run (endpoints.products.get_stock_history 1 (-1) 10) sample_clock sample_db
     = (sample_db, inl RequestValidationError, []).
Proof.
  split.
  - apply (get_stock_history_out_of_range 1 0 5000 sample_clock sample_db). lia.
  - apply (get_stock_history_out_of_range 1 (-1) 10 sample_clock sample_db). lia.
Defined.

(** C7, as stated, fails: with [limit = 0] the caller gets the validation
    error, not the result for the clamped values, which is the movement of
    the product. *)
Lemma get_stock_history_does_not_clamp :
  answer (run (endpoints.products.get_stock_history 1 0 0) sample_clock sample_db)
  <> answer (run (crud.get_product_stock_history 1 (spec_clamp_offset 0) (spec_clamp_limit 0))
               sample_clock sample_db)
  /\ answer (run (endpoints.products.get_stock_history 1 0 0) sample_clock sample_db)
     = inl RequestValidationError
  /\ answer (run (crud.get_product_stock_history 1 (spec_clamp_offset 0) (spec_clamp_limit 0))
               sample_clock sample_db)
     = inr [sample_movement].
Proof. split; [discriminate | split; reflexivity]. Qed.

(** C8 (the code at the failing input). For a [product_id] that refers to no
    product, and pagination values in range, the stock-history endpoint does
    not raise the 404 error: it answers with the empty list. *)
Theorem get_stock_history_missing_product (product_id skip limit : Z) (clk : nat -> Z)
    (db : Db) :
  integrity_ok db = true ->
  answer (run (crud.get_product product_id) clk db) = inr None ->
  0 <= skip -> 1 <= limit <= 1000 ->
  run (endpoints.products.get_stock_history product_id skip limit) clk db = (db, inr [], []).
Proof.
  intros Hok Hmissing Hskip Hlimit. apply integrity_ok_iff in Hok.
  rewrite get_stock_history_run.
  replace ((0 <=? skip) && (1 <=? limit) && (limit <=? 1000)) with true
    by (symmetry; rewrite !andb_true_iff, !Z.leb_le; lia).
  assert (Hnone : history_of db product_id = []).
  { unfold history_of. fold (movements_of db product_id).
    rewrite movements_of_missing; [reflexivity | assumption |].
    intros Hin. apply in_map_iff in Hin. destruct Hin as [p [Hid Hp]].
    unfold crud.get_product, answer, run, query in Hmissing. cbn [fst snd view] in Hmissing.
    injection Hmissing as Hfind. eapply find_none in Hfind; [|exact Hp].
    rewrite Hid, Z.eqb_refl in Hfind. discriminate. }
  rewrite Hnone. destruct (Z.to_nat skip); destruct (Z.to_nat limit); reflexivity.
Qed.

Lemma get_stock_history_missing_product_witness :
  answer (run (endpoints.products.get_product 99) sample_clock sample_db)
  = inl (HTTPException 404 "Product with id 99 not found")
  /\ run (endpoints.products.get_stock_history 99 0 100) sample_clock sample_db
     = (sample_db, inr [], []).
Proof.
  split; [reflexivity|].
  apply (get_stock_history_missing_product 99 0 100 sample_clock sample_db).
  - reflexivity.
  - reflexivity.
  - lia.
  - lia.
Defined.

(** ** Updating a product *)

(** [update_product] adds no stock movement, whatever the request. *)
Lemma update_product_keeps_movements (product_id : Z) (u : ProductUpdate.t) (clk : nat -> Z)
    (db : Db) :
  stock_movements (db_after (run (crud.update_product product_id u) clk db))
  = stock_movements db.
Proof.
  rewrite update_product_run.
  destruct (find _ (products db)) as [p|]; [|reflexivity].
  destruct (sku_conflict db product_id u); [reflexivity|].
  destruct (answer (run (crud.verify_category _) clk db)); [reflexivity|].
  destruct (answer (run (crud.verify_supplier _) clk db)); [reflexivity|].
  destruct (setattrs_product p u) as [row|]; [|reflexivity].
  cbv zeta. destruct (integrity_ok (flush_product (clk 0%nat) row db)); reflexivity.
Qed.

(** C9. For an existing product [P] and an update request that gives
    [stock_quantity = q] and that [update_product] carries out,
    [update_product] succeeds, the product it returns and stores has the
    quantity [q], and the table of stock movements is what it was: no
    movement records the change.  No call of [update_product], carried out
    or refused, adds a stock movement. *)
Theorem update_product_bypasses_ledger (db : Db) (clk : nat -> Z) (P : Product.t)
    (u : ProductUpdate.t) (q : Z) :
  integrity_ok db = true ->
  In P (products db) ->
  ProductUpdate.stock_quantity u = given (Some q) ->
  update_passes db (Product.id P) u = true ->
  let r := run (crud.update_product (Product.id P) u) clk db in
  (exists P',
     answer r = inr P'
     /\ find (fun x => Product.id x =? Product.id P) (products (db_after r)) = Some P'
     /\ Product.stock_quantity P' = q
     /\ stock_movements (db_after r) = stock_movements db
     /\ committed r = [db_after r])
  /\ (forall product_id u' clk',
        stock_movements (db_after (run (crud.update_product product_id u') clk' db))
        = stock_movements db).
Proof.
  intros Hok HP Hq Hpass. cbv zeta. split; [|intros; apply update_product_keeps_movements].
  apply integrity_ok_iff in Hok.
  set (row := updated_row P u).
  assert (Hok' : Integrity (flush_product (clk 0%nat) row db)).
  { pose proof Hpass as Hpass'. unfold update_passes in Hpass'.
    rewrite !andb_true_iff in Hpass'. destruct Hpass' as [[[_ Hsku] Hcat] Hsup].
    apply (flush_product_integrity _ row P db Hok HP); [reflexivity | | |].
    - intros p Hp Hs. unfold row, updated_row in Hs. cbn [Product.sku] in Hs.
      destruct (ProductUpdate.sku u) as [|[s|]]; cbn [assigned value] in Hs, Hsku.
      + f_equal. eapply NoDup_map_eq; eauto using product_skus.
      + rewrite forallb_forall in Hsku. specialize (Hsku p Hp).
        rewrite Hs, String.eqb_refl in Hsku. cbn [negb orb] in Hsku.
        now apply Z.eqb_eq in Hsku.
      + f_equal. eapply NoDup_map_eq; eauto using product_skus.
    - unfold row, updated_row. cbn [Product.category_id].
      destruct (ProductUpdate.category_id u); cbn [assign value] in Hcat |- *;
        [apply (product_refs db Hok P HP) | assumption].
    - unfold row, updated_row. cbn [Product.supplier_id].
      destruct (ProductUpdate.supplier_id u); cbn [assign value] in Hsup |- *;
        [apply (product_refs db Hok P HP) | assumption]. }
  rewrite update_product_run, (find_product db P (product_keys db Hok) HP),
    (sku_conflict_passes db _ u Hpass).
  pose proof Hpass as Hpass'. unfold update_passes in Hpass'.
  rewrite !andb_true_iff in Hpass'. destruct Hpass' as [[_ Hcat] Hsup].
  rewrite (verify_category_passes _ clk db Hcat), (verify_supplier_passes _ clk db Hsup),
    (setattrs_product_passes db P u Hpass).
  cbv zeta. fold row. rewrite (proj2 (integrity_ok_iff _) Hok').
  cbn [answer db_after committed fst snd].
  destruct (flush_product_find (clk 0%nat) row db (product_keys db Hok)) as [r' [Hfind Hr']].
  { exists P. split; [assumption | reflexivity]. }
  rewrite Hfind. exists r'. split; [reflexivity|]. split; [exact Hfind|].
  split; [|split; reflexivity].
  unfold row, updated_row in Hr'. rewrite Hq in Hr'.
  destruct Hr' as [-> | ->]; reflexivity.
Qed.

Lemma update_product_bypasses_ledger_witness :
  exists P',
    answer (run (crud.update_product 1 sample_update) sample_clock sample_db) = inr P'
    /\ Product.stock_quantity P' = 500
    /\ stock_movements (db_after (run (crud.update_product 1 sample_update) sample_clock
                                    sample_db))
       = [sample_movement].
Proof.
  destruct (update_product_bypasses_ledger sample_db sample_clock sample_product
              sample_update 500)
    as [[P' [H1 [_ [H3 [H4 _]]]]] _].
  - reflexivity.
  - left. reflexivity.
  - reflexivity.
  - reflexivity.
  - exists P'. split; [exact H1|]. split; [exact H3 | exact H4].
Defined.

(** ** The invariant of the service *)

Lemma empty_db_sound : sound empty_db.
Proof. split; [reflexivity | intros p []]. Qed.

Lemma nonneg_stock_filter (f : Product.t -> bool) (db db' : Db) :
  nonneg_stock db -> products db' = filter f (products db) -> nonneg_stock db'.
Proof.
  intros H E p Hp. rewrite E in Hp. apply filter_In in Hp. now apply H.
Qed.

Lemma create_category_sound (c : CategoryCreate.t) (clk : nat -> Z) (db : Db) :
  sound db -> sound (db_after (run (endpoints.categories.create_category c) clk db)).
Proof.
  intros [H1 H2].
  unfold endpoints.categories.create_category, crud.create_category,
    crud.get_category_by_name, add_category, refresh_category, db_after.
  run_unfold. break_run; cbn [fst snd stored]; split; assumption.
Qed.

Lemma update_category_sound (i : Z) (c : CategoryUpdate.t) (clk : nat -> Z) (db : Db) :
  sound db -> sound (db_after (run (endpoints.categories.update_category i c) clk db)).
Proof.
  intros [H1 H2].
  unfold endpoints.categories.update_category, crud.update_category,
    crud.get_category_by_name, crud.get_category, save_category, refresh_category, db_after.
  run_unfold. break_run; cbn [fst snd stored]; split; assumption.
Qed.

Lemma delete_category_sound (i : Z) (clk : nat -> Z) (db : Db) :
  sound db -> sound (db_after (run (endpoints.categories.delete_category i) clk db)).
Proof.
  intros [H1 H2]. unfold endpoints.categories.delete_category.
  rewrite delete_category_run.
  destruct (find _ (categories db)) as [c|]; [|now split].
  cbv zeta. destruct (integrity_ok (category_deleted db (Category.id c))) eqn:E; [|now split].
  split; [exact E|]. eapply nonneg_stock_filter; [exact H2 | reflexivity].
Qed.

Lemma create_supplier_sound (c : SupplierCreate.t) (clk : nat -> Z) (db : Db) :
  sound db -> sound (db_after (run (endpoints.suppliers.create_supplier c) clk db)).
Proof.
  intros [H1 H2].
  unfold endpoints.suppliers.create_supplier, crud.create_supplier,
    crud.get_supplier_by_name, add_supplier, refresh_supplier, db_after.
  run_unfold. break_run; cbn [fst snd stored]; split; assumption.
Qed.

Lemma update_supplier_sound (i : Z) (c : SupplierUpdate.t) (clk : nat -> Z) (db : Db) :
  sound db -> sound (db_after (run (endpoints.suppliers.update_supplier i c) clk db)).
Proof.
  intros [H1 H2].
  unfold endpoints.suppliers.update_supplier, crud.update_supplier,
    crud.get_supplier_by_name, crud.get_supplier, save_supplier, refresh_supplier, db_after.
  run_unfold. break_run; cbn [fst snd stored]; split; assumption.
Qed.

Lemma delete_supplier_sound (i : Z) (clk : nat -> Z) (db : Db) :
  sound db -> sound (db_after (run (endpoints.suppliers.delete_supplier i) clk db)).
Proof.
  intros [H1 H2]. unfold endpoints.suppliers.delete_supplier.
  rewrite delete_supplier_run.
  destruct (find _ (suppliers db)) as [c|]; [|now split].
  cbv zeta. destruct (integrity_ok (supplier_deleted db (Supplier.id c))) eqn:E; [|now split].
  split; [exact E|]. eapply nonneg_stock_filter; [exact H2 | reflexivity].
Qed.

Lemma create_product_sound (c : ProductCreate.t) (clk : nat -> Z) (db : Db) :
  sound db -> sound (db_after (run (endpoints.products.create_product c) clk db)).
Proof.
  intros [H1 H2]. unfold endpoints.products.create_product, endpoints.validated.
  destruct (ProductCreate.valid c) eqn:V; [|now split].
  assert (Hq : 0 <= ProductCreate.stock_quantity c).
  { unfold ProductCreate.valid in V. rewrite !andb_true_iff in V.
    destruct V as [[_ Hq] _]. now apply Z.leb_le in Hq. }
  assert (Hnew : nonneg_stock (created db (clk 0%nat) c)).
  { intros p Hp. unfold created in Hp. cbn [products with_products] in Hp.
    apply in_app_iff in Hp. destruct Hp as [Hp | [<- | []]]; [now apply H2 | exact Hq]. }
  rewrite create_product_run.
  destruct (is_some _); [now split|].
  destruct (answer (run (crud.verify_category _) clk db)); [now split|].
  destruct (answer (run (crud.verify_supplier _) clk db)); [now split|].
  cbv zeta. destruct (integrity_ok (created db (clk 0%nat) c)) eqn:E1; [|now split].
  destruct (_ >? 0); [|now split].
  destruct (integrity_ok (created_with_stock _ _ _ _)) eqn:E2; now split.
Qed.

Lemma update_product_sound (i : Z) (u : ProductUpdate.t) (clk : nat -> Z) (db : Db) :
  sound db -> sound (db_after (run (endpoints.products.update_product i u) clk db)).
Proof.
  intros [H1 H2]. unfold endpoints.products.update_product, endpoints.validated.
  destruct (ProductUpdate.valid u) eqn:V; [|now split].
  rewrite update_product_run.
  destruct (find _ (products db)) as [p|] eqn:F; [|now split].
  destruct (sku_conflict db i u); [now split|].
  destruct (answer (run (crud.verify_category _) clk db)); [now split|].
  destruct (answer (run (crud.verify_supplier _) clk db)); [now split|].
  destruct (setattrs_product p u) as [row|] eqn:S; [|now split].
  cbv zeta. destruct (integrity_ok (flush_product (clk 0%nat) row db)) eqn:E; [|now split].
  split; [exact E|]. apply nonneg_stock_flush; [assumption|].
  apply setattrs_product_Some in S. subst row. cbn [updated_row Product.stock_quantity].
  unfold ProductUpdate.valid in V. rewrite !andb_true_iff in V.
  destruct V as [[_ Hq] _].
  destruct (ProductUpdate.stock_quantity u) as [|[q|]]; cbn [assigned field_ok] in Hq |- *.
  - apply H2. now apply find_some in F.
  - now apply Z.leb_le in Hq.
  - apply H2. now apply find_some in F.
Qed.

Lemma delete_product_sound (i : Z) (clk : nat -> Z) (db : Db) :
  sound db -> sound (db_after (run (endpoints.products.delete_product i) clk db)).
Proof.
  intros [H1 H2]. unfold endpoints.products.delete_product.
  rewrite delete_product_run.
  destruct (find _ (products db)) as [c|]; [|now split].
  cbv zeta.
  destruct (integrity_ok (delete_products (fun r => Product.id r =? Product.id c) db)) eqn:E;
    [|now split].
  split; [exact E|]. eapply nonneg_stock_filter; [exact H2 | reflexivity].
Qed.

Lemma adjust_stock_sound (i : Z) (a : StockAdjustment.t) (clk : nat -> Z) (db : Db) :
  sound db -> sound (db_after (run (endpoints.products.adjust_stock i a) clk db)).
Proof.
  intros [H1 H2]. unfold endpoints.products.adjust_stock.
  rewrite adjust_product_stock_run.
  destruct (find _ (products db)) as [p|]; [|now split].
  destruct (_ <? 0) eqn:N; [now split|].
  cbv zeta. destruct (integrity_ok (adjusted db (clk 0%nat) i p a)) eqn:E; [|now split].
  split; [exact E|]. unfold adjusted. cbv zeta.
  intros x Hx. cbn [products with_stock_movements] in Hx. revert x Hx.
  apply nonneg_stock_flush; [assumption|].
  cbn [Product.set_stock_quantity Product.stock_quantity]. now apply Z.ltb_ge in N.
Qed.

(** Every request leaves the stored database sound. *)
Lemma serve_sound (db : Db) (rq : Request * (nat -> Z)) : sound db -> sound (serve db rq).
Proof.
  destruct rq as [[c | i c | i | c | i c | i | c | i u | i | i a] clk]; cbn [serve].
  - apply create_category_sound.
  - apply update_category_sound.
  - apply delete_category_sound.
  - apply create_supplier_sound.
  - apply update_supplier_sound.
  - apply delete_supplier_sound.
  - apply create_product_sound.
  - apply update_product_sound.
  - apply delete_product_sound.
  - apply adjust_stock_sound.
Qed.

Lemma serve_all_sound (rqs : list (Request * (nat -> Z))) (db : Db) :
  sound db -> sound (serve_all db rqs).
Proof.
  unfold serve_all. revert db.
  induction rqs as [|rq rqs IH]; intros db H; cbn [fold_left]; [assumption|].
  apply IH. now apply serve_sound.
Qed.

(** C10. Whatever requests the service has served, starting from the empty
    database, no product has a negative stock quantity (and the constraints
    of the tables hold).  In such a state a request to create a product with
    a negative [stock_quantity], or to update a product to one, is refused at
    validation, and an adjustment that would make the quantity of a product
    negative is refused with the 400 error; the three leave the database as
    it is. *)
Theorem stock_quantity_never_negative (rqs : list (Request * (nat -> Z))) :
  let db := serve_all empty_db rqs in
  integrity_ok db = true
  /\ (forall p, In p (products db) -> 0 <= Product.stock_quantity p)
  /\ (forall product clk,
        ProductCreate.stock_quantity product < 0 ->
        run (endpoints.products.create_product product) clk db
        = (db, inl RequestValidationError, []))
  /\ (forall product_id u q clk,
        ProductUpdate.stock_quantity u = given (Some q) -> q < 0 ->
        run (endpoints.products.update_product product_id u) clk db
        = (db, inl RequestValidationError, []))
  /\ (forall P d note clk,
        In P (products db) -> Product.stock_quantity P + d < 0 ->
        exists detail,
          run (endpoints.products.adjust_stock (Product.id P) (StockAdjustment.mk d note))
            clk db
          = (db, inl (HTTPException 400 detail), [])).
Proof.
  cbv zeta. destruct (serve_all_sound rqs empty_db empty_db_sound) as [Hok Hnn].
  set (db := serve_all empty_db rqs) in *.
  split; [exact Hok|]. split; [exact Hnn|]. split; [|split].
  - intros product clk Hq.
    unfold endpoints.products.create_product, endpoints.validated, ProductCreate.valid.
    replace (0 <=? ProductCreate.stock_quantity product) with false
      by (symmetry; apply Z.leb_gt; assumption).
    rewrite andb_false_r. reflexivity.
  - intros product_id u q clk Hu Hq.
    unfold endpoints.products.update_product, endpoints.validated, ProductUpdate.valid.
    rewrite Hu. cbn [field_ok].
    replace (0 <=? q) with false by (symmetry; apply Z.leb_gt; assumption).
    rewrite andb_false_r. reflexivity.
  - intros P d note clk HP Hd. apply integrity_ok_iff in Hok.
    unfold endpoints.products.adjust_stock.
    rewrite adjust_product_stock_run, (find_product db P (product_keys db Hok) HP).
    cbn [StockAdjustment.quantity].
    destruct (Product.stock_quantity P + d <? 0) eqn:E; [|apply Z.ltb_ge in E; lia].
    eexists. reflexivity.
Qed.

(** The spec's scenario, served request by request: the product is created
    with a stock of 10, then 20 are added, 5 removed, and the removal of 30
    is refused. *)
Lemma sample_requests_served :
  map Product.stock_quantity (products (serve_all empty_db sample_requests)) = [25]
  /\ map StockMovement.quantity (stock_movements (serve_all empty_db sample_requests))
     = [10; 20; -5].
Proof. split; vm_compute; reflexivity. Qed.

Lemma stock_quantity_never_negative_witness :
  (forall p, In p (products (serve_all empty_db sample_requests)) ->
             0 <= Product.stock_quantity p)
  /\ run (endpoints.products.create_product
            (ProductCreate.mk "Keyboard" None "KEY-001" 4999 (-1) 5 None None))
         sample_clock (serve_all empty_db sample_requests)
     = (serve_all empty_db sample_requests, inl RequestValidationError, []).
Proof.
  destruct (stock_quantity_never_negative sample_requests) as [_ [H2 [H3 _]]].
  split; [exact H2|]. apply H3. vm_compute. reflexivity.
Defined.

(** * Further properties *)

(** ** Running the operations on categories and suppliers *)

Lemma create_category_run (c : CategoryCreate.t) (clk : nat -> Z) (db : Db) :
  run (crud.create_category c) clk db =
  if is_some (find (fun r => (Category.name r =? CategoryCreate.name c)%string) (categories db))
  then (db,
        inl (HTTPException 400
               ("Category with name '" ++ CategoryCreate.name c ++ "' already exists")),
        [])
  else
    let db' := category_created db (clk 0%nat) c in
    if integrity_ok db'
    then (db',
          inr (match find (fun r => Category.id r
                                    =? Category.id (category_row db (clk 0%nat) c))
                       (categories db') with
               | Some r => r
               | None => category_row db (clk 0%nat) c
               end),
          [db'])
    else (db, inl IntegrityError, []).
Proof.
  unfold crud.create_category, crud.get_category_by_name, add_category, refresh_category,
    category_created, category_row.
  run_unfold. break_run; reflexivity.
Qed.

Lemma create_supplier_run (c : SupplierCreate.t) (clk : nat -> Z) (db : Db) :
  run (crud.create_supplier c) clk db =
  if is_some (find (fun r => (Supplier.name r =? SupplierCreate.name c)%string) (suppliers db))
  then (db,
        inl (HTTPException 400
               ("Supplier with name '" ++ SupplierCreate.name c ++ "' already exists")),
        [])
  else
    let db' := supplier_created db (clk 0%nat) c in
    if integrity_ok db'
    then (db',
          inr (match find (fun r => Supplier.id r
                                    =? Supplier.id (supplier_row db (clk 0%nat) c))
                       (suppliers db') with
               | Some r => r
               | None => supplier_row db (clk 0%nat) c
               end),
          [db'])
    else (db, inl IntegrityError, []).
Proof.
  unfold crud.create_supplier, crud.get_supplier_by_name, add_supplier, refresh_supplier,
    supplier_created, supplier_row.
  run_unfold. break_run; reflexivity.
Qed.

Lemma update_category_run (category_id : Z) (u : CategoryUpdate.t) (clk : nat -> Z)
    (db : Db) :
  run (crud.update_category category_id u) clk db =
  match find (fun c => Category.id c =? category_id) (categories db) with
  | None => (db, not_found "Category" category_id, [])
  | Some c =>
      if category_name_conflict db category_id u
      then (db,
            inl (HTTPException 400
                   ("Category with name '"
                    ++ match value (CategoryUpdate.name u) with Some n => n | None => "" end
                    ++ "' already exists")),
            [])
      else
        match setattrs_category c u with
        | None => (db, inl IntegrityError, [])
        | Some row =>
            let db' := flush_category (clk 0%nat) row db in
            if integrity_ok db'
            then (db',
                  inr (match find (fun r => Category.id r =? Category.id row)
                               (categories db') with
                       | Some r => r
                       | None => row
                       end),
                  [db'])
            else (db, inl IntegrityError, [])
        end
  end.
Proof.
  unfold crud.update_category, crud.get_category, crud.get_category_by_name,
    category_name_conflict, save_category, refresh_category, not_found.
  run_unfold. break_run; reflexivity.
Qed.

Lemma update_supplier_run (supplier_id : Z) (u : SupplierUpdate.t) (clk : nat -> Z)
    (db : Db) :
  run (crud.update_supplier supplier_id u) clk db =
  match find (fun c => Supplier.id c =? supplier_id) (suppliers db) with
  | None => (db, not_found "Supplier" supplier_id, [])
  | Some c =>
      if supplier_name_conflict db supplier_id u
      then (db,
            inl (HTTPException 400
                   ("Supplier with name '"
                    ++ match value (SupplierUpdate.name u) with Some n => n | None => "" end
                    ++ "' already exists")),
            [])
      else
        match setattrs_supplier c u with
        | None => (db, inl IntegrityError, [])
        | Some row =>
            let db' := flush_supplier (clk 0%nat) row db in
            if integrity_ok db'
            then (db',
                  inr (match find (fun r => Supplier.id r =? Supplier.id row)
                               (suppliers db') with
                       | Some r => r
                       | None => row
                       end),
                  [db'])
            else (db, inl IntegrityError, [])
        end
  end.
Proof.
  unfold crud.update_supplier, crud.get_supplier, crud.get_supplier_by_name,
    supplier_name_conflict, save_supplier, refresh_supplier, not_found.
  run_unfold. break_run; reflexivity.
Qed.

(** ** Rows that are not there *)

Lemma find_missing {A} (key : A -> Z) (l : list A) (i : Z) :
  ~ In i (map key l) -> find (fun r => key r =? i) l = None.
Proof.
  intros H. destruct (find _ l) as [r|] eqn:E; [|reflexivity].
  apply find_some in E. destruct E as [Hr He]. apply Z.eqb_eq in He.
  exfalso. apply H. rewrite <- He. now apply in_map.
Qed.

(** X1. An operation on the key of a row that is not in its table answers 404
    with the detail ["<Kind> with id <key> not found"], commits nothing and
    leaves the database as it is: updating, deleting and getting a category
    or a supplier, listing their products, and updating, deleting, adjusting
    and getting a product. *)
Theorem missing_row_not_found (db : Db) (clk : nat -> Z) (i : Z) :
  (~ In i (map Category.id (categories db)) ->
   (forall u, run (crud.update_category i u) clk db = (db, not_found "Category" i, []))
   /\ run (crud.delete_category i) clk db = (db, not_found "Category" i, [])
   /\ run (listing.get_category i) clk db = (db, not_found "Category" i, [])
   /\ (forall ilike skip limit, listing.pagination_ok skip limit = true ->
         run (listing.get_category_products ilike i skip limit) clk db
         = (db, not_found "Category" i, [])))
  /\ (~ In i (map Supplier.id (suppliers db)) ->
      (forall u, run (crud.update_supplier i u) clk db = (db, not_found "Supplier" i, []))
      /\ run (crud.delete_supplier i) clk db = (db, not_found "Supplier" i, [])
      /\ run (listing.get_supplier i) clk db = (db, not_found "Supplier" i, [])
      /\ (forall ilike skip limit, listing.pagination_ok skip limit = true ->
            run (listing.get_supplier_products ilike i skip limit) clk db
            = (db, not_found "Supplier" i, [])))
  /\ (~ In i (map Product.id (products db)) ->
      (forall u, run (crud.update_product i u) clk db = (db, not_found "Product" i, []))
      /\ run (crud.delete_product i) clk db = (db, not_found "Product" i, [])
      /\ (forall a, run (crud.adjust_product_stock i a) clk db
                    = (db, not_found "Product" i, []))
      /\ run (endpoints.products.get_product i) clk db = (db, not_found "Product" i, [])).
Proof.
  split; [|split]; intros H; apply (find_missing _ _ i) in H.
  - split; [|split; [|split]].
    + intros u. now rewrite update_category_run, H.
    + now rewrite delete_category_run, H.
    + unfold listing.get_category, crud.get_category. run_unfold. now rewrite H.
    + intros ilike skip limit Hp.
      unfold listing.get_category_products, crud.get_category. run_unfold.
      rewrite Hp. cbn [stored view clock txn commits fst snd]. now rewrite H.
  - split; [|split; [|split]].
    + intros u. now rewrite update_supplier_run, H.
    + now rewrite delete_supplier_run, H.
    + unfold listing.get_supplier, crud.get_supplier. run_unfold. now rewrite H.
    + intros ilike skip limit Hp.
      unfold listing.get_supplier_products, crud.get_supplier. run_unfold.
      rewrite Hp. cbn [stored view clock txn commits fst snd]. now rewrite H.
  - split; [|split; [|split]].
    + intros u. now rewrite update_product_run, H.
    + now rewrite delete_product_run, H.
    + intros a. now rewrite adjust_product_stock_run, H.
    + unfold endpoints.products.get_product, crud.get_product. run_unfold. now rewrite H.
Qed.

Lemma missing_row_not_found_witness :
  run (crud.delete_product 99) sample_clock catalog_db
  = (catalog_db, inl (HTTPException 404 "Product with id 99 not found"), [])
  /\ run (crud.delete_category 7) sample_clock catalog_db
     = (catalog_db, inl (HTTPException 404 "Category with id 7 not found"), []).
Proof.
  destruct (missing_row_not_found catalog_db sample_clock 99) as [_ [_ Hp]].
  destruct (missing_row_not_found catalog_db sample_clock 7) as [Hc _].
  split.
  - apply Hp. intros [H | []]. discriminate.
  - apply Hc. intros [H | []]. discriminate.
Defined.

(** ** Creating categories and suppliers *)

Lemma find_string_key {A} (key : A -> string) (l : list A) (x : A) :
  NoDup (map key l) -> In x l -> find (fun r => (key r =? key x)%string) l = Some x.
Proof.
  intros Hnd Hin.
  destruct (find _ l) as [r|] eqn:E.
  - apply find_some in E. destruct E as [Hr He]. apply String.eqb_eq in He.
    f_equal. eapply NoDup_map_eq; eauto.
  - eapply find_none in E; [|exact Hin]. rewrite String.eqb_refl in E. discriminate.
Qed.

Lemma find_string_missing {A} (key : A -> string) (l : list A) (n : string) :
  ~ In n (map key l) -> find (fun r => (key r =? n)%string) l = None.
Proof.
  intros H. destruct (find _ l) as [r|] eqn:E; [|reflexivity].
  apply find_some in E. destruct E as [Hr He]. apply String.eqb_eq in He.
  exfalso. apply H. rewrite <- He. now apply in_map.
Qed.

Lemma find_string_used {A} (key : A -> string) (l : list A) (n : string) :
  In n (map key l) -> is_some (find (fun r => (key r =? n)%string) l) = true.
Proof.
  intros H. apply in_map_iff in H. destruct H as [x [Hx Hin]].
  destruct (find _ l) eqn:E; [reflexivity|].
  eapply find_none in E; [|exact Hin]. rewrite Hx, String.eqb_refl in E. discriminate.
Qed.

Lemma fk_ok_snoc (ids : list Z) (i : Z) (ref : option Z) :
  fk_ok ids ref = true -> fk_ok (ids ++ [i]) ref = true.
Proof.
  rewrite !fk_ok_In. intros H j Hj. apply in_or_app. left. now apply H.
Qed.

Lemma category_created_integrity (db : Db) (ts : Z) (c : CategoryCreate.t) :
  Integrity db -> ~ In (CategoryCreate.name c) (map Category.name (categories db)) ->
  Integrity (category_created db ts c).
Proof.
  intros [H1 H2 H3 H4 H5 H6 H7 H8 H9] Hname. unfold category_created.
  constructor; cbn [categories suppliers products stock_movements with_categories];
    try assumption.
  - rewrite map_app. apply NoDup_snoc; [assumption | apply next_id_fresh].
  - rewrite map_app. apply NoDup_snoc; assumption.
  - intros p Hp. destruct (H7 p Hp) as [Hc Hs]. split; [|assumption].
    rewrite map_app. now apply fk_ok_snoc.
Qed.

Lemma supplier_created_integrity (db : Db) (ts : Z) (c : SupplierCreate.t) :
  Integrity db -> ~ In (SupplierCreate.name c) (map Supplier.name (suppliers db)) ->
  Integrity (supplier_created db ts c).
Proof.
  intros [H1 H2 H3 H4 H5 H6 H7 H8 H9] Hname. unfold supplier_created.
  constructor; cbn [categories suppliers products stock_movements with_suppliers];
    try assumption.
  - rewrite map_app. apply NoDup_snoc; [assumption | apply next_id_fresh].
  - rewrite map_app. apply NoDup_snoc; assumption.
  - intros p Hp. destruct (H7 p Hp) as [Hc Hs]. split; [assumption|].
    rewrite map_app. now apply fk_ok_snoc.
Qed.

(** X2. [create_category] with a name that no category has succeeds: it
    stores one new category, under a key that no category had, and touches
    no other table.  The category is then found by its key and by its name,
    and a second creation with the same name is refused with the 400 error. *)
Theorem create_category_round_trip (db : Db) (clk clk' : nat -> Z) (c : CategoryCreate.t) :
  integrity_ok db = true ->
  ~ In (CategoryCreate.name c) (map Category.name (categories db)) ->
  let r := run (crud.create_category c) clk db in
  let row := category_row db (clk 0%nat) c in
  r = (category_created db (clk 0%nat) c, inr row, [category_created db (clk 0%nat) c])
  /\ ~ In (Category.id row) (map Category.id (categories db))
  /\ categories (db_after r) = categories db ++ [row]
  /\ suppliers (db_after r) = suppliers db
  /\ products (db_after r) = products db
  /\ stock_movements (db_after r) = stock_movements db
  /\ run (listing.get_category (Category.id row)) clk' (db_after r) = (db_after r, inr row, [])
  /\ answer (run (crud.get_category_by_name (CategoryCreate.name c)) clk' (db_after r))
     = inr (Some row)
  /\ (forall c', CategoryCreate.name c' = CategoryCreate.name c ->
        run (crud.create_category c') clk' (db_after r)
        = (db_after r,
           inl (HTTPException 400
                  ("Category with name '" ++ CategoryCreate.name c ++ "' already exists")),
           [])).
Proof.
  intros Hok Hname. cbv zeta. apply integrity_ok_iff in Hok.
  pose proof (category_created_integrity db (clk 0%nat) c Hok Hname) as Hok'.
  set (row := category_row db (clk 0%nat) c).
  set (db' := category_created db (clk 0%nat) c) in *.
  assert (Hin : In row (categories db')).
  { unfold db', category_created. cbn [categories with_categories].
    apply in_or_app. right. now left. }
  pose proof (find_key Category.id _ row (category_keys _ Hok') Hin) as Hfind.
  pose proof (find_string_key Category.name _ row (category_names _ Hok') Hin) as Hfindn.
  assert (Hrun : run (crud.create_category c) clk db = (db', inr row, [db'])).
  { rewrite create_category_run, (find_string_missing Category.name _ _ Hname).
    cbn [is_some]. cbv zeta. fold db' row.
    rewrite (proj2 (integrity_ok_iff _) Hok'), Hfind. reflexivity. }
  rewrite Hrun. cbn [db_after fst snd].
  split; [reflexivity|]. split; [apply next_id_fresh|].
  split; [reflexivity|]. split; [reflexivity|]. split; [reflexivity|]. split; [reflexivity|].
  split; [|split].
  - unfold listing.get_category, crud.get_category. run_unfold. now rewrite Hfind.
  - unfold crud.get_category_by_name, answer, run, query. cbn [fst snd view].
    f_equal. exact Hfindn.
  - intros c' Hc'. rewrite create_category_run, Hc'.
    change (CategoryCreate.name c) with (Category.name row) at 1.
    rewrite Hfindn. reflexivity.
Qed.

Lemma create_category_round_trip_witness :
  exists row,
    answer (run (crud.create_category (CategoryCreate.mk "Furniture" None))
              sample_clock catalog_db) = inr row
    /\ Category.id row = 2.
Proof.
  destruct (create_category_round_trip catalog_db sample_clock sample_clock
              (CategoryCreate.mk "Furniture" None)) as [H _].
  - reflexivity.
  - intros [H | []]. discriminate.
  - eexists. split; [rewrite H; reflexivity | reflexivity].
Defined.

(** X3. [create_supplier] with a name that no supplier has succeeds: it
    stores one new supplier, with the fields of the request, under a key that
    no supplier had, and touches no other table.  The supplier is then found
    by its key and by its name, and a second creation with the same name is
    refused with the 400 error. *)
Theorem create_supplier_round_trip (db : Db) (clk clk' : nat -> Z) (c : SupplierCreate.t) :
  integrity_ok db = true ->
  ~ In (SupplierCreate.name c) (map Supplier.name (suppliers db)) ->
  let r := run (crud.create_supplier c) clk db in
  let row := supplier_row db (clk 0%nat) c in
  r = (supplier_created db (clk 0%nat) c, inr row, [supplier_created db (clk 0%nat) c])
  /\ ~ In (Supplier.id row) (map Supplier.id (suppliers db))
  /\ suppliers (db_after r) = suppliers db ++ [row]
  /\ categories (db_after r) = categories db
  /\ products (db_after r) = products db
  /\ stock_movements (db_after r) = stock_movements db
  /\ run (listing.get_supplier (Supplier.id row)) clk' (db_after r) = (db_after r, inr row, [])
  /\ answer (run (crud.get_supplier_by_name (SupplierCreate.name c)) clk' (db_after r))
     = inr (Some row)
  /\ (forall c', SupplierCreate.name c' = SupplierCreate.name c ->
        run (crud.create_supplier c') clk' (db_after r)
        = (db_after r,
           inl (HTTPException 400
                  ("Supplier with name '" ++ SupplierCreate.name c ++ "' already exists")),
           [])).
Proof.
  intros Hok Hname. cbv zeta. apply integrity_ok_iff in Hok.
  pose proof (supplier_created_integrity db (clk 0%nat) c Hok Hname) as Hok'.
  set (row := supplier_row db (clk 0%nat) c).
  set (db' := supplier_created db (clk 0%nat) c) in *.
  assert (Hin : In row (suppliers db')).
  { unfold db', supplier_created. cbn [suppliers with_suppliers].
    apply in_or_app. right. now left. }
  pose proof (find_key Supplier.id _ row (supplier_keys _ Hok') Hin) as Hfind.
  pose proof (find_string_key Supplier.name _ row (supplier_names _ Hok') Hin) as Hfindn.
  assert (Hrun : run (crud.create_supplier c) clk db = (db', inr row, [db'])).
  { rewrite create_supplier_run, (find_string_missing Supplier.name _ _ Hname).
    cbn [is_some]. cbv zeta. fold db' row.
    rewrite (proj2 (integrity_ok_iff _) Hok'), Hfind. reflexivity. }
  rewrite Hrun. cbn [db_after fst snd].
  split; [reflexivity|]. split; [apply next_id_fresh|].
  split; [reflexivity|]. split; [reflexivity|]. split; [reflexivity|]. split; [reflexivity|].
  split; [|split].
  - unfold listing.get_supplier, crud.get_supplier. run_unfold. now rewrite Hfind.
  - unfold crud.get_supplier_by_name, answer, run, query. cbn [fst snd view].
    f_equal. exact Hfindn.
  - intros c' Hc'. rewrite create_supplier_run, Hc'.
    change (SupplierCreate.name c) with (Supplier.name row) at 1.
    rewrite Hfindn. reflexivity.
Qed.

Lemma create_supplier_round_trip_witness :
  exists row,
    answer (run (crud.create_supplier
                   (SupplierCreate.mk "Office Supplies Co" (Some "Jane Smith") None None None))
              sample_clock catalog_db) = inr row
    /\ Supplier.email row = None
    /\ answer (run (crud.get_supplier_by_name "Office Supplies Co") sample_clock
                 (db_after (run (crud.create_supplier
                                   (SupplierCreate.mk "Office Supplies Co" (Some "Jane Smith")
                                      None None None))
                              sample_clock catalog_db)))
       = inr (Some row).
Proof.
  destruct (create_supplier_round_trip catalog_db sample_clock sample_clock
              (SupplierCreate.mk "Office Supplies Co" (Some "Jane Smith") None None None))
    as [H [_ [_ [_ [_ [_ [_ [Hn _]]]]]]]].
  - reflexivity.
  - intros [H | []]. discriminate.
  - eexists. split; [rewrite H; reflexivity|]. split; [reflexivity | exact Hn].
Defined.

(** X4. [create_category] and [create_supplier] with a name that a row of the
    table already has answer 400 with the detail that names it, commit
    nothing and leave the database as it is. *)
Theorem create_duplicate_name_refused (db : Db) (clk : nat -> Z) :
  (forall c, In (CategoryCreate.name c) (map Category.name (categories db)) ->
     run (crud.create_category c) clk db
     = (db,
        inl (HTTPException 400
               ("Category with name '" ++ CategoryCreate.name c ++ "' already exists")),
        []))
  /\ (forall c, In (SupplierCreate.name c) (map Supplier.name (suppliers db)) ->
        run (crud.create_supplier c) clk db
        = (db,
           inl (HTTPException 400
                  ("Supplier with name '" ++ SupplierCreate.name c ++ "' already exists")),
           [])).
Proof.
  split; intros c H.
  - now rewrite create_category_run, (find_string_used Category.name _ _ H).
  - now rewrite create_supplier_run, (find_string_used Supplier.name _ _ H).
Qed.

Lemma create_duplicate_name_refused_witness :
  run (crud.create_category (CategoryCreate.mk "Electronics" (Some "Duplicate category")))
    sample_clock catalog_db
  = (catalog_db,
     inl (HTTPException 400 "Category with name 'Electronics' already exists"), []).
Proof.
  destruct (create_duplicate_name_refused catalog_db sample_clock) as [H _].
  apply (H (CategoryCreate.mk "Electronics" (Some "Duplicate category"))).
  left. reflexivity.
Defined.

(** ** Updating a category or a supplier *)

Lemma truthy_str_Some (n : string) : n <> "" -> truthy_str (Some n) = true.
Proof.
  intros H. cbn [truthy_str]. apply negb_true_iff.
  destruct (n =? "")%string eqn:E; [|reflexivity].
  apply String.eqb_eq in E. contradiction.
Qed.

Lemma find_present {A} (key : A -> Z) (l : list A) (i : Z) :
  In i (map key l) -> exists x, find (fun r => key r =? i) l = Some x.
Proof.
  intros H. apply in_map_iff in H. destruct H as [x [Hx Hin]].
  destruct (find _ l) as [y|] eqn:E; [now exists y|].
  eapply find_none in E; [|exact Hin]. rewrite Hx, Z.eqb_refl in E. discriminate.
Qed.

(** X5. [update_category] and [update_supplier] refuse a name that another
    row of the table has: for an existing row and a non-empty name given that
    belongs to a row with another key, the answer is 400 with the detail that
    names it, nothing is committed and the database is left as it is. *)
Theorem update_name_conflict_refused (db : Db) (clk : nat -> Z) (i : Z) (n : string) :
  integrity_ok db = true ->
  n <> "" ->
  (forall u other,
     In i (map Category.id (categories db)) ->
     value (CategoryUpdate.name u) = Some n ->
     In other (categories db) -> Category.name other = n -> Category.id other <> i ->
     run (crud.update_category i u) clk db
     = (db, inl (HTTPException 400 ("Category with name '" ++ n ++ "' already exists")), []))
  /\ (forall u other,
        In i (map Supplier.id (suppliers db)) ->
        value (SupplierUpdate.name u) = Some n ->
        In other (suppliers db) -> Supplier.name other = n -> Supplier.id other <> i ->
        run (crud.update_supplier i u) clk db
        = (db, inl (HTTPException 400 ("Supplier with name '" ++ n ++ "' already exists")),
           [])).
Proof.
  intros Hok Hn. apply integrity_ok_iff in Hok. split.
  - intros u other Hi Hu Hother Hname Hid.
    destruct (find_present Category.id _ i Hi) as [c Hc].
    rewrite update_category_run, Hc. unfold category_name_conflict.
    rewrite Hu, (truthy_str_Some n Hn), <- Hname,
      (find_string_key Category.name _ other (category_names db Hok) Hother).
    apply Z.eqb_neq in Hid. rewrite Hid. reflexivity.
  - intros u other Hi Hu Hother Hname Hid.
    destruct (find_present Supplier.id _ i Hi) as [c Hc].
    rewrite update_supplier_run, Hc. unfold supplier_name_conflict.
    rewrite Hu, (truthy_str_Some n Hn), <- Hname,
      (find_string_key Supplier.name _ other (supplier_names db Hok) Hother).
    apply Z.eqb_neq in Hid. rewrite Hid. reflexivity.
Qed.

Lemma update_name_conflict_refused_witness :
  run (crud.update_category 2 (CategoryUpdate.mk (given (Some "Electronics")) unset))
    sample_clock two_category_db
  = (two_category_db,
     inl (HTTPException 400 "Category with name 'Electronics' already exists"), []).
Proof.
  destruct (update_name_conflict_refused two_category_db sample_clock 2 "Electronics")
    as [H _].
  - reflexivity.
  - discriminate.
  - apply (H (CategoryUpdate.mk (given (Some "Electronics")) unset) sample_category).
    + right. left. reflexivity.
    + reflexivity.
    + left. reflexivity.
    + reflexivity.
    + discriminate.
Defined.

Lemma Category_eqb_eq (a b : Category.t) : Category.eqb a b = true -> a = b.
Proof.
  unfold Category.eqb. rewrite !andb_true_iff.
  intros [[[[E1 E2] E3] E4] E5].
  apply Z.eqb_eq in E1, E4. apply String.eqb_eq in E2.
  apply option_eqb_string_eq in E3. apply option_eqb_Z_eq in E5.
  destruct a, b; simpl in *; congruence.
Qed.

Lemma find_middle {A} (f : A -> bool) (l1 l2 : list A) (x : A) :
  (forall y, In y l1 -> f y = false) -> f x = true -> find f (l1 ++ x :: l2) = Some x.
Proof.
  intros Hl Hx. induction l1 as [|a l1 IH]; simpl.
  - now rewrite Hx.
  - rewrite (Hl a) by now left. apply IH. intros y Hy. apply Hl. now right.
Qed.

(** The table after the row of the key of [C] has been written back. *)
Lemma flush_category_split (ts : Z) (row C : Category.t) (db : Db) :
  NoDup (map Category.id (categories db)) -> In C (categories db) ->
  Category.id row = Category.id C ->
  exists l1 l2,
    categories db = l1 ++ C :: l2
    /\ categories (flush_category ts row db)
       = l1 ++ (if Category.eqb C row then C else Category.set_updated_at row (Some ts)) :: l2
    /\ (forall x, In x (l1 ++ l2) -> Category.id x <> Category.id C).
Proof.
  intros Hnd HC Hid. apply in_split in HC. destruct HC as [l1 [l2 Hl]].
  exists l1, l2. split; [assumption|].
  unfold flush_category. cbn [categories with_categories]. rewrite Hl in Hnd |- *.
  rewrite map_app in Hnd. cbn [map] in Hnd. apply NoDup_remove_2 in Hnd.
  assert (Hne : forall x, In x (l1 ++ l2) -> Category.id x <> Category.id C).
  { intros x Hx E. apply Hnd. rewrite <- map_app, <- E. now apply in_map. }
  split; [|exact Hne].
  rewrite map_app. cbn [map]. rewrite Hid, Z.eqb_refl.
  assert (Hkeep : forall l, (forall x, In x l -> Category.id x <> Category.id C) ->
            map (fun r => if Category.id r =? Category.id C
                          then (if Category.eqb r row then r
                                else Category.set_updated_at row (Some ts))
                          else r) l = l).
  { intros l Hl'. rewrite <- (map_id l) at 2. apply map_ext_in. intros x Hx.
    destruct (Category.id x =? Category.id C) eqn:E; [|reflexivity].
    apply Z.eqb_eq in E. now apply Hl' in Hx. }
  rewrite !Hkeep; [reflexivity | |].
  - intros x Hx. apply Hne, in_or_app. now right.
  - intros x Hx. apply Hne, in_or_app. now left.
Qed.

Lemma flush_category_integrity (ts : Z) (row C : Category.t) (db : Db) :
  Integrity db -> In C (categories db) ->
  Category.id row = Category.id C ->
  (forall c, In c (categories db) -> Category.name c = Category.name row ->
             Category.id c = Category.id C) ->
  Integrity (flush_category ts row db).
Proof.
  intros Hok HC Hid Hname.
  destruct (flush_category_split ts row C db (category_keys db Hok) HC Hid)
    as [l1 [l2 [Hl [Hl' Hne]]]].
  assert (Hrow : forall f : Category.t -> string,
            (forall t, f (Category.set_updated_at row t) = f row) ->
            f (if Category.eqb C row then C else Category.set_updated_at row (Some ts))
            = f row).
  { intros f Hf. destruct (Category.eqb C row) eqn:E; [|apply Hf].
    apply Category_eqb_eq in E. now subst. }
  assert (Hids : map Category.id (categories (flush_category ts row db))
                 = map Category.id (categories db)).
  { rewrite Hl', Hl, !map_app. cbn [map]. f_equal. f_equal.
    destruct (Category.eqb C row); [reflexivity | exact Hid]. }
  destruct Hok as [H1 H2 H3 H4 H5 H6 H7 H8 H9].
  constructor; try assumption.
  - rewrite Hids. assumption.
  - rewrite Hl'. rewrite Hl in H2, Hname.
    rewrite map_app in H2 |- *. cbn [map] in H2 |- *.
    rewrite (Hrow Category.name) by reflexivity.
    apply NoDup_insert; [now apply NoDup_remove_1 in H2|].
    intros Hin. rewrite <- map_app in Hin. apply in_map_iff in Hin.
    destruct Hin as [c [Hc Hin]]. apply (Hne c Hin). apply Hname; [|assumption].
    apply in_app_iff in Hin. apply in_or_app. destruct Hin; [now left | right; now right].
  - intros p Hp. rewrite Hids. now apply H7.
Qed.

Lemma category_name_conflict_passes (db : Db) (category_id : Z) (u : CategoryUpdate.t) :
  category_update_passes db category_id u = true ->
  category_name_conflict db category_id u = false.
Proof.
  unfold category_update_passes, category_name_conflict. rewrite andb_true_iff.
  intros [_ Hname].
  destruct (value (CategoryUpdate.name u)) as [s|]; [|reflexivity].
  destruct (truthy_str (Some s)); [|reflexivity].
  destruct (find _ (categories db)) as [e|] eqn:E; [|reflexivity].
  apply find_some in E. destruct E as [He Hs].
  rewrite forallb_forall in Hname. specialize (Hname e He).
  rewrite Hs in Hname. cbn [negb orb] in Hname. now rewrite Hname.
Qed.

(** X6. [update_category] on an existing category [C], with a request whose
    name is not null and is the name of no other category (the name of [C]
    itself is accepted), succeeds: the category stored under the key of [C]
    has the name and the description given, and those of [C] where none is
    given; its key and [created_at] are those of [C]; no key of the table
    changes and the other tables are untouched. *)
Theorem update_category_applies (db : Db) (clk : nat -> Z) (C : Category.t)
    (u : CategoryUpdate.t) :
  integrity_ok db = true ->
  In C (categories db) ->
  category_update_passes db (Category.id C) u = true ->
  let r := run (crud.update_category (Category.id C) u) clk db in
  exists C',
    answer r = inr C'
    /\ find (fun x => Category.id x =? Category.id C) (categories (db_after r)) = Some C'
    /\ Category.id C' = Category.id C
    /\ Category.created_at C' = Category.created_at C
    /\ Category.name C' = assigned (CategoryUpdate.name u) (Category.name C)
    /\ Category.description C'
       = assign (CategoryUpdate.description u) (Category.description C)
    /\ (Category.updated_at C' = Category.updated_at C
        \/ Category.updated_at C' = Some (clk 0%nat))
    /\ map Category.id (categories (db_after r)) = map Category.id (categories db)
    /\ suppliers (db_after r) = suppliers db
    /\ products (db_after r) = products db
    /\ stock_movements (db_after r) = stock_movements db.
Proof.
  intros Hok HC Hpass. cbv zeta. apply integrity_ok_iff in Hok.
  set (row := updated_category C u).
  assert (Hset : setattrs_category C u = Some row).
  { unfold category_update_passes in Hpass. apply andb_true_iff in Hpass.
    destruct Hpass as [Hnn _]. unfold setattrs_category.
    now rewrite (assign_required_not_null _ _ Hnn). }
  assert (Hok' : Integrity (flush_category (clk 0%nat) row db)).
  { apply (flush_category_integrity _ row C db Hok HC); [reflexivity|].
    intros c Hc Hs. unfold row, updated_category in Hs. cbn [Category.name] in Hs.
    unfold category_update_passes in Hpass. apply andb_true_iff in Hpass.
    destruct Hpass as [_ Hname].
    destruct (CategoryUpdate.name u) as [|[s|]]; cbn [assigned value] in Hs, Hname.
    - f_equal. eapply NoDup_map_eq; eauto using category_names.
    - rewrite forallb_forall in Hname. specialize (Hname c Hc).
      rewrite Hs, String.eqb_refl in Hname. cbn [negb orb] in Hname.
      now apply Z.eqb_eq in Hname.
    - f_equal. eapply NoDup_map_eq; eauto using category_names. }
  destruct (flush_category_split (clk 0%nat) row C db (category_keys db Hok) HC eq_refl)
    as [l1 [l2 [Hl [Hl' Hne]]]].
  set (C' := if Category.eqb C row then C else Category.set_updated_at row (Some (clk 0%nat)))
    in *.
  assert (Hfind : find (fun x => Category.id x =? Category.id C)
                    (categories (flush_category (clk 0%nat) row db)) = Some C').
  { rewrite Hl'. apply find_middle.
    - intros y Hy. apply Z.eqb_neq, Hne, in_or_app. now left.
    - apply Z.eqb_eq. unfold C'. destruct (Category.eqb C row); reflexivity. }
  rewrite update_category_run, (find_key Category.id _ C (category_keys db Hok) HC),
    (category_name_conflict_passes db _ u Hpass), Hset.
  cbv zeta. rewrite (proj2 (integrity_ok_iff _) Hok').
  cbn [answer db_after fst snd].
  change (Category.id row) with (Category.id C). rewrite Hfind.
  exists C'. split; [reflexivity|]. split; [reflexivity|].
  assert (HC' : C' = row \/ C' = Category.set_updated_at row (Some (clk 0%nat))).
  { unfold C'. destruct (Category.eqb C row) eqn:E; [|now right].
    left. now apply Category_eqb_eq. }
  split; [destruct HC' as [-> | ->]; reflexivity|].
  split; [destruct HC' as [-> | ->]; reflexivity|].
  split; [destruct HC' as [-> | ->]; reflexivity|].
  split; [destruct HC' as [-> | ->]; reflexivity|].
  split; [destruct HC' as [-> | ->]; [left | right]; reflexivity|].
  split; [|split; [reflexivity | split; reflexivity]].
  rewrite Hl', Hl, !map_app. cbn [map]. f_equal. f_equal.
  destruct HC' as [-> | ->]; reflexivity.
Qed.

Lemma update_category_applies_witness :
  exists C',
    answer (run (crud.update_category 1
                   (CategoryUpdate.mk (given (Some "Electronics")) (given None)))
              sample_clock two_category_db) = inr C'
    /\ Category.name C' = "Electronics"
    /\ Category.description C' = None.
Proof.
  destruct (update_category_applies two_category_db sample_clock sample_category
              (CategoryUpdate.mk (given (Some "Electronics")) (given None)))
    as [C' [H1 [_ [_ [_ [H5 [H6 _]]]]]]].
  - reflexivity.
  - left. reflexivity.
  - reflexivity.
  - exists C'. split; [exact H1|]. split; [exact H5 | exact H6].
Defined.

(** ** Creating a product: refusals and reading back *)

Lemma verify_category_missing (c : Z) (clk : nat -> Z) (db : Db) :
  c <> 0 -> ~ In c (map Category.id (categories db)) ->
  answer (run (crud.verify_category (Some c)) clk db) = not_found "Category" c.
Proof.
  intros Hc Hin. unfold crud.verify_category, crud.get_category. run_unfold. unfold answer.
  cbn [truthy_int]. apply Z.eqb_neq in Hc. rewrite Hc.
  cbn [negb stored view clock txn commits fst snd].
  now rewrite (find_missing Category.id _ c Hin).
Qed.

Lemma verify_supplier_missing (c : Z) (clk : nat -> Z) (db : Db) :
  c <> 0 -> ~ In c (map Supplier.id (suppliers db)) ->
  answer (run (crud.verify_supplier (Some c)) clk db) = not_found "Supplier" c.
Proof.
  intros Hc Hin. unfold crud.verify_supplier, crud.get_supplier. run_unfold. unfold answer.
  cbn [truthy_int]. apply Z.eqb_neq in Hc. rewrite Hc.
  cbn [negb stored view clock txn commits fst snd].
  now rewrite (find_missing Supplier.id _ c Hin).
Qed.

Lemma verify_category_skipped (ref : option Z) (clk : nat -> Z) (db : Db) :
  truthy_int ref = false \/ fk_ok (map Category.id (categories db)) ref = true ->
  answer (run (crud.verify_category ref) clk db) = inr tt.
Proof.
  intros [H | H]; [|now apply verify_category_passes].
  unfold crud.verify_category. now rewrite H.
Qed.

(** X7. [create_product] makes its checks in this order, and a request that
    fails one leaves the database as it is, with nothing committed: a SKU that
    a product already has is refused with 400, whatever the category and the
    supplier; then a non-zero [category_id] that is the key of no category is
    refused with 404, whatever the supplier; then a non-zero [supplier_id]
    that is the key of no supplier is refused with 404. *)
Theorem create_product_refused (db : Db) (clk : nat -> Z) (product : ProductCreate.t) :
  (In (ProductCreate.sku product) (map Product.sku (products db)) ->
   run (crud.create_product product) clk db
   = (db,
      inl (HTTPException 400
             ("Product with SKU '" ++ ProductCreate.sku product ++ "' already exists")),
      []))
  /\ (~ In (ProductCreate.sku product) (map Product.sku (products db)) ->
      forall c, ProductCreate.category_id product = Some c -> c <> 0 ->
        ~ In c (map Category.id (categories db)) ->
        run (crud.create_product product) clk db = (db, not_found "Category" c, []))
  /\ (~ In (ProductCreate.sku product) (map Product.sku (products db)) ->
      truthy_int (ProductCreate.category_id product) = false
      \/ fk_ok (map Category.id (categories db)) (ProductCreate.category_id product) = true ->
      forall s, ProductCreate.supplier_id product = Some s -> s <> 0 ->
        ~ In s (map Supplier.id (suppliers db)) ->
        run (crud.create_product product) clk db = (db, not_found "Supplier" s, [])).
Proof.
  split; [|split].
  - intros H. now rewrite create_product_run, (find_string_used Product.sku _ _ H).
  - intros Hsku c Hc Hc0 Hmiss.
    rewrite create_product_run, (find_string_missing Product.sku _ _ Hsku), Hc,
      (verify_category_missing c clk db Hc0 Hmiss).
    reflexivity.
  - intros Hsku Hcat s Hs Hs0 Hmiss.
    rewrite create_product_run, (find_string_missing Product.sku _ _ Hsku),
      (verify_category_skipped _ clk db Hcat), Hs,
      (verify_supplier_missing s clk db Hs0 Hmiss).
    reflexivity.
Qed.

Lemma create_product_refused_witness :
  run (crud.create_product
         (ProductCreate.mk "Another Product" None "LAP-001" 10000 10 10 (Some 99999) None))
    sample_clock catalog_db
  = (catalog_db, inl (HTTPException 400 "Product with SKU 'LAP-001' already exists"), [])
  /\ run (crud.create_product
            (ProductCreate.mk "Test Product" None "TEST-001" 5000 0 10 (Some 99999) (Some 7)))
       sample_clock catalog_db
     = (catalog_db, inl (HTTPException 404 "Category with id 99999 not found"), []).
Proof.
  split.
  - destruct (create_product_refused catalog_db sample_clock
                (ProductCreate.mk "Another Product" None "LAP-001" 10000 10 10
                   (Some 99999) None)) as [H _].
    apply H. left. reflexivity.
  - destruct (create_product_refused catalog_db sample_clock
                (ProductCreate.mk "Test Product" None "TEST-001" 5000 0 10
                   (Some 99999) (Some 7))) as [_ [H _]].
    apply (H ltac:(intros [E | []]; discriminate) 99999);
      [reflexivity | discriminate | intros [E | []]; discriminate].
Defined.

(** What a creation that passes the checks commits. *)
Lemma create_product_commits (db : Db) (clk : nat -> Z) (product : ProductCreate.t) :
  integrity_ok db = true ->
  ~ In (ProductCreate.sku product) (map Product.sku (products db)) ->
  fk_ok (map Category.id (categories db)) (ProductCreate.category_id product) = true ->
  fk_ok (map Supplier.id (suppliers db)) (ProductCreate.supplier_id product) = true ->
  let P := created_row db (clk 0%nat) product in
  let db1 := created db (clk 0%nat) product in
  let db2 := created_with_stock db1 (clk 1%nat) (Product.id P)
               (ProductCreate.stock_quantity product) in
  Integrity db1 /\ Integrity db2
  /\ run (crud.create_product product) clk db
     = if ProductCreate.stock_quantity product >? 0
       then (db2, inr P, [db1; db2])
       else (db1, inr P, [db1]).
Proof.
  intros Hok Hsku Hcat Hsup. cbv zeta. apply integrity_ok_iff in Hok.
  pose proof (created_integrity db (clk 0%nat) product Hok Hsku Hcat Hsup) as Hok1.
  assert (HP1 : In (created_row db (clk 0%nat) product)
                  (products (created db (clk 0%nat) product))).
  { unfold created. cbn [products with_products]. apply in_or_app. right. now left. }
  pose proof (created_with_stock_integrity _ (clk 1%nat) _
                (ProductCreate.stock_quantity product) Hok1
                (in_map Product.id _ _ HP1)) as Hok2.
  split; [assumption|]. split; [assumption|].
  rewrite create_product_run, (sku_unused db _ Hsku).
  cbn [is_some]. rewrite (verify_category_passes _ clk db Hcat),
    (verify_supplier_passes _ clk db Hsup).
  cbv zeta. rewrite created_find, (proj2 (integrity_ok_iff _) Hok1),
    (proj2 (integrity_ok_iff _) Hok2).
  reflexivity.
Qed.

(** X8. After [create_product] has succeeded, the new product is read back:
    the product endpoint answers with it under its key, it is the product of
    its SKU, the low-stock list holds it exactly when its quantity is at most
    its reorder level, its history is its initial movement (or empty for a
    quantity of zero), and a second creation with the same SKU is refused. *)
Theorem create_product_read_back (db : Db) (clk clk' : nat -> Z) (product : ProductCreate.t) :
  integrity_ok db = true ->
  ProductCreate.valid product = true ->
  ~ In (ProductCreate.sku product) (map Product.sku (products db)) ->
  fk_ok (map Category.id (categories db)) (ProductCreate.category_id product) = true ->
  fk_ok (map Supplier.id (suppliers db)) (ProductCreate.supplier_id product) = true ->
  let r := run (endpoints.products.create_product product) clk db in
  let P := created_row db (clk 0%nat) product in
  answer r = inr P
  /\ run (endpoints.products.get_product (Product.id P)) clk' (db_after r)
     = (db_after r, inr P, [])
  /\ answer (run (crud.get_product_by_sku (ProductCreate.sku product)) clk' (db_after r))
     = inr (Some P)
  /\ (forall low, answer (run endpoints.products.get_low_stock_products clk' (db_after r))
                  = inr low ->
        (In P low
         <-> ProductCreate.stock_quantity product <= ProductCreate.reorder_level product))
  /\ answer (run (endpoints.products.get_stock_history (Product.id P) 0 100) clk' (db_after r))
     = inr (if ProductCreate.stock_quantity product >? 0
            then [initial_movement (created db (clk 0%nat) product) (clk 1%nat)
                    (Product.id P) (ProductCreate.stock_quantity product)]
            else [])
  /\ run (crud.create_product product) clk' (db_after r)
     = (db_after r,
        inl (HTTPException 400
               ("Product with SKU '" ++ ProductCreate.sku product ++ "' already exists")),
        []).
Proof.
  intros Hok Hvalid Hsku Hcat Hsup. cbv zeta.
  destruct (create_product_commits db clk product Hok Hsku Hcat Hsup) as [Hok1 [Hok2 Hrun]].
  set (P := created_row db (clk 0%nat) product) in *.
  set (db1 := created db (clk 0%nat) product) in *.
  set (db2 := created_with_stock db1 (clk 1%nat) (Product.id P)
                (ProductCreate.stock_quantity product)) in *.
  apply integrity_ok_iff in Hok.
  pose proof (created_row_fresh db (clk 0%nat) product) as Hfresh. fold P in Hfresh.
  pose proof (movements_of_missing db (Product.id P) Hok Hfresh) as Hnone.
  unfold endpoints.products.create_product, endpoints.validated. rewrite Hvalid, Hrun.
  set (db' := if ProductCreate.stock_quantity product >? 0 then db2 else db1).
  assert (Hdb : db_after (if ProductCreate.stock_quantity product >? 0
                          then (db2, @inr Error _ P, [db1; db2])
                          else (db1, inr P, [db1])) = db')
    by (unfold db'; destruct (_ >? 0); reflexivity).
  assert (Hans : answer (if ProductCreate.stock_quantity product >? 0
                         then (db2, @inr Error _ P, [db1; db2])
                         else (db1, inr P, [db1])) = inr P)
    by (destruct (_ >? 0); reflexivity).
  rewrite Hdb, Hans.
  assert (Hprods : products db' = products db ++ [P])
    by (unfold db'; destruct (_ >? 0); reflexivity).
  assert (Hok' : Integrity db') by (unfold db'; destruct (_ >? 0); assumption).
  assert (HP : In P (products db')) by (rewrite Hprods; apply in_or_app; right; now left).
  pose proof (find_product db' P (product_keys db' Hok') HP) as Hfind.
  pose proof (find_string_key Product.sku _ P (product_skus db' Hok') HP) as Hfinds.
  split; [reflexivity|]. split; [|split; [|split; [|split]]].
  - unfold endpoints.products.get_product, crud.get_product. run_unfold. now rewrite Hfind.
  - unfold crud.get_product_by_sku, answer, run, query. cbn [fst snd view].
    f_equal. exact Hfinds.
  - intros low Hlow. injection Hlow as <-. cbn [view].
    rewrite filter_In, Z.leb_le. split; [intros [_ H]; exact H | intros H; now split].
  - rewrite get_stock_history_run. cbn [andb Z.leb Z.compare Pos.compare Pos.compare_cont].
    cbn [answer fst snd]. f_equal.
    change (skipn (Z.to_nat 0) (history_of db' (Product.id P)))
      with (history_of db' (Product.id P)).
    assert (Hh : history_of db' (Product.id P)
                 = if ProductCreate.stock_quantity product >? 0
                   then [initial_movement db1 (clk 1%nat) (Product.id P)
                           (ProductCreate.stock_quantity product)]
                   else []).
    { unfold history_of. fold (movements_of db' (Product.id P)). unfold db'.
      destruct (ProductCreate.stock_quantity product >? 0).
      - unfold movements_of, db2, created_with_stock.
        cbn [stock_movements with_stock_movements]. rewrite filter_app.
        fold (movements_of db1 (Product.id P)).
        change (movements_of db1 (Product.id P)) with (movements_of db (Product.id P)).
        rewrite Hnone. cbn [filter app initial_movement StockMovement.product_id].
        rewrite Z.eqb_refl. reflexivity.
      - change (movements_of db1 (Product.id P)) with (movements_of db (Product.id P)).
        now rewrite Hnone. }
    rewrite Hh. destruct (_ >? 0); reflexivity.
  - rewrite create_product_run.
    change (ProductCreate.sku product) with (Product.sku P) at 1.
    rewrite Hfinds. reflexivity.
Qed.

Lemma create_product_read_back_witness :
  exists P low,
    answer (run (endpoints.products.create_product
                   (ProductCreate.mk "Low Stock Item" None "LOW-001" 5000 3 5 None None))
              sample_clock empty_db) = inr P
    /\ answer (run endpoints.products.get_low_stock_products sample_clock
                 (db_after (run (endpoints.products.create_product
                                   (ProductCreate.mk "Low Stock Item" None "LOW-001" 5000 3 5
                                      None None))
                              sample_clock empty_db))) = inr low
    /\ In P low.
Proof.
  destruct (create_product_read_back empty_db sample_clock sample_clock
              (ProductCreate.mk "Low Stock Item" None "LOW-001" 5000 3 5 None None))
    as [H1 [_ [_ [H4 _]]]].
  - reflexivity.
  - reflexivity.
  - intros [].
  - reflexivity.
  - reflexivity.
  - do 2 eexists. split; [exact H1|]. split; [reflexivity|].
    apply (H4 _ eq_refl). vm_compute. discriminate.
Defined.

(** ** Deleting a product *)

(** X9. [delete_product] on an existing product [P] succeeds in one commit:
    it removes [P] and the stock movements of [P], and nothing else (every
    other product, every movement of another product, the categories and the
    suppliers stay).  Afterwards the product endpoint and a second deletion
    answer 404 for the key of [P]. *)
Theorem delete_product_removes (db : Db) (clk clk' : nat -> Z) (P : Product.t) :
  integrity_ok db = true ->
  In P (products db) ->
  let r := run (crud.delete_product (Product.id P)) clk db in
  answer r = inr tt
  /\ committed r = [db_after r]
  /\ (forall x, In x (products (db_after r))
                <-> In x (products db) /\ Product.id x <> Product.id P)
  /\ (forall m, In m (stock_movements (db_after r))
                <-> In m (stock_movements db)
                    /\ StockMovement.product_id m <> Product.id P)
  /\ categories (db_after r) = categories db
  /\ suppliers (db_after r) = suppliers db
  /\ run (endpoints.products.get_product (Product.id P)) clk' (db_after r)
     = (db_after r, not_found "Product" (Product.id P), [])
  /\ run (crud.delete_product (Product.id P)) clk' (db_after r)
     = (db_after r, not_found "Product" (Product.id P), []).
Proof.
  intros Hok HP. cbv zeta. apply integrity_ok_iff in Hok.
  set (doomed := fun r : Product.t => Product.id r =? Product.id P).
  pose proof (delete_products_integrity doomed db Hok) as Hok'.
  rewrite delete_product_run, (find_product db P (product_keys db Hok) HP).
  cbv zeta. fold doomed. rewrite (proj2 (integrity_ok_iff _) Hok').
  cbn [answer db_after committed fst snd].
  assert (Hprod : forall x, In x (products (delete_products doomed db))
                            <-> In x (products db) /\ Product.id x <> Product.id P).
  { intros x. unfold delete_products. cbn [products]. rewrite filter_In.
    unfold doomed. rewrite negb_true_iff, Z.eqb_neq. reflexivity. }
  assert (Hgone : ~ In (Product.id P) (map Product.id (products (delete_products doomed db)))).
  { intros Hin. apply in_map_iff in Hin. destruct Hin as [x [Hid Hx]].
    apply Hprod in Hx. now destruct Hx. }
  split; [reflexivity|]. split; [reflexivity|]. split; [exact Hprod|].
  split; [|split; [reflexivity|split; [reflexivity|split]]].
  - intros m. unfold delete_products. cbn [stock_movements]. rewrite filter_In.
    rewrite negb_true_iff, mem_false, in_map_iff.
    split; intros [Hm Hne]; (split; [assumption|]).
    + intros E. apply Hne. exists P. split; [now symmetry|].
      apply filter_In. split; [assumption | apply Z.eqb_refl].
    + intros [x [Hid Hx]]. apply filter_In in Hx. destruct Hx as [_ Hx].
      apply Z.eqb_eq in Hx. congruence.
  - unfold endpoints.products.get_product, crud.get_product. run_unfold.
    now rewrite (find_missing Product.id _ _ Hgone).
  - now rewrite delete_product_run, (find_missing Product.id _ _ Hgone).
Qed.

Lemma delete_product_removes_witness :
  db_after (run (crud.delete_product 1) sample_clock catalog_db)
  = mkDb [sample_category] [sample_supplier] [] []
  /\ run (endpoints.products.get_product 1) sample_clock
       (db_after (run (crud.delete_product 1) sample_clock catalog_db))
     = (db_after (run (crud.delete_product 1) sample_clock catalog_db),
        inl (HTTPException 404 "Product with id 1 not found"), []).
Proof.
  destruct (delete_product_removes catalog_db sample_clock sample_clock catalog_product)
    as [_ [_ [_ [_ [_ [_ [H _]]]]]]].
  - reflexivity.
  - left. reflexivity.
  - split; [reflexivity | exact H].
Defined.

(** ** Updating a product: refusals and what is left as it was *)

Lemma verify_supplier_skipped (ref : option Z) (clk : nat -> Z) (db : Db) :
  truthy_int ref = false \/ fk_ok (map Supplier.id (suppliers db)) ref = true ->
  answer (run (crud.verify_supplier ref) clk db) = inr tt.
Proof.
  intros [H | H]; [|now apply verify_supplier_passes].
  unfold crud.verify_supplier. now rewrite H.
Qed.

(** X10. [update_product] on an existing product makes its checks in this
    order, and a request that fails one leaves the database as it is, with
    nothing committed: a non-empty SKU that another product has is refused
    with 400; then a non-zero [category_id] that is the key of no category is
    refused with 404; then a non-zero [supplier_id] that is the key of no
    supplier is refused with 404; then a request that gives null for a column
    declared [nullable=False] fails with the integrity error of the commit. *)
Theorem update_product_refused (db : Db) (clk : nat -> Z) (i : Z) (u : ProductUpdate.t) :
  integrity_ok db = true ->
  In i (map Product.id (products db)) ->
  (forall s other,
     value (ProductUpdate.sku u) = Some s -> s <> "" ->
     In other (products db) -> Product.sku other = s -> Product.id other <> i ->
     run (crud.update_product i u) clk db
     = (db, inl (HTTPException 400 ("Product with SKU '" ++ s ++ "' already exists")), []))
  /\ (sku_conflict db i u = false ->
      forall c, value (ProductUpdate.category_id u) = Some c -> c <> 0 ->
        ~ In c (map Category.id (categories db)) ->
        run (crud.update_product i u) clk db = (db, not_found "Category" c, []))
  /\ (sku_conflict db i u = false ->
      truthy_int (value (ProductUpdate.category_id u)) = false
      \/ fk_ok (map Category.id (categories db)) (value (ProductUpdate.category_id u)) = true ->
      forall s, value (ProductUpdate.supplier_id u) = Some s -> s <> 0 ->
        ~ In s (map Supplier.id (suppliers db)) ->
        run (crud.update_product i u) clk db = (db, not_found "Supplier" s, []))
  /\ (sku_conflict db i u = false ->
      truthy_int (value (ProductUpdate.category_id u)) = false
      \/ fk_ok (map Category.id (categories db)) (value (ProductUpdate.category_id u)) = true ->
      truthy_int (value (ProductUpdate.supplier_id u)) = false
      \/ fk_ok (map Supplier.id (suppliers db)) (value (ProductUpdate.supplier_id u)) = true ->
      not_null (ProductUpdate.name u) && not_null (ProductUpdate.sku u)
      && not_null (ProductUpdate.price u) && not_null (ProductUpdate.stock_quantity u)
      && not_null (ProductUpdate.reorder_level u) = false ->
      run (crud.update_product i u) clk db = (db, inl IntegrityError, [])).
Proof.
  intros Hok Hi. apply integrity_ok_iff in Hok.
  destruct (find_present Product.id _ i Hi) as [p Hp].
  split; [|split; [|split]].
  - intros s other Hs Hne Hother Hsku Hid.
    rewrite update_product_run, Hp. unfold sku_conflict.
    rewrite Hs, (truthy_str_Some s Hne), <- Hsku,
      (find_string_key Product.sku _ other (product_skus db Hok) Hother).
    apply Z.eqb_neq in Hid. rewrite Hid. reflexivity.
  - intros Hsku c Hc Hc0 Hmiss.
    rewrite update_product_run, Hp, Hsku, Hc, (verify_category_missing c clk db Hc0 Hmiss).
    reflexivity.
  - intros Hsku Hcat s Hs Hs0 Hmiss.
    rewrite update_product_run, Hp, Hsku, (verify_category_skipped _ clk db Hcat), Hs,
      (verify_supplier_missing s clk db Hs0 Hmiss).
    reflexivity.
  - intros Hsku Hcat Hsup Hnull.
    rewrite update_product_run, Hp, Hsku, (verify_category_skipped _ clk db Hcat),
      (verify_supplier_skipped _ clk db Hsup).
    assert (Hset : setattrs_product p u = None).
    { unfold setattrs_product.
      destruct (ProductUpdate.name u) as [|[?|]]; cbn [assign_required]; [| |reflexivity];
        (destruct (ProductUpdate.sku u) as [|[?|]]; cbn [assign_required]; [| |reflexivity];
         (destruct (ProductUpdate.price u) as [|[?|]]; cbn [assign_required];
          [| |reflexivity];
          (destruct (ProductUpdate.stock_quantity u) as [|[?|]]; cbn [assign_required];
           [| |reflexivity];
           (destruct (ProductUpdate.reorder_level u) as [|[?|]]; cbn [assign_required];
            [discriminate Hnull | discriminate Hnull | reflexivity])))). }
    rewrite Hset. reflexivity.
Qed.

Lemma update_product_refused_witness :
  run (crud.update_product 2
         (ProductUpdate.mk unset unset (given (Some "LAP-001")) unset unset unset unset unset))
    sample_clock two_product_db
  = (two_product_db, inl (HTTPException 400 "Product with SKU 'LAP-001' already exists"), [])
  /\ run (crud.update_product 2
            (ProductUpdate.mk (given None) unset unset unset unset unset unset unset))
       sample_clock two_product_db
     = (two_product_db, inl IntegrityError, []).
Proof.
  split.
  - destruct (update_product_refused two_product_db sample_clock 2
                (ProductUpdate.mk unset unset (given (Some "LAP-001")) unset unset unset
                   unset unset)) as [H _].
    + reflexivity.
    + right. left. reflexivity.
    + apply (H "LAP-001" catalog_product);
        [reflexivity | discriminate | left; reflexivity | reflexivity | discriminate].
  - destruct (update_product_refused two_product_db sample_clock 2
                (ProductUpdate.mk (given None) unset unset unset unset unset unset unset))
      as [_ [_ [_ H]]].
    + reflexivity.
    + right. left. reflexivity.
    + apply H; [reflexivity | left; reflexivity | left; reflexivity | reflexivity].
Defined.

Lemma Product_eqb_refl (a : Product.t) : Product.eqb a a = true.
Proof.
  assert (Hs : forall o : option string, option_eqb String.eqb o o = true)
    by (intros [x|]; [apply String.eqb_refl | reflexivity]).
  assert (Hz : forall o : option Z, option_eqb Z.eqb o o = true)
    by (intros [x|]; [apply Z.eqb_refl | reflexivity]).
  unfold Product.eqb. now rewrite !Z.eqb_refl, !String.eqb_refl, !Hs, !Hz.
Qed.

(** What an update that passes the checks commits. *)
Lemma update_product_commits (db : Db) (clk : nat -> Z) (P : Product.t)
    (u : ProductUpdate.t) :
  integrity_ok db = true ->
  In P (products db) ->
  update_passes db (Product.id P) u = true ->
  let row := updated_row P u in
  let db' := flush_product (clk 0%nat) row db in
  let P' := if Product.eqb P row then P else Product.set_updated_at row (Some (clk 0%nat)) in
  run (crud.update_product (Product.id P) u) clk db = (db', inr P', [db'])
  /\ Integrity db'
  /\ (P' = row \/ P' = Product.set_updated_at row (Some (clk 0%nat)))
  /\ exists l1 l2, products db = l1 ++ P :: l2 /\ products db' = l1 ++ P' :: l2.
Proof.
  intros Hok HP Hpass. cbv zeta. apply integrity_ok_iff in Hok.
  set (row := updated_row P u).
  assert (Hok' : Integrity (flush_product (clk 0%nat) row db)).
  { pose proof Hpass as Hpass'. unfold update_passes in Hpass'.
    rewrite !andb_true_iff in Hpass'. destruct Hpass' as [[[_ Hsku] Hcat] Hsup].
    apply (flush_product_integrity _ row P db Hok HP); [reflexivity | | |].
    - intros p Hp Hs. unfold row, updated_row in Hs. cbn [Product.sku] in Hs.
      destruct (ProductUpdate.sku u) as [|[s|]]; cbn [assigned value] in Hs, Hsku.
      + f_equal. eapply NoDup_map_eq; eauto using product_skus.
      + rewrite forallb_forall in Hsku. specialize (Hsku p Hp).
        rewrite Hs, String.eqb_refl in Hsku. cbn [negb orb] in Hsku.
        now apply Z.eqb_eq in Hsku.
      + f_equal. eapply NoDup_map_eq; eauto using product_skus.
    - unfold row, updated_row. cbn [Product.category_id].
      destruct (ProductUpdate.category_id u); cbn [assign value] in Hcat |- *;
        [apply (product_refs db Hok P HP) | assumption].
    - unfold row, updated_row. cbn [Product.supplier_id].
      destruct (ProductUpdate.supplier_id u); cbn [assign value] in Hsup |- *;
        [apply (product_refs db Hok P HP) | assumption]. }
  destruct (flush_product_split (clk 0%nat) row P db (product_keys db Hok) HP eq_refl)
    as [l1 [l2 [Hl Hl']]].
  set (P' := if Product.eqb P row then P else Product.set_updated_at row (Some (clk 0%nat)))
    in *.
  assert (Hfind : find (fun x => Product.id x =? Product.id P)
                    (products (flush_product (clk 0%nat) row db)) = Some P').
  { rewrite Hl'. apply find_middle.
    - intros y Hy. apply Z.eqb_neq. intros E.
      pose proof (product_keys db Hok) as Hnd. rewrite Hl, map_app in Hnd.
      cbn [map] in Hnd. apply NoDup_remove_2 in Hnd. apply Hnd, in_or_app. left.
      rewrite <- E. now apply in_map.
    - apply Z.eqb_eq. unfold P'. destruct (Product.eqb P row); reflexivity. }
  split; [|split; [assumption|split]].
  - rewrite update_product_run, (find_product db P (product_keys db Hok) HP),
      (sku_conflict_passes db _ u Hpass).
    pose proof Hpass as Hpass'. unfold update_passes in Hpass'.
    rewrite !andb_true_iff in Hpass'. destruct Hpass' as [[_ Hcat] Hsup].
    rewrite (verify_category_passes _ clk db Hcat), (verify_supplier_passes _ clk db Hsup),
      (setattrs_product_passes db P u Hpass).
    cbv zeta. fold row. rewrite (proj2 (integrity_ok_iff _) Hok').
    change (Product.id row) with (Product.id P). now rewrite Hfind.
  - unfold P'. destruct (Product.eqb P row) eqn:E; [|now right].
    left. now apply Product_eqb_eq.
  - now exists l1, l2.
Qed.

(** X11. [update_product], on a request it carries out, changes the row of
    the product and nothing else: the stored product has the fields given and
    those of [P] where none is given (so its quantity is that of [P] when
    [stock_quantity] is not given), its key and [created_at] are those of
    [P], every other product is as it was, at its place, and the categories,
    the suppliers and the stock movements are untouched.  The request that
    gives no field leaves the whole database as it is. *)
Theorem update_product_frame (db : Db) (clk : nat -> Z) (P : Product.t)
    (u : ProductUpdate.t) :
  integrity_ok db = true ->
  In P (products db) ->
  update_passes db (Product.id P) u = true ->
  let r := run (crud.update_product (Product.id P) u) clk db in
  (exists P' l1 l2,
     answer r = inr P'
     /\ products db = l1 ++ P :: l2
     /\ products (db_after r) = l1 ++ P' :: l2
     /\ Product.set_updated_at P' None = Product.set_updated_at (updated_row P u) None
     /\ Product.id P' = Product.id P
     /\ Product.created_at P' = Product.created_at P
     /\ (ProductUpdate.stock_quantity u = unset ->
         Product.stock_quantity P' = Product.stock_quantity P)
     /\ (ProductUpdate.sku u = unset -> Product.sku P' = Product.sku P)
     /\ categories (db_after r) = categories db
     /\ suppliers (db_after r) = suppliers db
     /\ stock_movements (db_after r) = stock_movements db)
  /\ (u = empty_update -> r = (db, inr P, [db])).
Proof.
  intros Hok HP Hpass. cbv zeta.
  destruct (update_product_commits db clk P u Hok HP Hpass)
    as [Hrun [Hok' [HP' [l1 [l2 [Hl Hl']]]]]].
  set (row := updated_row P u) in *.
  set (P' := if Product.eqb P row then P else Product.set_updated_at row (Some (clk 0%nat)))
    in *.
  split.
  - rewrite Hrun. cbn [answer db_after fst snd].
    exists P', l1, l2. split; [reflexivity|]. split; [exact Hl|]. split; [exact Hl'|].
    split; [destruct HP' as [-> | ->]; reflexivity|].
    split; [destruct HP' as [-> | ->]; reflexivity|].
    split; [destruct HP' as [-> | ->]; reflexivity|].
    split; [intros Hu; destruct HP' as [-> | ->]; unfold row, updated_row;
            cbn [Product.stock_quantity Product.set_updated_at]; now rewrite Hu|].
    split; [intros Hu; destruct HP' as [-> | ->]; unfold row, updated_row;
            cbn [Product.sku Product.set_updated_at]; now rewrite Hu|].
    split; [reflexivity | split; reflexivity].
  - intros ->. rewrite Hrun.
    assert (Hrow : row = P) by (unfold row; destruct P; reflexivity).
    assert (HPP : P' = P).
    { unfold P'. rewrite Hrow, Product_eqb_refl. reflexivity. }
    assert (Hdb : flush_product (clk 0%nat) row db = db).
    { destruct db as [cs ss ps ms]. unfold flush_product, with_products in Hl' |- *.
      cbn [categories suppliers products stock_movements] in Hl, Hl' |- *. f_equal.
      rewrite Hl', HPP. now symmetry. }
    rewrite Hdb, HPP. reflexivity.
Qed.

Lemma update_product_frame_witness :
  exists P',
    answer (run (crud.update_product 1
                   (ProductUpdate.mk (given (Some "Updated Laptop")) unset unset
                      (given (Some 109999)) unset unset unset unset))
              sample_clock two_product_db) = inr P'
    /\ Product.stock_quantity P' = 10
    /\ run (crud.update_product 1 empty_update) sample_clock two_product_db
       = (two_product_db, inr catalog_product, [two_product_db]).
Proof.
  destruct (update_product_frame two_product_db sample_clock catalog_product
              (ProductUpdate.mk (given (Some "Updated Laptop")) unset unset
                 (given (Some 109999)) unset unset unset unset))
    as [[P' [l1 [l2 [H1 [_ [_ [_ [_ [_ [H7 _]]]]]]]]]] _].
  - reflexivity.
  - left. reflexivity.
  - reflexivity.
  - destruct (update_product_frame two_product_db sample_clock catalog_product empty_update)
      as [_ H].
    + reflexivity.
    + left. reflexivity.
    + reflexivity.
    + exists P'. split; [exact H1|]. split; [exact (H7 eq_refl) | exact (H eq_refl)].
Defined.

(** ** Adjustments one after the other *)

(** X12. Two adjustments of a product compose.  After an adjustment by [d1]
    that succeeds, an adjustment by [d2] with [stock + d1 + d2 >= 0] succeeds,
    the quantity is [stock + d1 + d2] (the initial one when [d2 = -d1]) and
    the ledger has gained the quantities [d1] and [d2], in this order; with
    [stock + d1 + d2 < 0] it is refused, the error reports [stock + d1] as the
    current quantity, and the result of the first adjustment stays. *)
Theorem adjust_product_stock_twice (db : Db) (clk1 clk2 : nat -> Z) (P : Product.t)
    (d1 d2 : Z) (n1 n2 : option string) :
  integrity_ok db = true ->
  In P (products db) ->
  0 <= Product.stock_quantity P + d1 ->
  let db1 := db_after (run (crud.adjust_product_stock (Product.id P)
                              (StockAdjustment.mk d1 n1)) clk1 db) in
  let r2 := run (crud.adjust_product_stock (Product.id P) (StockAdjustment.mk d2 n2))
              clk2 db1 in
  (0 <= Product.stock_quantity P + d1 + d2 ->
   exists P2,
     answer r2 = inr P2
     /\ Product.stock_quantity P2 = Product.stock_quantity P + d1 + d2
     /\ (d2 = - d1 -> Product.stock_quantity P2 = Product.stock_quantity P)
     /\ map StockMovement.quantity (stock_movements (db_after r2))
        = map StockMovement.quantity (stock_movements db) ++ [d1; d2])
  /\ (Product.stock_quantity P + d1 + d2 < 0 ->
      answer r2 = inl (HTTPException 400
                         ("Insufficient stock. Current: "
                          ++ str (Product.stock_quantity P + d1)
                          ++ ", Requested: " ++ str (Z.abs d2)))
      /\ db_after r2 = db1
      /\ map StockMovement.quantity (stock_movements (db_after r2))
         = map StockMovement.quantity (stock_movements db) ++ [d1]).
Proof.
  intros Hok HP Hd1. cbv zeta.
  destruct (adjust_product_stock_commits db clk1 P d1 n1 Hok HP Hd1) as [P1 [Hrun1 [Hf1 HP1]]].
  rewrite Hrun1. cbn [db_after fst snd].
  set (db1 := adjusted db (clk1 0%nat) (Product.id P) P (StockAdjustment.mk d1 n1)) in *.
  assert (Hok1 : integrity_ok db1 = true).
  { apply integrity_ok_iff. apply adjusted_integrity; [now apply integrity_ok_iff | assumption]. }
  assert (HP1in : In P1 (products db1)) by (now apply find_some in Hf1).
  assert (Hid1 : Product.id P1 = Product.id P) by (destruct HP1 as [-> | ->]; reflexivity).
  assert (Hq1 : Product.stock_quantity P1 = Product.stock_quantity P + d1)
    by (destruct HP1 as [-> | ->]; reflexivity).
  assert (Hm1 : map StockMovement.quantity (stock_movements db1)
                = map StockMovement.quantity (stock_movements db) ++ [d1]).
  { unfold db1, adjusted. cbv zeta. cbn [stock_movements with_stock_movements].
    rewrite map_app. reflexivity. }
  rewrite <- Hid1. split.
  - intros Hd2.
    destruct (adjust_product_stock_commits db1 clk2 P1 d2 n2 Hok1 HP1in) as [P2 [Hrun2 [_ HP2]]];
      [lia|].
    rewrite Hrun2. cbn [answer db_after fst snd].
    exists P2. split; [reflexivity|].
    assert (Hq2 : Product.stock_quantity P2 = Product.stock_quantity P + d1 + d2)
      by (destruct HP2 as [-> | ->]; cbn [Product.stock_quantity Product.set_stock_quantity
                                            Product.set_updated_at]; lia).
    split; [exact Hq2|]. split; [intros ->; lia|].
    unfold adjusted at 1. cbv zeta. cbn [stock_movements with_stock_movements].
    rewrite map_app.
    change (stock_movements (flush_product (clk2 0%nat)
              (Product.set_stock_quantity P1
                 (Product.stock_quantity P1 + StockAdjustment.quantity (StockAdjustment.mk d2 n2)))
              db1))
      with (stock_movements db1).
    rewrite Hm1, <- app_assoc. reflexivity.
  - intros Hneg.
    apply integrity_ok_iff in Hok1.
    rewrite adjust_product_stock_run, (find_product db1 P1 (product_keys db1 Hok1) HP1in).
    cbn [StockAdjustment.quantity].
    destruct (Product.stock_quantity P1 + d2 <? 0) eqn:E; [|apply Z.ltb_ge in E; lia].
    cbn [answer db_after fst snd]. rewrite Hq1. split; [reflexivity|].
    split; [reflexivity | exact Hm1].
Qed.

Lemma adjust_product_stock_twice_witness :
  exists P2,
    answer (run (crud.adjust_product_stock 1 (StockAdjustment.mk (-20) None)) sample_clock
              (db_after (run (crud.adjust_product_stock 1 (StockAdjustment.mk 20 None))
                           sample_clock sample_db))) = inr P2
    /\ Product.stock_quantity P2 = 10.
Proof.
  destruct (adjust_product_stock_twice sample_db sample_clock sample_clock sample_product
              20 (-20) None None) as [H _].
  - reflexivity.
  - left. reflexivity.
  - vm_compute. discriminate.
  - destruct H as [P2 [H1 [_ [H3 _]]]].
    + vm_compute. discriminate.
    + exists P2. split; [exact H1 | exact (H3 eq_refl)].
Defined.

(** X13. After an adjustment by [d] that succeeds, the low-stock list holds
    the adjusted product exactly when its new quantity [stock + d] is at most
    its reorder level, which the adjustment does not change. *)
Theorem adjust_product_stock_low_stock (db : Db) (clk clk' : nat -> Z) (P : Product.t)
    (d : Z) (note : option string) :
  integrity_ok db = true ->
  In P (products db) ->
  0 <= Product.stock_quantity P + d ->
  let r := run (crud.adjust_product_stock (Product.id P) (StockAdjustment.mk d note)) clk db in
  exists P' low,
    answer r = inr P'
    /\ Product.reorder_level P' = Product.reorder_level P
    /\ answer (run endpoints.products.get_low_stock_products clk' (db_after r)) = inr low
    /\ (In P' low <-> Product.stock_quantity P + d <= Product.reorder_level P)
    /\ (forall x, In x low -> Product.id x = Product.id P -> x = P').
Proof.
  intros Hok HP Hd. cbv zeta.
  destruct (adjust_product_stock_commits db clk P d note Hok HP Hd) as [P' [Hrun [Hf HP']]].
  rewrite Hrun. cbn [answer db_after fst snd].
  set (db' := adjusted db (clk 0%nat) (Product.id P) P (StockAdjustment.mk d note)) in *.
  assert (Hok' : Integrity db').
  { apply adjusted_integrity; [now apply integrity_ok_iff | assumption]. }
  assert (HPin : In P' (products db')) by (now apply find_some in Hf).
  exists P'. eexists. split; [reflexivity|].
  split; [destruct HP' as [-> | ->]; reflexivity|]. split; [reflexivity|].
  cbn [view]. split.
  - rewrite filter_In, Z.leb_le.
    assert (Hq : Product.stock_quantity P' = Product.stock_quantity P + d)
      by (destruct HP' as [-> | ->]; reflexivity).
    assert (Hr : Product.reorder_level P' = Product.reorder_level P)
      by (destruct HP' as [-> | ->]; reflexivity).
    rewrite Hq, Hr. split; [intros [_ H]; exact H | intros H; now split].
  - intros x Hx Hid. apply filter_In in Hx. destruct Hx as [Hx _].
    apply (NoDup_map_eq Product.id (products db')); auto using product_keys.
    rewrite Hid. destruct HP' as [-> | ->]; reflexivity.
Qed.

Lemma adjust_product_stock_low_stock_witness :
  exists P' low,
    answer (run (crud.adjust_product_stock 1 (StockAdjustment.mk (-5) None))
              sample_clock sample_db) = inr P'
    /\ answer (run endpoints.products.get_low_stock_products sample_clock
                 (db_after (run (crud.adjust_product_stock 1 (StockAdjustment.mk (-5) None))
                              sample_clock sample_db))) = inr low
    /\ In P' low.
Proof.
  destruct (adjust_product_stock_low_stock sample_db sample_clock sample_clock sample_product
              (-5) None) as [P' [low [H1 [_ [H3 [H4 _]]]]]].
  - reflexivity.
  - left. reflexivity.
  - vm_compute. discriminate.
  - exists P', low. split; [exact H1|]. split; [exact H3|].
    apply H4. vm_compute. discriminate.
Defined.

(** ** The ledger and the stock quantity *)

Lemma ledger_total_snoc (db db' : Db) (m : StockMovement.t) (i : Z) :
  stock_movements db' = stock_movements db ++ [m] ->
  ledger_total db' i
  = ledger_total db i
    + (if StockMovement.product_id m =? i then StockMovement.quantity m else 0).
Proof.
  intros E. unfold ledger_total, movements_of. rewrite E, filter_app, map_app.
  cbn [filter]. generalize (map StockMovement.quantity
                              (filter (fun m0 => StockMovement.product_id m0 =? i)
                                 (stock_movements db))).
  intros l. destruct (StockMovement.product_id m =? i); cbn [map].
  - induction l as [|x l IH]; cbn [app fold_right]; [lia | rewrite IH; lia].
  - rewrite app_nil_r. lia.
Qed.

Lemma ledger_total_same (db db' : Db) (i : Z) :
  stock_movements db' = stock_movements db -> ledger_total db' i = ledger_total db i.
Proof. intros E. unfold ledger_total, movements_of. now rewrite E. Qed.

Lemma ledger_total_kept (doomed : Product.t -> bool) (db : Db) (i : Z) :
  ~ In i (map Product.id (filter doomed (products db))) ->
  ledger_total (delete_products doomed db) i = ledger_total db i.
Proof.
  intros Hi. unfold ledger_total, movements_of, delete_products. cbn [stock_movements].
  f_equal. f_equal.
  induction (stock_movements db) as [|m l IH]; [reflexivity|].
  cbn [filter].
  destruct (mem (StockMovement.product_id m) _) eqn:M; cbn [negb filter].
  - destruct (StockMovement.product_id m =? i) eqn:E; [|exact IH].
    apply Z.eqb_eq in E. apply mem_In in M. rewrite E in M. contradiction.
  - destruct (StockMovement.product_id m =? i); [now rewrite IH | exact IH].
Qed.

Lemma delete_products_consistent (doomed : Product.t -> bool) (db : Db) :
  Integrity db -> ledger_consistent db -> ledger_consistent (delete_products doomed db).
Proof.
  intros Hok Hc p Hp.
  assert (Hp' : In p (products db) /\ doomed p = false).
  { unfold delete_products in Hp. cbn [products] in Hp. apply filter_In in Hp.
    destruct Hp as [Hp Hd]. now apply negb_true_iff in Hd. }
  destruct Hp' as [Hin Hd].
  rewrite ledger_total_kept; [now apply Hc|].
  intros Hgone. apply in_map_iff in Hgone. destruct Hgone as [x [Hid Hx]].
  apply filter_In in Hx. destruct Hx as [Hx Hdx].
  assert (x = p) by (eapply NoDup_map_eq; eauto using product_keys).
  subst x. congruence.
Qed.

Lemma flushed_consistent (db : Db) (ts : Z) (P row : Product.t) (movs : Db -> Db) :
  Integrity db -> ledger_consistent db -> In P (products db) ->
  Product.id row = Product.id P ->
  products (movs (flush_product ts row db)) = products (flush_product ts row db) ->
  (forall i, i <> Product.id P ->
     ledger_total (movs (flush_product ts row db)) i = ledger_total db i) ->
  Product.stock_quantity row
  = ledger_total (movs (flush_product ts row db)) (Product.id P) ->
  ledger_consistent (movs (flush_product ts row db)).
Proof.
  intros Hok Hc HP Hid Hprods Hother Hrow p Hp. rewrite Hprods in Hp.
  destruct (flush_product_split ts row P db (product_keys db Hok) HP Hid)
    as [l1 [l2 [Hl Hl']]].
  pose proof (product_keys db Hok) as Hnd. rewrite Hl, map_app in Hnd. cbn [map] in Hnd.
  apply NoDup_remove_2 in Hnd.
  rewrite Hl' in Hp. apply in_app_iff in Hp.
  assert (Hrest : forall x, In x l1 \/ In x l2 ->
            Product.stock_quantity x
            = ledger_total (movs (flush_product ts row db)) (Product.id x)).
  { intros x Hx. rewrite Hother.
    - apply Hc. rewrite Hl. apply in_or_app. destruct Hx; [now left | right; now right].
    - intros E. apply Hnd. rewrite <- E, <- map_app. apply in_map, in_or_app. exact Hx. }
  destruct Hp as [Hp | [<- | Hp]]; [apply Hrest; now left | | apply Hrest; now right].
  destruct (Product.eqb P row) eqn:E.
  - apply Product_eqb_eq in E. subst row. exact Hrow.
  - cbn [Product.set_updated_at Product.id Product.stock_quantity]. rewrite Hid. exact Hrow.
Qed.

Lemma category_requests_balanced (db : Db) (clk : nat -> Z) :
  balanced db ->
  (forall c, balanced (db_after (run (endpoints.categories.create_category c) clk db)))
  /\ (forall i c, balanced (db_after (run (endpoints.categories.update_category i c) clk db)))
  /\ (forall c, balanced (db_after (run (endpoints.suppliers.create_supplier c) clk db)))
  /\ (forall i c, balanced (db_after (run (endpoints.suppliers.update_supplier i c) clk db))).
Proof.
  intros [H1 H2]. split; [|split; [|split]]; intros.
  - unfold endpoints.categories.create_category, crud.create_category,
      crud.get_category_by_name, add_category, refresh_category, db_after.
    run_unfold. break_run; cbn [fst snd stored]; split; assumption.
  - unfold endpoints.categories.update_category, crud.update_category,
      crud.get_category_by_name, crud.get_category, save_category, refresh_category, db_after.
    run_unfold. break_run; cbn [fst snd stored]; split; assumption.
  - unfold endpoints.suppliers.create_supplier, crud.create_supplier,
      crud.get_supplier_by_name, add_supplier, refresh_supplier, db_after.
    run_unfold. break_run; cbn [fst snd stored]; split; assumption.
  - unfold endpoints.suppliers.update_supplier, crud.update_supplier,
      crud.get_supplier_by_name, crud.get_supplier, save_supplier, refresh_supplier, db_after.
    run_unfold. break_run; cbn [fst snd stored]; split; assumption.
Qed.

Lemma delete_requests_balanced (db : Db) (clk : nat -> Z) (i : Z) :
  balanced db ->
  balanced (db_after (run (endpoints.categories.delete_category i) clk db))
  /\ balanced (db_after (run (endpoints.suppliers.delete_supplier i) clk db))
  /\ balanced (db_after (run (endpoints.products.delete_product i) clk db)).
Proof.
  intros [H1 H2]. pose proof (proj1 (integrity_ok_iff _) H1) as Hok.
  split; [|split].
  - unfold endpoints.categories.delete_category. rewrite delete_category_run.
    destruct (find _ (categories db)) as [c|]; [|now split].
    cbv zeta. destruct (integrity_ok (category_deleted db (Category.id c))) eqn:E;
      [|now split].
    split; [exact E|].
    exact (delete_products_consistent
             (fun p => option_eqb Z.eqb (Product.category_id p) (Some (Category.id c)))
             db Hok H2).
  - unfold endpoints.suppliers.delete_supplier. rewrite delete_supplier_run.
    destruct (find _ (suppliers db)) as [c|]; [|now split].
    cbv zeta. destruct (integrity_ok (supplier_deleted db (Supplier.id c))) eqn:E;
      [|now split].
    split; [exact E|].
    exact (delete_products_consistent
             (fun p => option_eqb Z.eqb (Product.supplier_id p) (Some (Supplier.id c)))
             db Hok H2).
  - unfold endpoints.products.delete_product. rewrite delete_product_run.
    destruct (find _ (products db)) as [c|]; [|now split].
    cbv zeta.
    destruct (integrity_ok (delete_products (fun r => Product.id r =? Product.id c) db)) eqn:E;
      [|now split].
    split; [exact E|]. now apply delete_products_consistent.
Qed.

Lemma adjust_stock_balanced (db : Db) (clk : nat -> Z) (i : Z) (a : StockAdjustment.t) :
  balanced db -> balanced (db_after (run (endpoints.products.adjust_stock i a) clk db)).
Proof.
  intros [H1 H2]. pose proof (proj1 (integrity_ok_iff _) H1) as Hok.
  unfold endpoints.products.adjust_stock. rewrite adjust_product_stock_run.
  destruct (find _ (products db)) as [p|] eqn:F; [|now split].
  destruct (_ <? 0); [now split|].
  cbv zeta. destruct (integrity_ok (adjusted db (clk 0%nat) i p a)) eqn:E; [|now split].
  split; [exact E|]. apply find_some in F. destruct F as [Hp Hid]. apply Z.eqb_eq in Hid.
  unfold adjusted. cbv zeta.
  set (row := Product.set_stock_quantity p
                (Product.stock_quantity p + StockAdjustment.quantity a)).
  set (e := StockMovement.mk _ i (StockAdjustment.quantity a) _ _ (clk 0%nat)).
  apply (flushed_consistent db (clk 0%nat) p row
           (fun d => with_stock_movements d (stock_movements d ++ [e])) Hok H2 Hp);
    [reflexivity | reflexivity | |].
  - intros j Hj.
    rewrite (ledger_total_snoc db _ e j) by reflexivity.
    cbn [StockMovement.product_id StockMovement.quantity e].
    destruct (i =? j) eqn:Eij; [apply Z.eqb_eq in Eij; congruence | lia].
  - rewrite (ledger_total_snoc db _ e (Product.id p)) by reflexivity.
    cbn [StockMovement.product_id StockMovement.quantity e].
    rewrite Hid, Z.eqb_refl, <- Hid, <- (H2 p Hp). reflexivity.
Qed.

Lemma update_product_balanced (db : Db) (clk : nat -> Z) (i : Z) (u : ProductUpdate.t) :
  ProductUpdate.stock_quantity u = unset ->
  balanced db -> balanced (db_after (run (endpoints.products.update_product i u) clk db)).
Proof.
  intros Hu [H1 H2]. pose proof (proj1 (integrity_ok_iff _) H1) as Hok.
  unfold endpoints.products.update_product, endpoints.validated.
  destruct (ProductUpdate.valid u); [|now split].
  rewrite update_product_run.
  destruct (find _ (products db)) as [p|] eqn:F; [|now split].
  destruct (sku_conflict db i u); [now split|].
  destruct (answer (run (crud.verify_category _) clk db)); [now split|].
  destruct (answer (run (crud.verify_supplier _) clk db)); [now split|].
  destruct (setattrs_product p u) as [row|] eqn:S; [|now split].
  cbv zeta. destruct (integrity_ok (flush_product (clk 0%nat) row db)) eqn:E; [|now split].
  split; [exact E|]. apply find_some in F. destruct F as [Hp Hid].
  apply setattrs_product_Some in S. subst row.
  apply (flushed_consistent db (clk 0%nat) p (updated_row p u) (fun d => d) Hok H2 Hp);
    [reflexivity | reflexivity | |].
  - intros j _. now apply ledger_total_same.
  - cbn [updated_row Product.stock_quantity]. rewrite Hu. cbn [assigned].
    rewrite (H2 p Hp). symmetry. now apply ledger_total_same.
Qed.

Lemma create_product_balanced (db : Db) (clk : nat -> Z) (c : ProductCreate.t) :
  balanced db -> balanced (db_after (run (endpoints.products.create_product c) clk db)).
Proof.
  intros [H1 H2]. pose proof (proj1 (integrity_ok_iff _) H1) as Hok.
  unfold endpoints.products.create_product, endpoints.validated.
  destruct (ProductCreate.valid c) eqn:V; [|now split].
  assert (Hq : 0 <= ProductCreate.stock_quantity c).
  { unfold ProductCreate.valid in V. rewrite !andb_true_iff in V.
    destruct V as [[_ Hq] _]. now apply Z.leb_le in Hq. }
  set (P := created_row db (clk 0%nat) c).
  set (db1 := created db (clk 0%nat) c).
  pose proof (created_row_fresh db (clk 0%nat) c) as Hfresh. fold P in Hfresh.
  assert (Hzero : ledger_total db (Product.id P) = 0).
  { unfold ledger_total. now rewrite (movements_of_missing db _ Hok Hfresh). }
  assert (Hold : forall p, In p (products db) -> Product.id p <> Product.id P).
  { intros p Hp E. apply Hfresh. rewrite <- E. now apply in_map. }
  rewrite create_product_run.
  destruct (is_some _); [now split|].
  destruct (answer (run (crud.verify_category _) clk db)); [now split|].
  destruct (answer (run (crud.verify_supplier _) clk db)); [now split|].
  cbv zeta. rewrite created_find. fold db1 P.
  destruct (integrity_ok db1) eqn:E1; [|now split].
  assert (HP1 : In P (products db1)).
  { unfold db1, created. cbn [products with_products]. apply in_or_app. right. now left. }
  pose proof (created_with_stock_integrity db1 (clk 1%nat) (Product.id P)
                (ProductCreate.stock_quantity c) (proj1 (integrity_ok_iff _) E1)
                (in_map Product.id _ _ HP1)) as Hok2.
  destruct (ProductCreate.stock_quantity c >? 0) eqn:G.
  - rewrite (proj2 (integrity_ok_iff _) Hok2). cbn [db_after fst snd].
    split; [now apply integrity_ok_iff|].
    intros p Hp.
    rewrite (ledger_total_snoc db _ (initial_movement db1 (clk 1%nat) (Product.id P)
                                       (ProductCreate.stock_quantity c)) (Product.id p))
      by reflexivity.
    cbn [initial_movement StockMovement.product_id StockMovement.quantity].
    change (products (created_with_stock db1 (clk 1%nat) (Product.id P)
                        (ProductCreate.stock_quantity c)))
      with (products db ++ [P]) in Hp.
    apply in_app_iff in Hp. destruct Hp as [Hp | [<- | []]].
    + apply Hold in Hp as Hne. apply not_eq_sym, Z.eqb_neq in Hne. rewrite Hne.
      rewrite (H2 p Hp). lia.
    + rewrite Z.eqb_refl, Hzero. reflexivity.
  - cbn [db_after fst snd]. split; [exact E1|].
    intros p Hp.
    rewrite (ledger_total_same db db1) by reflexivity.
    change (products db1) with (products db ++ [P]) in Hp.
    apply in_app_iff in Hp. destruct Hp as [Hp | [<- | []]]; [now apply H2|].
    rewrite Hzero. cbn [P created_row Product.stock_quantity].
    rewrite Z.gtb_ltb in G. apply Z.ltb_ge in G. lia.
Qed.

(** A request that gives no [stock_quantity] to [update_product] keeps the
    ledger and the stock quantities in step. *)
Lemma serve_balanced (db : Db) (rq : Request * (nat -> Z)) :
  sets_stock (fst rq) = false -> balanced db -> balanced (serve db rq).
Proof.
  destruct rq as [[c | i c | i | c | i c | i | c | i u | i | i a] clk];
    cbn [serve fst sets_stock]; intros Hs Hb.
  - now apply category_requests_balanced.
  - now apply category_requests_balanced.
  - now apply delete_requests_balanced.
  - now apply category_requests_balanced.
  - now apply category_requests_balanced.
  - now apply delete_requests_balanced.
  - now apply create_product_balanced.
  - apply update_product_balanced; [|assumption].
    destruct (ProductUpdate.stock_quantity u); [reflexivity | discriminate].
  - now apply delete_requests_balanced.
  - now apply adjust_stock_balanced.
Qed.

(** X14. As long as no update request gives a [stock_quantity], the ledger
    accounts for the stock: after any sequence of requests served from the
    empty database, the stock quantity of every product is the sum of the
    quantities of its stock movements. *)
Theorem ledger_accounts_for_stock (rqs : list (Request * (nat -> Z))) :
  (forall rq, In rq rqs -> sets_stock (fst rq) = false) ->
  forall p, In p (products (serve_all empty_db rqs)) ->
    Product.stock_quantity p = ledger_total (serve_all empty_db rqs) (Product.id p).
Proof.
  intros Hrqs.
  assert (Hb : balanced (serve_all empty_db rqs)); [|exact (proj2 Hb)].
  assert (H0 : balanced empty_db) by (split; [reflexivity | intros p []]).
  unfold serve_all. revert H0. generalize empty_db.
  induction rqs as [|rq rqs IH]; intros db Hdb; cbn [fold_left]; [assumption|].
  apply IH.
  - intros r Hr. apply Hrqs. now right.
  - apply serve_balanced; [apply Hrqs; now left | assumption].
Qed.

Lemma ledger_accounts_for_stock_witness :
  Forall (fun p => Product.stock_quantity p
                   = ledger_total (serve_all empty_db sample_requests) (Product.id p))
    (products (serve_all empty_db sample_requests)).
Proof.
  apply Forall_forall. apply (ledger_accounts_for_stock sample_requests).
  intros rq [<- | [<- | [<- | [<- | []]]]]; reflexivity.
Defined.

(** ** The ledger is append-only *)

Lemma serve_appends (db : Db) (rq : Request * (nat -> Z)) :
  deletes (fst rq) = false ->
  exists l, stock_movements (serve db rq) = stock_movements db ++ l
            /\ (List.length l <= 1)%nat.
Proof.
  assert (Hsame : forall d, stock_movements d = stock_movements db ->
            exists l, stock_movements d = stock_movements db ++ l
                      /\ (List.length l <= 1)%nat).
  { intros d E. exists []. rewrite app_nil_r. split; [exact E | cbn; lia]. }
  assert (Hone : forall d m, stock_movements d = stock_movements db ++ [m] ->
            exists l, stock_movements d = stock_movements db ++ l
                      /\ (List.length l <= 1)%nat).
  { intros d m E. exists [m]. split; [exact E | cbn; lia]. }
  destruct rq as [[c | i c | i | c | i c | i | c | i u | i | i a] clk];
    cbn [serve fst deletes]; intros Hd; try discriminate.
  - unfold endpoints.categories.create_category, crud.create_category,
      crud.get_category_by_name, add_category, refresh_category, db_after.
    run_unfold. break_run; cbn [fst snd stored]; now apply Hsame.
  - unfold endpoints.categories.update_category, crud.update_category,
      crud.get_category_by_name, crud.get_category, save_category, refresh_category, db_after.
    run_unfold. break_run; cbn [fst snd stored]; now apply Hsame.
  - unfold endpoints.suppliers.create_supplier, crud.create_supplier,
      crud.get_supplier_by_name, add_supplier, refresh_supplier, db_after.
    run_unfold. break_run; cbn [fst snd stored]; now apply Hsame.
  - unfold endpoints.suppliers.update_supplier, crud.update_supplier,
      crud.get_supplier_by_name, crud.get_supplier, save_supplier, refresh_supplier, db_after.
    run_unfold. break_run; cbn [fst snd stored]; now apply Hsame.
  - unfold endpoints.products.create_product, endpoints.validated.
    destruct (ProductCreate.valid c); [|now apply Hsame].
    rewrite create_product_run.
    destruct (is_some _); [now apply Hsame|].
    destruct (answer (run (crud.verify_category _) clk db)); [now apply Hsame|].
    destruct (answer (run (crud.verify_supplier _) clk db)); [now apply Hsame|].
    cbv zeta. destruct (integrity_ok (created db (clk 0%nat) c)); [|now apply Hsame].
    destruct (_ >? 0); [|now apply Hsame].
    destruct (integrity_ok (created_with_stock _ _ _ _)); [|now apply Hsame].
    eapply Hone. reflexivity.
  - unfold endpoints.products.update_product, endpoints.validated.
    destruct (ProductUpdate.valid u); [|now apply Hsame].
    apply Hsame, update_product_keeps_movements.
  - unfold endpoints.products.adjust_stock. rewrite adjust_product_stock_run.
    destruct (find _ (products db)) as [p|]; [|now apply Hsame].
    destruct (_ <? 0); [now apply Hsame|].
    cbv zeta. destruct (integrity_ok (adjusted db (clk 0%nat) i p a)); [|now apply Hsame].
    eapply Hone. reflexivity.
Qed.

Lemma serve_delete_adds_nothing (db : Db) (rq : Request * (nat -> Z)) (m : StockMovement.t) :
  deletes (fst rq) = true ->
  In m (stock_movements (serve db rq)) -> In m (stock_movements db).
Proof.
  destruct rq as [[c | i c | i | c | i c | i | c | i u | i | i a] clk];
    cbn [serve fst deletes]; intros Hd; try discriminate.
  - unfold endpoints.categories.delete_category. rewrite delete_category_run.
    destruct (find _ (categories db)) as [c|]; [|trivial].
    cbv zeta. destruct (integrity_ok (category_deleted db (Category.id c))); [|trivial].
    cbn [db_after fst category_deleted delete_products stock_movements with_categories].
    intros H. now apply filter_In in H.
  - unfold endpoints.suppliers.delete_supplier. rewrite delete_supplier_run.
    destruct (find _ (suppliers db)) as [c|]; [|trivial].
    cbv zeta. destruct (integrity_ok (supplier_deleted db (Supplier.id c))); [|trivial].
    cbn [db_after fst supplier_deleted delete_products stock_movements with_suppliers].
    intros H. now apply filter_In in H.
  - unfold endpoints.products.delete_product. rewrite delete_product_run.
    destruct (find _ (products db)) as [c|]; [|trivial].
    cbv zeta.
    destruct (integrity_ok (delete_products (fun r => Product.id r =? Product.id c) db));
      [|trivial].
    cbn [db_after fst delete_products stock_movements].
    intros H. now apply filter_In in H.
Qed.

(** X15. The ledger is append-only.  A sequence of requests that deletes no
    row leaves every stock movement as it was, at its place, and adds at most
    one movement per request at the end of the table; a request that deletes
    a row adds no movement. *)
Theorem ledger_append_only (db : Db) :
  (forall rqs, (forall rq, In rq rqs -> deletes (fst rq) = false) ->
     exists l, stock_movements (serve_all db rqs) = stock_movements db ++ l
               /\ (List.length l <= List.length rqs)%nat)
  /\ (forall rq m, deletes (fst rq) = true ->
        In m (stock_movements (serve db rq)) -> In m (stock_movements db)).
Proof.
  split; [|intros rq m; apply serve_delete_adds_nothing].
  intros rqs. revert db. unfold serve_all.
  induction rqs as [|rq rqs IH]; intros db Hrqs; cbn [fold_left].
  - exists []. rewrite app_nil_r. split; [reflexivity | cbn; lia].
  - destruct (serve_appends db rq) as [l1 [E1 L1]]; [apply Hrqs; now left|].
    destruct (IH (serve db rq)) as [l2 [E2 L2]]; [intros r Hr; apply Hrqs; now right|].
    exists (l1 ++ l2). rewrite E2, E1, <- app_assoc. split; [reflexivity|].
    rewrite length_app. cbn [List.length]. lia.
Qed.

Lemma ledger_append_only_witness :
  exists l, stock_movements (serve_all sample_db (tl sample_requests))
            = stock_movements sample_db ++ l
            /\ (List.length l <= 3)%nat.
Proof.
  destruct (ledger_append_only sample_db) as [H _].
  apply (H (tl sample_requests)).
  intros rq [<- | [<- | [<- | []]]]; reflexivity.
Defined.

(** ** Pages *)

Section Pages.
Context {A : Type}.

Lemma firstn_add (n m : nat) (l : list A) :
  firstn (n + m) l = firstn n l ++ firstn m (skipn n l).
Proof.
  revert l. induction n as [|n IH]; intros l; [reflexivity|].
  destruct l as [|x l]; cbn [Nat.add firstn skipn app].
  - now destruct m.
  - now rewrite IH.
Qed.

Lemma In_firstn (n : nat) (l : list A) (x : A) : In x (firstn n l) -> In x l.
Proof.
  intros H. rewrite <- (firstn_skipn n l). apply in_or_app. now left.
Qed.

Lemma In_skipn (n : nat) (l : list A) (x : A) : In x (skipn n l) -> In x l.
Proof.
  intros H. rewrite <- (firstn_skipn n l). apply in_or_app. now right.
Qed.

Lemma paginate_In (skip limit : Z) (l : list A) (x : A) :
  In x (paginate skip limit l) -> In x l.
Proof. intros H. unfold paginate in H. eapply In_skipn, In_firstn, H. Qed.

Lemma paginate_length (skip limit : Z) (l : list A) :
  0 <= limit -> Z.of_nat (List.length (paginate skip limit l)) <= limit.
Proof.
  intros H. unfold paginate.
  pose proof (firstn_le_length (Z.to_nat limit) (skipn (Z.to_nat skip) l)). lia.
Qed.

(** A page and the page that follows it make the page of both. *)
Lemma paginate_pages (skip n m : Z) (l : list A) :
  0 <= skip -> 0 <= n -> 0 <= m ->
  paginate skip n l ++ paginate (skip + n) m l = paginate skip (n + m) l.
Proof.
  intros Hs Hn Hm. unfold paginate.
  rewrite (Z2Nat.inj_add skip n), (Z2Nat.inj_add n m) by assumption.
  rewrite firstn_add, (Nat.add_comm (Z.to_nat skip)), <- skipn_skipn. reflexivity.
Qed.

(** From the start, a limit that is not below the number of rows gives them
    all. *)
Lemma paginate_all (limit : Z) (l : list A) :
  Z.of_nat (List.length l) <= limit -> paginate 0 limit l = l.
Proof.
  intros H. unfold paginate. cbn [Z.to_nat skipn]. apply firstn_all2. lia.
Qed.

Lemma StronglySorted_firstn (R : A -> A -> Prop) (n : nat) (l : list A) :
  StronglySorted R l -> StronglySorted R (firstn n l).
Proof.
  revert l. induction n as [|n IH]; intros l H; [constructor|].
  destruct l as [|x l]; [constructor|]. cbn [firstn].
  inversion H as [|? ? Hl Hx]; subst. constructor; [now apply IH|].
  apply Forall_forall. intros y Hy. rewrite Forall_forall in Hx.
  apply Hx. eapply In_firstn, Hy.
Qed.

Lemma StronglySorted_skipn (R : A -> A -> Prop) (n : nat) (l : list A) :
  StronglySorted R l -> StronglySorted R (skipn n l).
Proof.
  revert l. induction n as [|n IH]; intros l H; [exact H|].
  destruct l as [|x l]; [constructor|]. cbn [skipn].
  inversion H; subst. now apply IH.
Qed.

End Pages.

(** ** The history of a product, page by page *)

(** X16. For an offset and a limit that are not negative, the history query
    answers with stock movements of the product asked for only, each a row of
    the table, at most [limit] of them, in descending order of [created_at];
    from the start and with a limit that is not below their number, it
    answers with all the movements of the product. *)
Theorem get_product_stock_history_content (db : Db) (clk : nat -> Z)
    (product_id skip limit : Z) :
  0 <= skip -> 0 <= limit ->
  exists h,
    run (crud.get_product_stock_history product_id skip limit) clk db = (db, inr h, [])
    /\ (forall m, In m h ->
          In m (stock_movements db) /\ StockMovement.product_id m = product_id)
    /\ Z.of_nat (List.length h) <= limit
    /\ StronglySorted not_older h
    /\ (skip = 0 -> Z.of_nat (List.length (movements_of db product_id)) <= limit ->
        Permutation h (movements_of db product_id)).
Proof.
  intros _ Hl. rewrite get_product_stock_history_run. eexists. split; [reflexivity|].
  fold (paginate skip limit (history_of db product_id)).
  split; [|split; [|split]].
  - intros m Hm. apply paginate_In in Hm.
    apply (Permutation_in _ (proj1 (history_of_is_history db product_id))) in Hm.
    unfold movements_of in Hm. apply filter_In in Hm. destruct Hm as [Hm He].
    apply Z.eqb_eq in He. now split.
  - now apply paginate_length.
  - unfold paginate. apply StronglySorted_firstn, StronglySorted_skipn, order_by_sorted.
  - intros -> Hlen. rewrite paginate_all.
    + apply order_by_perm.
    + now rewrite (Permutation_length (proj1 (history_of_is_history db product_id))).
Qed.

Lemma get_product_stock_history_content_witness :
  exists h,
    run (crud.get_product_stock_history 1 0 100) sample_clock
      (serve_all empty_db sample_requests)
    = (serve_all empty_db sample_requests, inr h, [])
    /\ map StockMovement.quantity h = [-5; 20; 10].
Proof.
  destruct (get_product_stock_history_content (serve_all empty_db sample_requests)
              sample_clock 1 0 100) as [h [H _]].
  - lia.
  - lia.
  - exists h. split; [exact H|]. injection H as <-. reflexivity.
Defined.

(** Rows of distinct [created_at] have one descending order. *)
Lemma history_unique (h1 h2 : list StockMovement.t) :
  NoDup (map StockMovement.created_at h1) ->
  Permutation h1 h2 ->
  StronglySorted not_older h1 -> StronglySorted not_older h2 ->
  h1 = h2.
Proof.
  revert h2. induction h1 as [|a h1 IH]; intros h2 Hnd Hp S1 S2.
  - apply Permutation_nil in Hp. now subst.
  - destruct h2 as [|b h2].
    + apply Permutation_sym, Permutation_nil in Hp. discriminate.
    + assert (Hab : a = b).
      { assert (Ha : In a (b :: h2)) by (apply (Permutation_in _ Hp); now left).
        assert (Hb : In b (a :: h1))
          by (apply (Permutation_in _ (Permutation_sym Hp)); now left).
        destruct Ha as [Ha | Ha]; [now symmetry|].
        destruct Hb as [Hb | Hb]; [assumption|].
        exfalso.
        inversion S1 as [|? ? _ F1]; subst. inversion S2 as [|? ? _ F2]; subst.
        rewrite Forall_forall in F1, F2.
        specialize (F1 b Hb). specialize (F2 a Ha). unfold not_older in F1, F2.
        cbn [map] in Hnd. inversion Hnd as [|? ? Hnotin _]; subst.
        apply Hnotin. replace (StockMovement.created_at a) with (StockMovement.created_at b)
          by lia.
        now apply in_map. }
      subst b. f_equal.
      cbn [map] in Hnd. inversion Hnd; subst.
      inversion S1; subst. inversion S2; subst.
      apply IH; try assumption. now apply Permutation_cons_inv in Hp.
Qed.

(** X17. When no two stock movements of a product have the same
    [created_at], the descending order of its history is determined, and the
    pages of the history are pages of that one order, whatever the database
    does: for offsets and limits that are not negative and any descending
    order [h] of the movements of the product, the query answers with the
    page of [h] asked for, and the page of [n] movements from [skip] followed
    by the page of [m] movements from [skip + n] is the page of [n + m]
    movements from [skip]; the endpoint answers the same pages within its
    bounds. *)
Theorem get_product_stock_history_pages (db : Db) (clk : nat -> Z)
    (product_id skip n m : Z) (h : list StockMovement.t) :
  0 <= skip -> 0 <= n -> 0 <= m ->
  NoDup (map StockMovement.created_at (movements_of db product_id)) ->
  is_history_of db product_id h ->
  answer (run (crud.get_product_stock_history product_id skip n) clk db)
  = inr (paginate skip n h)
  /\ answer (run (crud.get_product_stock_history product_id (skip + n) m) clk db)
     = inr (paginate (skip + n) m h)
  /\ answer (run (crud.get_product_stock_history product_id skip (n + m)) clk db)
     = inr (paginate skip n h ++ paginate (skip + n) m h)
  /\ (1 <= n -> 1 <= m -> n + m <= 1000 ->
      answer (run (endpoints.products.get_stock_history product_id skip n) clk db)
      = inr (paginate skip n h)
      /\ answer (run (endpoints.products.get_stock_history product_id (skip + n) m) clk db)
         = inr (paginate (skip + n) m h)
      /\ answer (run (endpoints.products.get_stock_history product_id skip (n + m)) clk db)
         = inr (paginate skip n h ++ paginate (skip + n) m h)).
Proof.
  intros Hs Hn Hm Hnd [Hperm Hsorted].
  assert (Hh : history_of db product_id = h).
  { destruct (history_of_is_history db product_id) as [Hp0 Hs0].
    apply history_unique; [| |assumption|assumption].
    - apply (Permutation_NoDup (l := map StockMovement.created_at (movements_of db product_id)));
        [|assumption].
      apply Permutation_map, Permutation_sym, Hp0.
    - apply (Permutation_trans Hp0), Permutation_sym, Hperm. }
  rewrite !get_product_stock_history_run. cbn [answer fst snd].
  fold (paginate skip n (history_of db product_id)).
  fold (paginate (skip + n) m (history_of db product_id)).
  fold (paginate skip (n + m) (history_of db product_id)).
  rewrite Hh, (paginate_pages skip n m h) by assumption.
  split; [reflexivity|]. split; [reflexivity|]. split; [reflexivity|].
  intros Hn1 Hm1 Hnm. rewrite !get_stock_history_run.
  replace ((0 <=? skip) && (1 <=? n) && (n <=? 1000)) with true
    by (symmetry; rewrite !andb_true_iff, !Z.leb_le; lia).
  replace ((0 <=? skip + n) && (1 <=? m) && (m <=? 1000)) with true
    by (symmetry; rewrite !andb_true_iff, !Z.leb_le; lia).
  replace ((0 <=? skip) && (1 <=? n + m) && (n + m <=? 1000)) with true
    by (symmetry; rewrite !andb_true_iff, !Z.leb_le; lia).
  cbn [answer fst snd].
  fold (paginate skip n (history_of db product_id)).
  fold (paginate (skip + n) m (history_of db product_id)).
  fold (paginate skip (n + m) (history_of db product_id)).
  rewrite Hh. split; [reflexivity|]. split; reflexivity.
Qed.

Lemma get_product_stock_history_pages_witness :
  map StockMovement.created_at (movements_of (serve_all empty_db sample_requests) 1)
  = [201; 300; 400]
  /\ exists p1 p2,
       answer (run (crud.get_product_stock_history 1 0 1) sample_clock
                 (serve_all empty_db sample_requests)) = inr p1
       /\ answer (run (crud.get_product_stock_history 1 1 2) sample_clock
                    (serve_all empty_db sample_requests)) = inr p2
       /\ answer (run (crud.get_product_stock_history 1 0 3) sample_clock
                    (serve_all empty_db sample_requests)) = inr (p1 ++ p2)
       /\ map StockMovement.quantity (p1 ++ p2) = [-5; 20; 10].
Proof.
  split; [reflexivity|].
  destruct (get_product_stock_history_pages (serve_all empty_db sample_requests)
              sample_clock 1 0 1 2 (history_of (serve_all empty_db sample_requests) 1))
    as [H1 [H2 [H3 _]]]; try lia.
  - apply distinct_Z. reflexivity.
  - apply history_of_is_history.
  - do 2 eexists. split; [exact H1|]. split; [exact H2|]. split; [exact H3|]. reflexivity.
Defined.

(** ** The listings *)

Lemma paginate_page_of {A} (table : list A) (skip limit : Z) :
  0 <= skip -> 0 <= limit -> page_of table skip limit (paginate skip limit table).
Proof.
  intros Hs Hl. unfold page_of, paginate. split.
  - exists (firstn (Z.to_nat skip) table
            ++ skipn (Z.to_nat limit) (skipn (Z.to_nat skip) table)).
    rewrite <- (firstn_skipn (Z.to_nat skip) table) at 4.
    rewrite <- (firstn_skipn (Z.to_nat limit) (skipn (Z.to_nat skip) table)) at 3.
    apply Permutation_app_swap_app.
  - rewrite length_firstn, length_skipn. lia.
Qed.

(** A page from the start that is as long as the table holds every row of it
    once. *)
Lemma page_of_all {A} (table page : list A) (limit : Z) :
  page_of table 0 limit page -> Z.of_nat (List.length table) <= limit ->
  Permutation page table.
Proof.
  intros [[rest Hperm] Hlen] Hl.
  assert (Hrest : rest = []).
  { apply Permutation_length in Hperm. rewrite length_app in Hperm.
    destruct rest; [reflexivity | cbn [List.length] in Hperm; lia]. }
  subst rest. now rewrite app_nil_r in Hperm.
Qed.

Lemma pagination_ok_nonneg (skip limit : Z) :
  listing.pagination_ok skip limit = true -> 0 <= skip /\ 0 <= limit.
Proof. unfold listing.pagination_ok. rewrite !andb_true_iff, !Z.leb_le. lia. Qed.

Lemma validated_run {A} (valid : bool) (op : M A) (clk : nat -> Z) (db : Db) :
  run (endpoints.validated valid op) clk db
  = if valid then run op clk db else (db, inl RequestValidationError, []).
Proof. destruct valid; reflexivity. Qed.

(** The rows [get_products] pages: the products that the filters want, in the
    order of the table. *)
Lemma get_products_rows (ilike : string -> string -> bool) (c s : option Z)
    (q : option string) (db : Db) :
  exists rows,
    (forall clk skip limit,
       lists (listing.get_products ilike skip limit c s q) clk db (paginate skip limit rows))
    /\ (forall p, In p rows <-> In p (products db) /\ wanted ilike c s q p)
    /\ (List.length rows <= List.length (products db))%nat
    /\ (truthy_int c = false -> truthy_int s = false -> truthy_str q = false ->
        rows = products db).
Proof.
  exists (let rows := products db in
          let rows := if truthy_int c
                      then filter (fun p => option_eqb Z.eqb (Product.category_id p) c) rows
                      else rows in
          let rows := if truthy_int s
                      then filter (fun p => option_eqb Z.eqb (Product.supplier_id p) s) rows
                      else rows in
          if truthy_str q
          then filter (listing.search_filter ilike (match q with Some x => x | None => "" end))
                 rows
          else rows).
  split; [intros clk skip limit; reflexivity|]. split; [|split].
  - intros p. unfold wanted.
    assert (Hc : forall l,
               In p (if truthy_int c
                     then filter (fun p => option_eqb Z.eqb (Product.category_id p) c) l
                     else l)
               <-> In p l /\ (forall i, c = Some i -> i <> 0 -> Product.category_id p = Some i)).
    { intros l. destruct c as [i|]; cbn [truthy_int].
      - destruct (i =? 0) eqn:E; cbn [negb].
        + apply Z.eqb_eq in E. split; [|tauto]. intros H. split; [exact H|].
          intros j [= <-] Hj. contradiction.
        + apply Z.eqb_neq in E. rewrite filter_In, option_eqb_Some. split.
          * intros [H1 H2]. split; [exact H1|]. now intros j [= <-] _.
          * intros [H1 H2]. split; [exact H1|]. now apply H2.
      - split; [|tauto]. intros H. split; [exact H|]. discriminate. }
    assert (Hs : forall l,
               In p (if truthy_int s
                     then filter (fun p => option_eqb Z.eqb (Product.supplier_id p) s) l
                     else l)
               <-> In p l /\ (forall i, s = Some i -> i <> 0 -> Product.supplier_id p = Some i)).
    { intros l. destruct s as [i|]; cbn [truthy_int].
      - destruct (i =? 0) eqn:E; cbn [negb].
        + apply Z.eqb_eq in E. split; [|tauto]. intros H. split; [exact H|].
          intros j [= <-] Hj. contradiction.
        + apply Z.eqb_neq in E. rewrite filter_In, option_eqb_Some. split.
          * intros [H1 H2]. split; [exact H1|]. now intros j [= <-] _.
          * intros [H1 H2]. split; [exact H1|]. now apply H2.
      - split; [|tauto]. intros H. split; [exact H|]. discriminate. }
    assert (Hq : forall l,
               In p (if truthy_str q
                     then filter (listing.search_filter ilike
                                    (match q with Some x => x | None => "" end)) l
                     else l)
               <-> In p l
                   /\ (forall x, q = Some x -> x <> "" ->
                         ilike (Product.name p) ("%" ++ x ++ "%")%string = true
                         \/ (exists d, Product.description p = Some d
                                       /\ ilike d ("%" ++ x ++ "%")%string = true)
                         \/ ilike (Product.sku p) ("%" ++ x ++ "%")%string = true)).
    { intros l. destruct q as [x|]; cbn [truthy_str].
      - destruct (x =? "")%string eqn:E; cbn [negb].
        + apply String.eqb_eq in E. split; [|tauto]. intros H. split; [exact H|].
          intros y [= <-] Hy. contradiction.
        + apply String.eqb_neq in E. rewrite filter_In. unfold listing.search_filter.
          rewrite !orb_true_iff. split.
          * intros [H1 H2]. split; [exact H1|]. intros y [= <-] _.
            destruct H2 as [[H2 | H2] | H2]; [now left | | now right; right].
            right; left. destruct (Product.description p) as [d|]; [|discriminate].
            now exists d.
          * intros [H1 H2]. split; [exact H1|].
            destruct (H2 x eq_refl E) as [H | [[d [Hd H]] | H]];
              [now left; left | | now right].
            left; right. now rewrite Hd.
      - split; [|tauto]. intros H. split; [exact H|]. discriminate. }
    cbv zeta. rewrite Hq, Hs, Hc. tauto.
  - cbv zeta.
    destruct (truthy_str q); [etransitivity; [apply filter_length_le|]|];
      (destruct (truthy_int s); [etransitivity; [apply filter_length_le|]|]);
      (destruct (truthy_int c); [apply filter_length_le | apply Nat.le_refl]).
  - intros Hc Hs Hq. cbv zeta. now rewrite Hc, Hs, Hq.
Qed.

(** X18. The listings of categories, of suppliers and of all the products
    read only.  For an offset and a limit that are not negative, the page
    they answer with holds rows of the table, none more often than the table
    has it, and as many as the limit asks for or as are left after the
    offset; from the start, with a limit that is not below the size of the
    table, it holds every row of the table once.  Nothing is said of the
    order of the rows: the queries have no [ORDER BY].  The endpoints answer
    as the queries for the offsets and limits they accept, and with 422 for
    the others. *)
Theorem listings_rows (ilike : string -> string -> bool) (db : Db) (clk : nat -> Z)
    (skip limit : Z) :
  0 <= skip -> 0 <= limit ->
  (exists l, lists (listing.get_categories skip limit) clk db l
             /\ page_of (categories db) skip limit l
             /\ (skip = 0 -> Z.of_nat (List.length (categories db)) <= limit ->
                 Permutation l (categories db)))
  /\ (exists l, lists (listing.get_suppliers skip limit) clk db l
                /\ page_of (suppliers db) skip limit l
                /\ (skip = 0 -> Z.of_nat (List.length (suppliers db)) <= limit ->
                    Permutation l (suppliers db)))
  /\ (exists l, lists (listing.get_products ilike skip limit None None None) clk db l
                /\ page_of (products db) skip limit l
                /\ (skip = 0 -> Z.of_nat (List.length (products db)) <= limit ->
                    Permutation l (products db)))
  /\ run (listing.list_categories skip limit) clk db
     = (if listing.pagination_ok skip limit
        then run (listing.get_categories skip limit) clk db
        else (db, inl RequestValidationError, []))
  /\ run (listing.list_suppliers skip limit) clk db
     = (if listing.pagination_ok skip limit
        then run (listing.get_suppliers skip limit) clk db
        else (db, inl RequestValidationError, []))
  /\ (forall c s q,
        run (listing.list_products ilike skip limit c s q) clk db
        = (if listing.pagination_ok skip limit
           then run (listing.get_products ilike skip limit c s q) clk db
           else (db, inl RequestValidationError, []))).
Proof.
  intros Hs Hl.
  assert (Hpage : forall A (table : list A),
             page_of table skip limit (paginate skip limit table)
             /\ (skip = 0 -> Z.of_nat (List.length table) <= limit ->
                 Permutation (paginate skip limit table) table)).
  { intros A table. pose proof (paginate_page_of table skip limit Hs Hl) as H.
    split; [exact H|]. intros E Hlen. subst skip. now apply (page_of_all _ _ limit). }
  split; [|split; [|split; [|split; [|split]]]].
  - exists (paginate skip limit (categories db)). split; [reflexivity | apply Hpage].
  - exists (paginate skip limit (suppliers db)). split; [reflexivity | apply Hpage].
  - exists (paginate skip limit (products db)). split; [reflexivity | apply Hpage].
  - unfold listing.list_categories. apply validated_run.
  - unfold listing.list_suppliers. apply validated_run.
  - intros c s q. unfold listing.list_products. apply validated_run.
Qed.

Lemma listings_rows_witness :
  (exists l, lists (listing.list_categories 1 5) sample_clock two_category_db l
             /\ List.length l = 1%nat)
  /\ (exists l, lists (listing.list_categories 0 5) sample_clock two_category_db l
                /\ Permutation l [sample_category; furniture])
  /\ run (listing.list_categories 0 0) sample_clock two_category_db
     = (two_category_db, inl RequestValidationError, []).
Proof.
  split; [|split].
  - destruct (listings_rows sample_ilike two_category_db sample_clock 1 5)
      as [[l [H [[_ Hlen] _]]] [_ [_ [He _]]]]; try lia.
    exists l. split; [unfold lists; rewrite He; exact H|].
    cbn in Hlen. lia.
  - destruct (listings_rows sample_ilike two_category_db sample_clock 0 5)
      as [[l [H [_ Hall]]] [_ [_ [He _]]]]; try lia.
    exists l. split; [unfold lists; rewrite He; exact H|].
    apply Hall; [reflexivity | cbn; lia].
  - destruct (listings_rows sample_ilike two_category_db sample_clock 0 0)
      as [_ [_ [_ [He _]]]]; try lia.
    rewrite He. reflexivity.
Defined.

(** X19. For an offset and a limit that are not negative, [get_products]
    reads only and answers with products of the table that the filters want:
    of the category and of the supplier given, and matching the search text
    in the name, the description or the SKU.  From the start and with a limit
    that is not below the size of the table, it answers with every such
    product.  A category or supplier filter of zero
    and an empty search text filter nothing: they answer as if not given. *)
Theorem get_products_filters (ilike : string -> string -> bool) (db : Db) (clk : nat -> Z)
    (skip limit : Z) (c s : option Z) (q : option string) :
  0 <= skip -> 0 <= limit ->
  (exists l,
     lists (listing.get_products ilike skip limit c s q) clk db l
     /\ Z.of_nat (List.length l) <= limit
     /\ (forall p, In p l -> In p (products db) /\ wanted ilike c s q p)
     /\ (skip = 0 -> Z.of_nat (List.length (products db)) <= limit ->
         forall p, In p (products db) -> wanted ilike c s q p -> In p l))
  /\ run (listing.get_products ilike skip limit (Some 0) s q) clk db
     = run (listing.get_products ilike skip limit None s q) clk db
  /\ run (listing.get_products ilike skip limit c (Some 0) q) clk db
     = run (listing.get_products ilike skip limit c None q) clk db
  /\ run (listing.get_products ilike skip limit c s (Some "")) clk db
     = run (listing.get_products ilike skip limit c s None) clk db.
Proof.
  intros _ Hl. split; [|split; [|split]; reflexivity].
  destruct (get_products_rows ilike c s q db) as [rows [Hrows [Hin [Hle _]]]].
  exists (paginate skip limit rows). split; [apply Hrows|].
  split; [now apply paginate_length|]. split.
  - intros p Hp. apply Hin. eapply paginate_In, Hp.
  - intros -> Hlen p Hp Hw. rewrite paginate_all; [now apply Hin | lia].
Qed.

Lemma get_products_filters_witness :
  exists l,
    lists (listing.get_products sample_ilike 0 100 (Some 1) (Some 0) (Some "mon"))
      sample_clock two_product_db l
    /\ l = [second_product].
Proof.
  destruct (get_products_filters sample_ilike two_product_db sample_clock 0 100
              (Some 1) (Some 0) (Some "mon")) as [[l [H _]] _].
  - lia.
  - lia.
  - exists l. split; [exact H|]. unfold lists in H. injection H as <-. reflexivity.
Defined.

(** X20. The products of a category and of a supplier.  The endpoints check
    the offset and the limit before they look for the row: out of range, the
    answer is 422 whether the row exists or not.  In range and for the
    non-zero key of an existing row, they answer as the listing of products
    filtered by that key: with products of the table that refer to the row
    only, and, from the start and with a limit that is not below the size of
    the table, with every one of them. *)
Theorem parent_products_listed (ilike : string -> string -> bool) (db : Db) (clk : nat -> Z)
    (i skip limit : Z) :
  i <> 0 ->
  (listing.pagination_ok skip limit = false ->
   run (listing.get_category_products ilike i skip limit) clk db
   = (db, inl RequestValidationError, [])
   /\ run (listing.get_supplier_products ilike i skip limit) clk db
      = (db, inl RequestValidationError, []))
  /\ (listing.pagination_ok skip limit = true ->
      In i (map Category.id (categories db)) ->
      exists l,
        lists (listing.get_category_products ilike i skip limit) clk db l
        /\ lists (listing.list_products ilike skip limit (Some i) None None) clk db l
        /\ (forall p, In p l -> In p (products db) /\ Product.category_id p = Some i)
        /\ (skip = 0 -> Z.of_nat (List.length (products db)) <= limit ->
            forall p, In p (products db) -> Product.category_id p = Some i -> In p l))
  /\ (listing.pagination_ok skip limit = true ->
      In i (map Supplier.id (suppliers db)) ->
      exists l,
        lists (listing.get_supplier_products ilike i skip limit) clk db l
        /\ lists (listing.list_products ilike skip limit None (Some i) None) clk db l
        /\ (forall p, In p l -> In p (products db) /\ Product.supplier_id p = Some i)
        /\ (skip = 0 -> Z.of_nat (List.length (products db)) <= limit ->
            forall p, In p (products db) -> Product.supplier_id p = Some i -> In p l)).
Proof.
  intros Hi. split; [|split].
  - intros Hbad. unfold listing.get_category_products, listing.get_supplier_products.
    rewrite !validated_run, Hbad. split; reflexivity.
  - intros Hok Hin. destruct (pagination_ok_nonneg _ _ Hok) as [_ Hl].
    destruct (get_products_rows ilike (Some i) None None db) as [rows [Hrows [Hrin [Hle _]]]].
    pose proof (Hrows clk skip limit) as Hrun.
    assert (Hsound : forall p, In p (paginate skip limit rows) ->
                       In p (products db) /\ wanted ilike (Some i) None None p).
    { intros p Hp. apply Hrin. eapply paginate_In, Hp. }
    assert (Hcomplete : skip = 0 -> Z.of_nat (List.length (products db)) <= limit ->
                        forall p, In p (products db) -> wanted ilike (Some i) None None p ->
                          In p (paginate skip limit rows)).
    { intros -> Hlen p Hp Hw. rewrite paginate_all; [now apply Hrin | lia]. }
    exists (paginate skip limit rows). destruct (find_present Category.id _ i Hin) as [c Hc].
    split; [|split; [|split]].
    + unfold lists, listing.get_category_products, crud.get_category.
      rewrite validated_run, Hok. unfold lists in Hrun. rewrite <- Hrun.
      run_unfold. now rewrite Hc.
    + unfold lists, listing.list_products. now rewrite validated_run, Hok.
    + intros p Hp. destruct (Hsound p Hp) as [H1 [H2 _]]. split; [exact H1|].
      now apply (H2 i).
    + intros Hs Hlen p Hp Hcat. apply (Hcomplete Hs Hlen p Hp).
      split; [|split]; [now intros j [= <-] _ | discriminate | discriminate].
  - intros Hok Hin. destruct (pagination_ok_nonneg _ _ Hok) as [_ Hl].
    destruct (get_products_rows ilike None (Some i) None db) as [rows [Hrows [Hrin [Hle _]]]].
    pose proof (Hrows clk skip limit) as Hrun.
    assert (Hsound : forall p, In p (paginate skip limit rows) ->
                       In p (products db) /\ wanted ilike None (Some i) None p).
    { intros p Hp. apply Hrin. eapply paginate_In, Hp. }
    assert (Hcomplete : skip = 0 -> Z.of_nat (List.length (products db)) <= limit ->
                        forall p, In p (products db) -> wanted ilike None (Some i) None p ->
                          In p (paginate skip limit rows)).
    { intros -> Hlen p Hp Hw. rewrite paginate_all; [now apply Hrin | lia]. }
    exists (paginate skip limit rows). destruct (find_present Supplier.id _ i Hin) as [c Hc].
    split; [|split; [|split]].
    + unfold lists, listing.get_supplier_products, crud.get_supplier.
      rewrite validated_run, Hok. unfold lists in Hrun. rewrite <- Hrun.
      run_unfold. now rewrite Hc.
    + unfold lists, listing.list_products. now rewrite validated_run, Hok.
    + intros p Hp. destruct (Hsound p Hp) as [H1 [_ [H2 _]]]. split; [exact H1|].
      now apply (H2 i).
    + intros Hs Hlen p Hp Hcat. apply (Hcomplete Hs Hlen p Hp).
      split; [|split]; [discriminate | now intros j [= <-] _ | discriminate].
Qed.

Lemma parent_products_listed_witness :
  (exists l,
     lists (listing.get_category_products sample_ilike 1 0 100) sample_clock two_product_db l
     /\ l = [catalog_product; second_product])
  /\ (exists l,
        lists (listing.get_supplier_products sample_ilike 1 0 100) sample_clock
          two_product_db l
        /\ l = [catalog_product]).
Proof.
  destruct (parent_products_listed sample_ilike two_product_db sample_clock 1 0 100)
    as [_ [Hc Hs]].
  - lia.
  - split.
    + destruct Hc as [l [H _]]; [reflexivity | now left |].
      exists l. split; [exact H|]. unfold lists in H. injection H as <-. reflexivity.
    + destruct Hs as [l [H _]]; [reflexivity | now left |].
      exists l. split; [exact H|]. unfold lists in H. injection H as <-. reflexivity.
Defined.

(** ** Deleting a category or a supplier: what stays *)

(** What [delete_products] keeps: the products that are not doomed, and the
    stock movements of no doomed product. *)
Lemma delete_products_kept (doomed : Product.t -> bool) (db : Db) :
  (forall p, In p (products (delete_products doomed db))
             <-> In p (products db) /\ doomed p = false)
  /\ (forall m, In m (stock_movements (delete_products doomed db))
                <-> In m (stock_movements db)
                    /\ (forall p, In p (products db) -> doomed p = true ->
                          Product.id p <> StockMovement.product_id m)).
Proof.
  unfold delete_products. cbn [products stock_movements]. split.
  - intros p. now rewrite filter_In, negb_true_iff.
  - intros m. rewrite filter_In, negb_true_iff, mem_false, in_map_iff.
    split; intros [Hm H]; (split; [exact Hm|]).
    + intros p Hp Hd E. apply H. exists p. split; [exact E|]. apply filter_In. now split.
    + intros [p [E Hp]]. apply filter_In in Hp. destruct Hp as [Hp Hd].
      now apply (H p Hp Hd).
Qed.

Lemma filter_all {A} (f : A -> bool) (l : list A) :
  (forall x, In x l -> f x = true) -> filter f l = l.
Proof.
  induction l as [|a l IH]; intros H; [reflexivity|]. cbn [filter].
  rewrite (H a) by now left. f_equal. apply IH. intros x Hx. apply H. now right.
Qed.

(** With no doomed product, [delete_products] deletes nothing. *)
Lemma delete_products_none (doomed : Product.t -> bool) (db : Db) :
  (forall p, In p (products db) -> doomed p = false) -> delete_products doomed db = db.
Proof.
  intros H. unfold delete_products.
  assert (Hnone : filter doomed (products db) = []).
  { induction (products db) as [|a l IH]; [reflexivity|]. cbn [filter].
    rewrite (H a) by now left. apply IH. intros p Hp. apply H. now right. }
  rewrite Hnone. cbn [map].
  rewrite (filter_all (fun p => negb (doomed p))), (filter_all _ (stock_movements db)).
  - now destruct db.
  - reflexivity.
  - intros p Hp. now rewrite (H p Hp).
Qed.

Lemma option_eqb_Some_false (a : option Z) (i : Z) :
  option_eqb Z.eqb a (Some i) = false <-> a <> Some i.
Proof.
  rewrite <- option_eqb_Some. destruct (option_eqb Z.eqb a (Some i)); split; congruence.
Qed.

(** X21. [delete_category] on an existing category [C] succeeds in one
    commit and removes [C], the products that refer to [C] and the stock
    movements of those products, and nothing else: the other categories, the
    suppliers, the products of other categories and of none, and their stock
    movements stay.  When no product refers to [C], only the category table
    changes.  Afterwards the key of [C] answers 404, and the name of [C] can
    be given to a new category. *)
Theorem delete_category_frame (db : Db) (clk clk' : nat -> Z) (C : Category.t) :
  integrity_ok db = true ->
  In C (categories db) ->
  let r := run (crud.delete_category (Category.id C)) clk db in
  answer r = inr tt
  /\ committed r = [db_after r]
  /\ (forall c, In c (categories (db_after r))
                <-> In c (categories db) /\ Category.id c <> Category.id C)
  /\ suppliers (db_after r) = suppliers db
  /\ (forall p, In p (products (db_after r))
                <-> In p (products db) /\ Product.category_id p <> Some (Category.id C))
  /\ (forall m, In m (stock_movements (db_after r))
                <-> In m (stock_movements db)
                    /\ (forall p, In p (products db) ->
                          Product.category_id p = Some (Category.id C) ->
                          Product.id p <> StockMovement.product_id m))
  /\ ((forall p, In p (products db) -> Product.category_id p <> Some (Category.id C)) ->
      products (db_after r) = products db
      /\ stock_movements (db_after r) = stock_movements db)
  /\ run (listing.get_category (Category.id C)) clk' (db_after r)
     = (db_after r, not_found "Category" (Category.id C), [])
  /\ run (crud.delete_category (Category.id C)) clk' (db_after r)
     = (db_after r, not_found "Category" (Category.id C), [])
  /\ (forall c', CategoryCreate.name c' = Category.name C ->
        answer (run (crud.create_category c') clk' (db_after r))
        = inr (category_row (db_after r) (clk' 0%nat) c')).
Proof.
  intros Hok HC. cbv zeta. apply integrity_ok_iff in Hok.
  pose proof (category_deleted_integrity db (Category.id C) Hok) as Hok'.
  rewrite delete_category_run, (find_key Category.id _ C (category_keys db Hok) HC).
  cbv zeta. rewrite (proj2 (integrity_ok_iff _) Hok').
  cbn [answer db_after committed fst snd].
  set (doomed := fun p => option_eqb Z.eqb (Product.category_id p) (Some (Category.id C))).
  destruct (delete_products_kept doomed db) as [Hprod Hmov].
  assert (Hcat : forall c, In c (categories (category_deleted db (Category.id C)))
                           <-> In c (categories db) /\ Category.id c <> Category.id C).
  { intros c. unfold category_deleted, delete_products.
    cbn [categories with_categories]. now rewrite filter_In, negb_true_iff, Z.eqb_neq. }
  assert (Hgone : ~ In (Category.id C)
                      (map Category.id (categories (category_deleted db (Category.id C))))).
  { intros Hin. apply in_map_iff in Hin. destruct Hin as [c [Hid Hc]].
    apply Hcat in Hc. now destruct Hc. }
  split; [reflexivity|]. split; [reflexivity|]. split; [exact Hcat|].
  split; [reflexivity|]. split; [|split; [|split; [|split; [|split]]]].
  - intros p. unfold category_deleted. cbn [products with_categories]. fold doomed.
    rewrite Hprod. unfold doomed. now rewrite option_eqb_Some_false.
  - intros m. unfold category_deleted. cbn [stock_movements with_categories]. fold doomed.
    rewrite Hmov. unfold doomed. split; intros [Hm H]; (split; [exact Hm|]);
      intros p Hp Hd; apply (H p Hp); now apply option_eqb_Some.
  - intros Hnone. unfold category_deleted. cbn [products stock_movements with_categories].
    fold doomed. rewrite delete_products_none; [now split|].
    intros p Hp. unfold doomed. apply option_eqb_Some_false. now apply Hnone.
  - unfold listing.get_category, crud.get_category. run_unfold.
    now rewrite (find_missing Category.id _ _ Hgone).
  - now rewrite delete_category_run, (find_missing Category.id _ _ Hgone).
  - intros c' Hname.
    assert (Hfree : ~ In (CategoryCreate.name c')
                        (map Category.name (categories (category_deleted db (Category.id C))))).
    { rewrite Hname. intros Hin. apply in_map_iff in Hin. destruct Hin as [c [Hn Hc]].
      apply Hcat in Hc. destruct Hc as [Hc Hne]. apply Hne. f_equal.
      apply (NoDup_map_eq Category.name (categories db));
        [apply (category_names db Hok) | exact Hc | exact HC | exact Hn]. }
    pose proof (category_created_integrity _ (clk' 0%nat) c' Hok' Hfree) as Hok''.
    rewrite create_category_run, (find_string_missing Category.name _ _ Hfree).
    cbn [is_some]. cbv zeta. rewrite (proj2 (integrity_ok_iff _) Hok'').
    cbn [answer fst snd]. f_equal.
    rewrite (find_key Category.id _
               (category_row (category_deleted db (Category.id C)) (clk' 0%nat) c')
               (category_keys _ Hok'')); [reflexivity|].
    unfold category_created. cbn [categories with_categories].
    apply in_or_app. right. now left.
Qed.

Lemma delete_category_frame_witness :
  db_after (run (crud.delete_category 2) sample_clock two_category_db) = catalog_db
  /\ run (listing.get_category 2) sample_clock
       (db_after (run (crud.delete_category 2) sample_clock two_category_db))
     = (db_after (run (crud.delete_category 2) sample_clock two_category_db),
        inl (HTTPException 404 "Category with id 2 not found"), []).
Proof.
  destruct (delete_category_frame two_category_db sample_clock sample_clock furniture)
    as [_ [_ [_ [_ [_ [_ [_ [H _]]]]]]]].
  - reflexivity.
  - right. now left.
  - split; [reflexivity | exact H].
Defined.

(** X22. [delete_supplier] on an existing supplier [S] succeeds in one
    commit and removes [S], the products that refer to [S] and the stock
    movements of those products, and nothing else: the other suppliers, the
    categories, the products of other suppliers and of none, and their stock
    movements stay.  When no product refers to [S], only the supplier table
    changes.  Afterwards the key of [S] answers 404, and the name of [S] can
    be given to a new supplier. *)
Theorem delete_supplier_frame (db : Db) (clk clk' : nat -> Z) (S : Supplier.t) :
  integrity_ok db = true ->
  In S (suppliers db) ->
  let r := run (crud.delete_supplier (Supplier.id S)) clk db in
  answer r = inr tt
  /\ committed r = [db_after r]
  /\ (forall c, In c (suppliers (db_after r))
                <-> In c (suppliers db) /\ Supplier.id c <> Supplier.id S)
  /\ categories (db_after r) = categories db
  /\ (forall p, In p (products (db_after r))
                <-> In p (products db) /\ Product.supplier_id p <> Some (Supplier.id S))
  /\ (forall m, In m (stock_movements (db_after r))
                <-> In m (stock_movements db)
                    /\ (forall p, In p (products db) ->
                          Product.supplier_id p = Some (Supplier.id S) ->
                          Product.id p <> StockMovement.product_id m))
  /\ ((forall p, In p (products db) -> Product.supplier_id p <> Some (Supplier.id S)) ->
      products (db_after r) = products db
      /\ stock_movements (db_after r) = stock_movements db)
  /\ run (listing.get_supplier (Supplier.id S)) clk' (db_after r)
     = (db_after r, not_found "Supplier" (Supplier.id S), [])
  /\ run (crud.delete_supplier (Supplier.id S)) clk' (db_after r)
     = (db_after r, not_found "Supplier" (Supplier.id S), [])
  /\ (forall c', SupplierCreate.name c' = Supplier.name S ->
        answer (run (crud.create_supplier c') clk' (db_after r))
        = inr (supplier_row (db_after r) (clk' 0%nat) c')).
Proof.
  intros Hok HC. cbv zeta. apply integrity_ok_iff in Hok.
  pose proof (supplier_deleted_integrity db (Supplier.id S) Hok) as Hok'.
  rewrite delete_supplier_run, (find_key Supplier.id _ S (supplier_keys db Hok) HC).
  cbv zeta. rewrite (proj2 (integrity_ok_iff _) Hok').
  cbn [answer db_after committed fst snd].
  set (doomed := fun p => option_eqb Z.eqb (Product.supplier_id p) (Some (Supplier.id S))).
  destruct (delete_products_kept doomed db) as [Hprod Hmov].
  assert (Hcat : forall c, In c (suppliers (supplier_deleted db (Supplier.id S)))
                           <-> In c (suppliers db) /\ Supplier.id c <> Supplier.id S).
  { intros c. unfold supplier_deleted, delete_products.
    cbn [suppliers with_suppliers]. now rewrite filter_In, negb_true_iff, Z.eqb_neq. }
  assert (Hgone : ~ In (Supplier.id S)
                      (map Supplier.id (suppliers (supplier_deleted db (Supplier.id S))))).
  { intros Hin. apply in_map_iff in Hin. destruct Hin as [c [Hid Hc]].
    apply Hcat in Hc. now destruct Hc. }
  split; [reflexivity|]. split; [reflexivity|]. split; [exact Hcat|].
  split; [reflexivity|]. split; [|split; [|split; [|split; [|split]]]].
  - intros p. unfold supplier_deleted. cbn [products with_suppliers]. fold doomed.
    rewrite Hprod. unfold doomed. now rewrite option_eqb_Some_false.
  - intros m. unfold supplier_deleted. cbn [stock_movements with_suppliers]. fold doomed.
    rewrite Hmov. unfold doomed. split; intros [Hm H]; (split; [exact Hm|]);
      intros p Hp Hd; apply (H p Hp); now apply option_eqb_Some.
  - intros Hnone. unfold supplier_deleted. cbn [products stock_movements with_suppliers].
    fold doomed. rewrite delete_products_none; [now split|].
    intros p Hp. unfold doomed. apply option_eqb_Some_false. now apply Hnone.
  - unfold listing.get_supplier, crud.get_supplier. run_unfold.
    now rewrite (find_missing Supplier.id _ _ Hgone).
  - now rewrite delete_supplier_run, (find_missing Supplier.id _ _ Hgone).
  - intros c' Hname.
    assert (Hfree : ~ In (SupplierCreate.name c')
                        (map Supplier.name (suppliers (supplier_deleted db (Supplier.id S))))).
    { rewrite Hname. intros Hin. apply in_map_iff in Hin. destruct Hin as [c [Hn Hc]].
      apply Hcat in Hc. destruct Hc as [Hc Hne]. apply Hne. f_equal.
      apply (NoDup_map_eq Supplier.name (suppliers db));
        [apply (supplier_names db Hok) | exact Hc | exact HC | exact Hn]. }
    pose proof (supplier_created_integrity _ (clk' 0%nat) c' Hok' Hfree) as Hok''.
    rewrite create_supplier_run, (find_string_missing Supplier.name _ _ Hfree).
    cbn [is_some]. cbv zeta. rewrite (proj2 (integrity_ok_iff _) Hok'').
    cbn [answer fst snd]. f_equal.
    rewrite (find_key Supplier.id _
               (supplier_row (supplier_deleted db (Supplier.id S)) (clk' 0%nat) c')
               (supplier_keys _ Hok'')); [reflexivity|].
    unfold supplier_created. cbn [suppliers with_suppliers].
    apply in_or_app. right. now left.
Qed.

Lemma delete_supplier_frame_witness :
  db_after (run (crud.delete_supplier 1) sample_clock two_product_db)
  = mkDb [sample_category] [] [second_product] []
  /\ run (listing.get_supplier 1) sample_clock
       (db_after (run (crud.delete_supplier 1) sample_clock two_product_db))
     = (db_after (run (crud.delete_supplier 1) sample_clock two_product_db),
        inl (HTTPException 404 "Supplier with id 1 not found"), []).
Proof.
  destruct (delete_supplier_frame two_product_db sample_clock sample_clock sample_supplier)
    as [_ [_ [_ [_ [_ [_ [_ [H _]]]]]]]].
  - reflexivity.
  - now left.
  - split; [reflexivity | exact H].
Defined.

(** ** Updating a supplier *)

Lemma Supplier_eqb_eq (a b : Supplier.t) : Supplier.eqb a b = true -> a = b.
Proof.
  unfold Supplier.eqb. rewrite !andb_true_iff.
  intros [[[[[[[E1 E2] E3] E4] E5] E6] E7] E8].
  apply Z.eqb_eq in E1, E7. apply String.eqb_eq in E2.
  apply option_eqb_string_eq in E3, E4, E5, E6. apply option_eqb_Z_eq in E8.
  destruct a, b; simpl in *; congruence.
Qed.

(** The table after the row of the key of [C] has been written back. *)
Lemma flush_supplier_split (ts : Z) (row C : Supplier.t) (db : Db) :
  NoDup (map Supplier.id (suppliers db)) -> In C (suppliers db) ->
  Supplier.id row = Supplier.id C ->
  exists l1 l2,
    suppliers db = l1 ++ C :: l2
    /\ suppliers (flush_supplier ts row db)
       = l1 ++ (if Supplier.eqb C row then C else Supplier.set_updated_at row (Some ts)) :: l2
    /\ (forall x, In x (l1 ++ l2) -> Supplier.id x <> Supplier.id C).
Proof.
  intros Hnd HC Hid. apply in_split in HC. destruct HC as [l1 [l2 Hl]].
  exists l1, l2. split; [assumption|].
  unfold flush_supplier. cbn [suppliers with_suppliers]. rewrite Hl in Hnd |- *.
  rewrite map_app in Hnd. cbn [map] in Hnd. apply NoDup_remove_2 in Hnd.
  assert (Hne : forall x, In x (l1 ++ l2) -> Supplier.id x <> Supplier.id C).
  { intros x Hx E. apply Hnd. rewrite <- map_app, <- E. now apply in_map. }
  split; [|exact Hne].
  rewrite map_app. cbn [map]. rewrite Hid, Z.eqb_refl.
  assert (Hkeep : forall l, (forall x, In x l -> Supplier.id x <> Supplier.id C) ->
            map (fun r => if Supplier.id r =? Supplier.id C
                          then (if Supplier.eqb r row then r
                                else Supplier.set_updated_at row (Some ts))
                          else r) l = l).
  { intros l Hl'. rewrite <- (map_id l) at 2. apply map_ext_in. intros x Hx.
    destruct (Supplier.id x =? Supplier.id C) eqn:E; [|reflexivity].
    apply Z.eqb_eq in E. now apply Hl' in Hx. }
  rewrite !Hkeep; [reflexivity | |].
  - intros x Hx. apply Hne, in_or_app. now right.
  - intros x Hx. apply Hne, in_or_app. now left.
Qed.

Lemma flush_supplier_integrity (ts : Z) (row C : Supplier.t) (db : Db) :
  Integrity db -> In C (suppliers db) ->
  Supplier.id row = Supplier.id C ->
  (forall c, In c (suppliers db) -> Supplier.name c = Supplier.name row ->
             Supplier.id c = Supplier.id C) ->
  Integrity (flush_supplier ts row db).
Proof.
  intros Hok HC Hid Hname.
  destruct (flush_supplier_split ts row C db (supplier_keys db Hok) HC Hid)
    as [l1 [l2 [Hl [Hl' Hne]]]].
  assert (Hrow : forall f : Supplier.t -> string,
            (forall t, f (Supplier.set_updated_at row t) = f row) ->
            f (if Supplier.eqb C row then C else Supplier.set_updated_at row (Some ts))
            = f row).
  { intros f Hf. destruct (Supplier.eqb C row) eqn:E; [|apply Hf].
    apply Supplier_eqb_eq in E. now subst. }
  assert (Hids : map Supplier.id (suppliers (flush_supplier ts row db))
                 = map Supplier.id (suppliers db)).
  { rewrite Hl', Hl, !map_app. cbn [map]. f_equal. f_equal.
    destruct (Supplier.eqb C row); [reflexivity | exact Hid]. }
  destruct Hok as [H1 H2 H3 H4 H5 H6 H7 H8 H9].
  constructor; try assumption.
  - rewrite Hids. assumption.
  - rewrite Hl'. rewrite Hl in H4, Hname.
    rewrite map_app in H4 |- *. cbn [map] in H4 |- *.
    rewrite (Hrow Supplier.name) by reflexivity.
    apply NoDup_insert; [now apply NoDup_remove_1 in H4|].
    intros Hin. rewrite <- map_app in Hin. apply in_map_iff in Hin.
    destruct Hin as [c [Hc Hin]]. apply (Hne c Hin). apply Hname; [|assumption].
    apply in_app_iff in Hin. apply in_or_app. destruct Hin; [now left | right; now right].
  - intros p Hp. rewrite Hids. now apply H7.
Qed.

Lemma supplier_name_conflict_passes (db : Db) (supplier_id : Z) (u : SupplierUpdate.t) :
  supplier_update_passes db supplier_id u = true ->
  supplier_name_conflict db supplier_id u = false.
Proof.
  unfold supplier_update_passes, supplier_name_conflict. rewrite andb_true_iff.
  intros [_ Hname].
  destruct (value (SupplierUpdate.name u)) as [s|]; [|reflexivity].
  destruct (truthy_str (Some s)); [|reflexivity].
  destruct (find _ (suppliers db)) as [e|] eqn:E; [|reflexivity].
  apply find_some in E. destruct E as [He Hs].
  rewrite forallb_forall in Hname. specialize (Hname e He).
  rewrite Hs in Hname. cbn [negb orb] in Hname. now rewrite Hname.
Qed.

(** X23. [update_supplier] on an existing supplier [S], with a request whose
    fields fit the columns they are written to (at most 200 characters for
    the name, the contact name and the email, 50 for the phone) and whose
    name is not null and is the name of no other supplier (the name of [S]
    itself is accepted), succeeds in one commit: the supplier stored under
    the key of [S] has the fields given, null where null is given for a
    contact field, and those of [S] where none is given; its key and
    [created_at] are those of [S]; no key of the table changes and the other
    tables are untouched. *)
Theorem update_supplier_applies (db : Db) (clk : nat -> Z) (S : Supplier.t)
    (u : SupplierUpdate.t) :
  integrity_ok db = true ->
  In S (suppliers db) ->
  supplier_columns_ok u = true ->
  supplier_update_passes db (Supplier.id S) u = true ->
  let r := run (crud.update_supplier (Supplier.id S) u) clk db in
  exists S',
    answer r = inr S'
    /\ committed r = [db_after r]
    /\ find (fun x => Supplier.id x =? Supplier.id S) (suppliers (db_after r)) = Some S'
    /\ Supplier.id S' = Supplier.id S
    /\ Supplier.created_at S' = Supplier.created_at S
    /\ Supplier.name S' = assigned (SupplierUpdate.name u) (Supplier.name S)
    /\ Supplier.contact_name S'
       = assign (SupplierUpdate.contact_name u) (Supplier.contact_name S)
    /\ Supplier.email S' = assign (SupplierUpdate.email u) (Supplier.email S)
    /\ Supplier.phone S' = assign (SupplierUpdate.phone u) (Supplier.phone S)
    /\ Supplier.address S' = assign (SupplierUpdate.address u) (Supplier.address S)
    /\ (Supplier.updated_at S' = Supplier.updated_at S
        \/ Supplier.updated_at S' = Some (clk 0%nat))
    /\ map Supplier.id (suppliers (db_after r)) = map Supplier.id (suppliers db)
    /\ categories (db_after r) = categories db
    /\ products (db_after r) = products db
    /\ stock_movements (db_after r) = stock_movements db.
Proof.
  intros Hok HC _ Hpass. cbv zeta. apply integrity_ok_iff in Hok.
  set (row := updated_supplier S u).
  assert (Hset : setattrs_supplier S u = Some row).
  { unfold supplier_update_passes in Hpass. apply andb_true_iff in Hpass.
    destruct Hpass as [Hnn _]. unfold setattrs_supplier.
    now rewrite (assign_required_not_null _ _ Hnn). }
  assert (Hsame : forall c, In c (suppliers db) -> Supplier.name c = Supplier.name S ->
                    Supplier.id c = Supplier.id S).
  { intros c Hc Hs. f_equal.
    apply (NoDup_map_eq Supplier.name (suppliers db));
      [apply (supplier_names db Hok) | exact Hc | exact HC | exact Hs]. }
  assert (Hok' : Integrity (flush_supplier (clk 0%nat) row db)).
  { apply (flush_supplier_integrity _ row S db Hok HC); [reflexivity|].
    intros c Hc Hs. unfold row, updated_supplier in Hs. cbn [Supplier.name] in Hs.
    unfold supplier_update_passes in Hpass. apply andb_true_iff in Hpass.
    destruct Hpass as [_ Hname].
    destruct (SupplierUpdate.name u) as [|[s|]]; cbn [assigned value] in Hs, Hname.
    - now apply Hsame.
    - rewrite forallb_forall in Hname. specialize (Hname c Hc).
      rewrite Hs, String.eqb_refl in Hname. cbn [negb orb] in Hname.
      now apply Z.eqb_eq in Hname.
    - now apply Hsame. }
  destruct (flush_supplier_split (clk 0%nat) row S db (supplier_keys db Hok) HC eq_refl)
    as [l1 [l2 [Hl [Hl' Hne]]]].
  set (S' := if Supplier.eqb S row then S else Supplier.set_updated_at row (Some (clk 0%nat)))
    in *.
  assert (Hfind : find (fun x => Supplier.id x =? Supplier.id S)
                    (suppliers (flush_supplier (clk 0%nat) row db)) = Some S').
  { rewrite Hl'. apply find_middle.
    - intros y Hy. apply Z.eqb_neq, Hne, in_or_app. now left.
    - apply Z.eqb_eq. unfold S'. destruct (Supplier.eqb S row); reflexivity. }
  rewrite update_supplier_run, (find_key Supplier.id _ S (supplier_keys db Hok) HC),
    (supplier_name_conflict_passes db _ u Hpass), Hset.
  cbv zeta. rewrite (proj2 (integrity_ok_iff _) Hok').
  cbn [answer db_after committed fst snd].
  change (Supplier.id row) with (Supplier.id S). rewrite Hfind.
  exists S'. split; [reflexivity|]. split; [reflexivity|]. split; [reflexivity|].
  assert (HS' : S' = row \/ S' = Supplier.set_updated_at row (Some (clk 0%nat))).
  { unfold S'. destruct (Supplier.eqb S row) eqn:E; [|now right].
    left. now apply Supplier_eqb_eq. }
  split; [destruct HS' as [-> | ->]; reflexivity|].
  split; [destruct HS' as [-> | ->]; reflexivity|].
  split; [destruct HS' as [-> | ->]; reflexivity|].
  split; [destruct HS' as [-> | ->]; reflexivity|].
  split; [destruct HS' as [-> | ->]; reflexivity|].
  split; [destruct HS' as [-> | ->]; reflexivity|].
  split; [destruct HS' as [-> | ->]; reflexivity|].
  split; [destruct HS' as [-> | ->]; [left | right]; reflexivity|].
  split; [|split; [reflexivity | split; reflexivity]].
  rewrite Hl', Hl, !map_app. cbn [map]. f_equal. f_equal.
  destruct HS' as [-> | ->]; reflexivity.
Qed.

Lemma update_supplier_applies_witness :
  exists S',
    answer (run (crud.update_supplier 1
                   (SupplierUpdate.mk (given (Some "Tech Supplies Inc")) (given None)
                      unset (given (Some "555-0100")) unset))
              sample_clock two_supplier_db) = inr S'
    /\ Supplier.name S' = "Tech Supplies Inc"
    /\ Supplier.contact_name S' = None
    /\ Supplier.email S' = Some "john@techsupplies.example"
    /\ Supplier.phone S' = Some "555-0100".
Proof.
  destruct (update_supplier_applies two_supplier_db sample_clock sample_supplier
              (SupplierUpdate.mk (given (Some "Tech Supplies Inc")) (given None)
                 unset (given (Some "555-0100")) unset))
    as [S' [H1 [_ [_ [_ [_ [H5 [H6 [H7 [H8 _]]]]]]]]]].
  - reflexivity.
  - left. reflexivity.
  - reflexivity.
  - reflexivity.
  - exists S'. split; [exact H1|]. split; [exact H5|]. split; [exact H6|].
    split; [exact H7 | exact H8].
Defined.

(** ** What a request leaves behind *)

Lemma category_requests_all_or_nothing (db : Db) (clk : nat -> Z) :
  (forall c,
     all_or_nothing db 1 (outcome (run (endpoints.categories.create_category c) clk db)))
  /\ (forall i c,
        all_or_nothing db 1 (outcome (run (endpoints.categories.update_category i c) clk db)))
  /\ (forall c,
        all_or_nothing db 1 (outcome (run (endpoints.suppliers.create_supplier c) clk db)))
  /\ (forall i c,
        all_or_nothing db 1 (outcome (run (endpoints.suppliers.update_supplier i c) clk db))).
Proof.
  split; [|split; [|split]]; intros.
  - unfold endpoints.categories.create_category. rewrite validated_run, create_category_run.
    break_run; settle.
  - unfold endpoints.categories.update_category. rewrite validated_run, update_category_run.
    unfold not_found. break_run; settle.
  - unfold endpoints.suppliers.create_supplier. rewrite validated_run, create_supplier_run.
    break_run; settle.
  - unfold endpoints.suppliers.update_supplier. rewrite validated_run, update_supplier_run.
    unfold not_found. break_run; settle.
Qed.

Lemma delete_requests_all_or_nothing (db : Db) (clk : nat -> Z) (i : Z) :
  all_or_nothing db 1 (outcome (run (endpoints.categories.delete_category i) clk db))
  /\ all_or_nothing db 1 (outcome (run (endpoints.suppliers.delete_supplier i) clk db))
  /\ all_or_nothing db 1 (outcome (run (endpoints.products.delete_product i) clk db)).
Proof.
  split; [|split].
  - unfold endpoints.categories.delete_category. rewrite delete_category_run.
    break_run; settle.
  - unfold endpoints.suppliers.delete_supplier. rewrite delete_supplier_run.
    break_run; settle.
  - unfold endpoints.products.delete_product. rewrite delete_product_run.
    break_run; settle.
Qed.

Lemma product_requests_all_or_nothing (db : Db) (clk : nat -> Z) :
  integrity_ok db = true ->
  (forall c,
     all_or_nothing db (if ProductCreate.stock_quantity c >? 0 then 2 else 1)%nat
       (outcome (run (endpoints.products.create_product c) clk db)))
  /\ (forall i u,
        all_or_nothing db 1 (outcome (run (endpoints.products.update_product i u) clk db)))
  /\ (forall i a,
        all_or_nothing db 1 (outcome (run (endpoints.products.adjust_stock i a) clk db))).
Proof.
  intros Hok. split; [|split].
  - intros c. unfold endpoints.products.create_product. rewrite validated_run.
    destruct (ProductCreate.valid c); [|settle].
    rewrite create_product_run.
    destruct (is_some _); [settle|].
    destruct (answer (run (crud.verify_category _) clk db)); [settle|].
    destruct (answer (run (crud.verify_supplier _) clk db)); [settle|].
    cbv zeta. rewrite created_find.
    set (P := created_row db (clk 0%nat) c). set (db1 := created db (clk 0%nat) c).
    destruct (integrity_ok db1) eqn:E1; [|settle].
    assert (HP1 : In P (products db1)).
    { unfold db1, created. cbn [products with_products]. apply in_or_app. right. now left. }
    pose proof (created_with_stock_integrity db1 (clk 1%nat) (Product.id P)
                  (ProductCreate.stock_quantity c) (proj1 (integrity_ok_iff _) E1)
                  (in_map Product.id _ _ HP1)) as Hok2.
    apply integrity_ok_iff in Hok2.
    destruct (ProductCreate.stock_quantity c >? 0); [rewrite Hok2|]; settle.
  - intros i u. unfold endpoints.products.update_product.
    rewrite validated_run, update_product_run. break_run; settle.
  - intros i a. unfold endpoints.products.adjust_stock. rewrite adjust_product_stock_run.
    break_run; settle.
Qed.

(** X24. A request is served all or nothing.  In a database that meets the
    constraints, a request whose texts fit the columns they are written to
    and that is answered with an error (422, 400, 404 or an integrity error)
    commits nothing and leaves the database as it was; one that is answered
    without commits exactly once, but the creation of a product with a stock
    above zero, which commits exactly twice, and the database left is the
    last state committed.  Every state committed meets the constraints. *)
Theorem request_all_or_nothing (db : Db) (rq : Request * (nat -> Z)) :
  integrity_ok db = true ->
  fits_columns (fst rq) = true ->
  fst (fst (respond db rq)) = serve db rq
  /\ all_or_nothing db (commits_of (fst rq)) (respond db rq).
Proof.
  intros Hok _.
  destruct (category_requests_all_or_nothing db (snd rq)) as [H1 [H2 [H3 H4]]].
  destruct (product_requests_all_or_nothing db (snd rq) Hok) as [H5 [H6 H7]].
  destruct rq as [[c | i c | i | c | i c | i | c | i u | i | i a] clk];
    cbn [respond serve fst snd commits_of] in *; (split; [reflexivity|]); auto;
    apply delete_requests_all_or_nothing.
Qed.

Lemma request_all_or_nothing_witness :
  respond empty_db (POST_product sample_create, sample_clock)
  = (serve empty_db (POST_product sample_create, sample_clock), None,
     [created empty_db 200 sample_create;
      serve empty_db (POST_product sample_create, sample_clock)])
  /\ all_or_nothing empty_db 2 (respond empty_db (POST_product sample_create, sample_clock))
  /\ respond (serve empty_db (POST_product sample_create, sample_clock))
       (POST_adjust_stock 1 (StockAdjustment.mk (-30) None), sample_clock)
     = (serve empty_db (POST_product sample_create, sample_clock),
        Some (HTTPException 400 "Insufficient stock. Current: 10, Requested: 30"), []).
Proof.
  split; [reflexivity|]. split; [|reflexivity].
  apply (request_all_or_nothing empty_db (POST_product sample_create, sample_clock));
    reflexivity.
Defined.

(** ** Rows and the constraints of their schemas *)

Lemma flush_category_In (ts : Z) (row : Category.t) (db : Db) (x : Category.t) :
  In x (categories (flush_category ts row db)) ->
  In x (categories db) \/ x = Category.set_updated_at row (Some ts).
Proof.
  unfold flush_category. cbn [categories with_categories].
  intros H. apply in_map_iff in H. destruct H as [r [Hx Hr]].
  destruct (Category.id r =? Category.id row); [|subst; auto].
  destruct (Category.eqb r row); subst; auto.
Qed.

Lemma flush_supplier_In (ts : Z) (row : Supplier.t) (db : Db) (x : Supplier.t) :
  In x (suppliers (flush_supplier ts row db)) ->
  In x (suppliers db) \/ x = Supplier.set_updated_at row (Some ts).
Proof.
  unfold flush_supplier. cbn [suppliers with_suppliers].
  intros H. apply in_map_iff in H. destruct H as [r [Hx Hr]].
  destruct (Supplier.id r =? Supplier.id row); [|subst; auto].
  destruct (Supplier.eqb r row); subst; auto.
Qed.

Lemma assigned_ok {A} (ok : A -> bool) (f : field A) (old : A) :
  field_ok ok f = true -> ok old = true -> ok (assigned f old) = true.
Proof. destruct f as [|[v|]]; cbn [field_ok assigned]; auto. Qed.

Lemma conforming_flush_product (ts : Z) (row : Product.t) (db : Db) :
  conforming db -> row_ok row = true -> conforming (flush_product ts row db).
Proof.
  intros [H1 [H2 H3]] Hrow. split; [exact H1|]. split; [exact H2|].
  intros p Hp. apply flush_product_In in Hp.
  destruct Hp as [Hp | [r [_ [_ ->]]]]; [now apply H3 | exact Hrow].
Qed.

Lemma conforming_delete_products (doomed : Product.t -> bool) (db : Db) :
  conforming db -> conforming (delete_products doomed db).
Proof.
  intros [H1 [H2 H3]]. split; [exact H1|]. split; [exact H2|].
  intros p Hp. apply delete_products_kept in Hp. now apply H3.
Qed.

Lemma category_requests_conform (db : Db) (clk : nat -> Z) :
  conforming db ->
  (forall c, conforming (db_after (run (endpoints.categories.create_category c) clk db)))
  /\ (forall i c, conforming (db_after (run (endpoints.categories.update_category i c) clk db)))
  /\ (forall i, conforming (db_after (run (endpoints.categories.delete_category i) clk db))).
Proof.
  intros Hc. pose proof Hc as [H1 [H2 H3]]. split; [|split].
  - intros c. unfold endpoints.categories.create_category.
    rewrite validated_run, create_category_run.
    destruct (CategoryCreate.valid c) eqn:V; [|exact Hc].
    destruct (is_some _); [exact Hc|]. cbv zeta.
    destruct (integrity_ok _); [|exact Hc]. cbn [db_after fst snd].
    split; [|split; assumption].
    intros x Hx. unfold category_created in Hx. cbn [categories with_categories] in Hx.
    apply in_app_iff in Hx. destruct Hx as [Hx | [<- | []]]; [now apply H1 | exact V].
  - intros i u. unfold endpoints.categories.update_category.
    rewrite validated_run, update_category_run.
    destruct (CategoryUpdate.valid u) eqn:V; [|exact Hc].
    destruct (find _ (categories db)) as [c|] eqn:F; [|exact Hc].
    destruct (category_name_conflict db i u); [exact Hc|].
    destruct (setattrs_category c u) as [row|] eqn:S; [|exact Hc]. cbv zeta.
    destruct (integrity_ok _); [|exact Hc]. cbn [db_after fst snd].
    split; [|split; assumption].
    intros x Hx. apply flush_category_In in Hx. destruct Hx as [Hx | ->]; [now apply H1|].
    unfold setattrs_category in S.
    destruct (assign_required (CategoryUpdate.name u) (Category.name c)) as [n|] eqn:E;
      [|discriminate].
    injection S as <-. apply assign_required_Some in E. subst n.
    cbn [Category.set_updated_at Category.name].
    apply assigned_ok; [exact V|]. apply H1. now apply find_some in F.
  - intros i. unfold endpoints.categories.delete_category. rewrite delete_category_run.
    destruct (find _ (categories db)) as [c|]; [|exact Hc]. cbv zeta.
    destruct (integrity_ok _); [|exact Hc]. cbn [db_after fst snd].
    unfold category_deleted. cbv zeta.
    set (doomed := fun p => option_eqb Z.eqb (Product.category_id p) (Some (Category.id c))).
    destruct (conforming_delete_products doomed db Hc) as [G1 [G2 G3]].
    split; [|split; assumption].
    intros x Hx. cbn [categories with_categories] in Hx. apply filter_In in Hx.
    now apply G1.
Qed.

Lemma supplier_requests_conform (db : Db) (clk : nat -> Z) :
  conforming db ->
  (forall c, conforming (db_after (run (endpoints.suppliers.create_supplier c) clk db)))
  /\ (forall i c, conforming (db_after (run (endpoints.suppliers.update_supplier i c) clk db)))
  /\ (forall i, conforming (db_after (run (endpoints.suppliers.delete_supplier i) clk db))).
Proof.
  intros Hc. pose proof Hc as [H1 [H2 H3]]. split; [|split].
  - intros c. unfold endpoints.suppliers.create_supplier.
    rewrite validated_run, create_supplier_run.
    destruct (SupplierCreate.valid c) eqn:V; [|exact Hc].
    destruct (is_some _); [exact Hc|]. cbv zeta.
    destruct (integrity_ok _); [|exact Hc]. cbn [db_after fst snd].
    split; [assumption|]. split; [|assumption].
    intros x Hx. unfold supplier_created in Hx. cbn [suppliers with_suppliers] in Hx.
    apply in_app_iff in Hx. destruct Hx as [Hx | [<- | []]]; [now apply H2|].
    unfold SupplierCreate.valid in V. rewrite !andb_true_iff in V.
    now destruct V as [[[V _] _] _].
  - intros i u. unfold endpoints.suppliers.update_supplier.
    rewrite validated_run, update_supplier_run.
    destruct (SupplierUpdate.valid u) eqn:V; [|exact Hc].
    destruct (find _ (suppliers db)) as [c|] eqn:F; [|exact Hc].
    destruct (supplier_name_conflict db i u); [exact Hc|].
    destruct (setattrs_supplier c u) as [row|] eqn:S; [|exact Hc]. cbv zeta.
    destruct (integrity_ok _); [|exact Hc]. cbn [db_after fst snd].
    split; [assumption|]. split; [|assumption].
    intros x Hx. apply flush_supplier_In in Hx. destruct Hx as [Hx | ->]; [now apply H2|].
    unfold setattrs_supplier in S.
    destruct (assign_required (SupplierUpdate.name u) (Supplier.name c)) as [n|] eqn:E;
      [|discriminate].
    injection S as <-. apply assign_required_Some in E. subst n.
    cbn [Supplier.set_updated_at Supplier.name].
    apply assigned_ok; [exact V|]. apply H2. now apply find_some in F.
  - intros i. unfold endpoints.suppliers.delete_supplier. rewrite delete_supplier_run.
    destruct (find _ (suppliers db)) as [c|]; [|exact Hc]. cbv zeta.
    destruct (integrity_ok _); [|exact Hc]. cbn [db_after fst snd].
    unfold supplier_deleted. cbv zeta.
    set (doomed := fun p => option_eqb Z.eqb (Product.supplier_id p) (Some (Supplier.id c))).
    destruct (conforming_delete_products doomed db Hc) as [G1 [G2 G3]].
    split; [assumption|]. split; [|assumption].
    intros x Hx. cbn [suppliers with_suppliers] in Hx. apply filter_In in Hx.
    now apply G2.
Qed.

Lemma product_requests_conform (db : Db) (clk : nat -> Z) :
  conforming db ->
  (forall c, conforming (db_after (run (endpoints.products.create_product c) clk db)))
  /\ (forall i u, conforming (db_after (run (endpoints.products.update_product i u) clk db)))
  /\ (forall i, conforming (db_after (run (endpoints.products.delete_product i) clk db)))
  /\ (forall i a, conforming (db_after (run (endpoints.products.adjust_stock i a) clk db))).
Proof.
  intros Hc. pose proof Hc as [H1 [H2 H3]]. split; [|split; [|split]].
  - intros c. unfold endpoints.products.create_product.
    rewrite validated_run, create_product_run.
    destruct (ProductCreate.valid c) eqn:V; [|exact Hc].
    assert (Hnew : conforming (created db (clk 0%nat) c)).
    { split; [exact H1|]. split; [exact H2|].
      intros p Hp. unfold created in Hp. cbn [products with_products] in Hp.
      apply in_app_iff in Hp. destruct Hp as [Hp | [<- | []]]; [now apply H3 | exact V]. }
    destruct (is_some _); [exact Hc|].
    destruct (answer (run (crud.verify_category _) clk db)); [exact Hc|].
    destruct (answer (run (crud.verify_supplier _) clk db)); [exact Hc|].
    cbv zeta. destruct (integrity_ok (created db (clk 0%nat) c)); [|exact Hc].
    destruct (_ >? 0); [|exact Hnew].
    destruct (integrity_ok (created_with_stock _ _ _ _)); exact Hnew.
  - intros i u. unfold endpoints.products.update_product.
    rewrite validated_run, update_product_run.
    destruct (ProductUpdate.valid u) eqn:V; [|exact Hc].
    destruct (find _ (products db)) as [p|] eqn:F; [|exact Hc].
    destruct (sku_conflict db i u); [exact Hc|].
    destruct (answer (run (crud.verify_category _) clk db)); [exact Hc|].
    destruct (answer (run (crud.verify_supplier _) clk db)); [exact Hc|].
    destruct (setattrs_product p u) as [row|] eqn:S; [|exact Hc].
    cbv zeta. destruct (integrity_ok (flush_product (clk 0%nat) row db)); [|exact Hc].
    cbn [db_after fst snd]. apply conforming_flush_product; [exact Hc|].
    apply setattrs_product_Some in S. subst row.
    apply find_some in F. destruct F as [Hp _]. specialize (H3 p Hp).
    unfold row_ok in H3 |- *. unfold ProductUpdate.valid in V.
    rewrite !andb_true_iff in H3, V |- *.
    destruct H3 as [[[[R1 R2] R3] R4] R5]. destruct V as [[[[V1 V2] V3] V4] V5].
    cbn [updated_row Product.name Product.sku Product.price Product.stock_quantity
           Product.reorder_level].
    repeat split.
    + now apply assigned_ok.
    + now apply assigned_ok.
    + now apply (assigned_ok (fun x => 0 <? x)).
    + now apply (assigned_ok (fun x => 0 <=? x)).
    + now apply (assigned_ok (fun x => 0 <=? x)).
  - intros i. unfold endpoints.products.delete_product. rewrite delete_product_run.
    destruct (find _ (products db)) as [c|]; [|exact Hc]. cbv zeta.
    destruct (integrity_ok _); [|exact Hc]. cbn [db_after fst snd].
    now apply conforming_delete_products.
  - intros i a. unfold endpoints.products.adjust_stock. rewrite adjust_product_stock_run.
    destruct (find _ (products db)) as [p|] eqn:F; [|exact Hc].
    destruct (_ <? 0) eqn:N; [exact Hc|].
    cbv zeta. destruct (integrity_ok (adjusted db (clk 0%nat) i p a)); [|exact Hc].
    cbn [db_after fst snd]. unfold adjusted. cbv zeta.
    apply (conforming_flush_product (clk 0%nat)
             (Product.set_stock_quantity p
                (Product.stock_quantity p + StockAdjustment.quantity a))) in Hc.
    + exact Hc.
    + apply find_some in F. destruct F as [Hp _]. specialize (H3 p Hp).
      unfold row_ok in H3 |- *. rewrite !andb_true_iff in H3 |- *.
      destruct H3 as [[[[R1 R2] R3] R4] R5].
      cbn [Product.set_stock_quantity Product.name Product.sku Product.price
             Product.stock_quantity Product.reorder_level].
      repeat split; try assumption. apply Z.leb_le. now apply Z.ltb_ge in N.
Qed.

(** X25. The rows stored keep the constraints of their schemas.  If every
    product of the database meets the [Field] constraints of [ProductBase]
    (a name of 1 to 200 characters, a SKU of 1 to 100, a price above zero, a
    stock quantity and a reorder level that are not negative) and every
    category and supplier has a name of the length its schema asks for, then
    so it is after any sequence of requests, whatever their answers: in
    particular in every database the service reaches from the empty one. *)
Theorem stored_rows_conform (db : Db) (rqs : list (Request * (nat -> Z))) :
  conforming db -> conforming (serve_all db rqs).
Proof.
  unfold serve_all. revert db.
  induction rqs as [|rq rqs IH]; intros db H; cbn [fold_left]; [exact H|].
  apply IH.
  destruct (category_requests_conform db (snd rq) H) as [C1 [C2 C3]].
  destruct (supplier_requests_conform db (snd rq) H) as [S1 [S2 S3]].
  destruct (product_requests_conform db (snd rq) H) as [P1 [P2 [P3 P4]]].
  destruct rq as [[c | i c | i | c | i c | i | c | i u | i | i a] clk];
    cbn [serve snd] in *; auto.
Qed.

Lemma stored_rows_conform_witness :
  conforming (serve_all empty_db sample_requests)
  /\ map Product.price (products (serve_all empty_db sample_requests)) = [2999].
Proof.
  split; [|reflexivity].
  apply (stored_rows_conform empty_db sample_requests).
  split; [|split]; intros x [].
Defined.
